(** * CoinGecko analyser: a shallow embedding of [main.py]

    The program polls a rate-limited market-data API and keeps the results
    in a local SQLite file.  Every method of [CoinGeckoAPI] is embedded as
    a function over an explicit world: the committed database, the HTTP
    exchanges still to come, the clock, and the trace of everything the
    program did to the outside (requests, sleeps, printed lines, SQL
    statements).  Python values are dynamically typed and so are the
    embedded values; a Python exception is an explicit outcome.
    [start_scheduler] only hands three of the methods to the [schedule]
    library and is not embedded. *)

From Stdlib Require Import List String Ascii ZArith QArith Bool Lia DecimalString.
Import ListNotations.

Set Warnings "-register-all".

Local Open Scope string_scope.
Local Open Scope Z_scope.

(** ** Python values *)

(** A Python number: an [int], of any size, or a finite [float], taken
    as the rational it denotes. *)
Inductive number : Type :=
| Int (z : Z)
| Float (q : Q).

Definition rational (n : number) : Q :=
  match n with
  | Int z => inject_Z z
  | Float q => q
  end.

(** An integer in decimal, as SQLite writes it. *)
Definition decimal (z : Z) : string := NilZero.string_of_int (Z.to_int z).

(** What [response.json()] can produce, plus the tuples that
    [cursor.fetchall()] yields.  A string is a sequence of characters
    with code points below 256.  A [VDict] lists the items of the
    dictionary, keys distinct. *)
Inductive value : Type :=
| VNone
| VBool (b : bool)
| VNum (n : number)
| VStr (s : string)
| VList (l : list value)
| VDict (items : list (string * value))
| VTuple (l : list value).

(** The exceptions the program can meet. [InterfaceError] stands for the
    error [sqlite3] raises when a parameter is of a type it cannot bind
    (called [ProgrammingError] from Python 3.11 on); it is never caught.
    Neither are [OverflowError], [OSError] and [RecursionError]. *)
Inductive exn : Type :=
| RequestException
| ValueError
| KeyError
| TypeError
| IndexError
| IntegrityError
| OperationalError
| InterfaceError
| OverflowError
| OSError
| RecursionError.

Definition exn_eqb (a b : exn) : bool :=
  match a, b with
  | RequestException, RequestException
  | ValueError, ValueError
  | KeyError, KeyError
  | TypeError, TypeError
  | IndexError, IndexError
  | IntegrityError, IntegrityError
  | OperationalError, OperationalError
  | InterfaceError, InterfaceError
  | OverflowError, OverflowError
  | OSError, OSError
  | RecursionError, RecursionError => true
  | _, _ => false
  end.

(** A call either returns or raises. *)
Inductive outcome (A : Type) : Type :=
| Ret (a : A)
| Raise (e : exn).
Arguments Ret {A} a.
Arguments Raise {A} e.

Fixpoint lookup (k : string) (items : list (string * value)) : option value :=
  match items with
  | [] => None
  | (k', v) :: rest => if String.eqb k k' then Some v else lookup k rest
  end.

(** [bool(v)]: Python truthiness. *)
Definition truthy (v : value) : bool :=
  match v with
  | VNone => false
  | VBool b => b
  | VNum n => negb (Qeq_bool (rational n) 0)
  | VStr s => negb (String.eqb s "")
  | VList l | VTuple l => match l with [] => false | _ => true end
  | VDict items => match items with [] => false | _ => true end
  end.

(** [obj['key']] with a string key. *)
Definition getitem (obj : value) (key : string) : outcome value :=
  match obj with
  | VDict items =>
      match lookup key items with
      | Some v => Ret v
      | None => Raise KeyError
      end
  | _ => Raise TypeError
  end.

(** [obj[i]] with an integer index. *)
Definition getindex (obj : value) (i : Z) : outcome value :=
  match obj with
  | VList l | VTuple l =>
      let n := Z.of_nat (List.length l) in
      let j := if i <? 0 then i + n else i in
      if (0 <=? j) && (j <? n) then
        match nth_error l (Z.to_nat j) with
        | Some v => Ret v
        | None => Raise IndexError
        end
      else Raise IndexError
  | VStr s =>
      let n := Z.of_nat (String.length s) in
      let j := if i <? 0 then i + n else i in
      if (0 <=? j) && (j <? n) then
        match String.get (Z.to_nat j) s with
        | Some c => Ret (VStr (String c EmptyString))
        | None => Raise IndexError
        end
      else Raise IndexError
  | VDict _ => Raise KeyError
  | _ => Raise TypeError
  end.

(** What a [for] loop iterates over. *)
Definition iterate (v : value) : outcome (list value) :=
  match v with
  | VList l | VTuple l => Ret l
  | VDict items => Ret (map (fun kv => VStr (fst kv)) items)
  | VStr s => Ret (map (fun c => VStr (String c EmptyString)) (list_ascii_of_string s))
  | _ => Raise TypeError
  end.

(** The number a [bool] or a number stands for in arithmetic. *)
Definition as_number (v : value) : option Q :=
  match v with
  | VBool b => Some (if b then 1%Q else 0%Q)
  | VNum n => Some (rational n)
  | _ => None
  end.

(** [a == b]. *)
Fixpoint py_eq (a b : value) {struct a} : bool :=
  let fix seq_eq (l m : list value) {struct l} : bool :=
    match l, m with
    | [], [] => true
    | x :: l', y :: m' => py_eq x y && seq_eq l' m'
    | _, _ => false
    end in
  let fix items_in (d e : list (string * value)) {struct d} : bool :=
    match d with
    | [] => true
    | (k, v) :: d' =>
        match lookup k e with
        | Some v' => py_eq v v' && items_in d' e
        | None => false
        end
    end in
  match a, b with
  | VNone, VNone => true
  | VBool x, VBool y => Bool.eqb x y
  | VBool x, VNum q => Qeq_bool (if x then 1 else 0) (rational q)
  | VNum q, VBool y => Qeq_bool (rational q) (if y then 1 else 0)
  | VNum p, VNum q => Qeq_bool (rational p) (rational q)
  | VStr s, VStr t => String.eqb s t
  | VList l, VList m => seq_eq l m
  | VTuple l, VTuple m => seq_eq l m
  | VDict d, VDict e =>
      Nat.eqb (List.length d) (List.length e) && items_in d e
  | _, _ => false
  end.

(** [a > b]: numbers by value, strings and sequences lexicographically,
    anything else is a [TypeError]. *)
Fixpoint py_gt (a b : value) {struct a} : outcome bool :=
  let fix seq_gt (l m : list value) {struct l} : outcome bool :=
    match l, m with
    | [], _ => Ret false
    | _ :: _, [] => Ret true
    | x :: l', y :: m' => if py_eq x y then seq_gt l' m' else py_gt x y
    end in
  match a, b with
  | VStr s, VStr t => Ret (String.ltb t s)
  | VList l, VList m => seq_gt l m
  | VTuple l, VTuple m => seq_gt l m
  | _, _ =>
      match as_number a, as_number b with
      | Some p, Some q => Ret (negb (Qle_bool p q))
      | _, _ => Raise TypeError
      end
  end.

(** [v * 2]: doubling a number, repeating a sequence twice. *)
Definition py_double (v : value) : outcome value :=
  match v with
  | VBool b => Ret (VNum (Int (if b then 2 else 0)))
  | VNum (Int z) => Ret (VNum (Int (z * 2)))
  | VNum (Float q) => Ret (VNum (Float (q * 2)))
  | VStr s => Ret (VStr (s ++ s))
  | VList l => Ret (VList (l ++ l))
  | VTuple l => Ret (VTuple (l ++ l))
  | VNone | VDict _ => Raise TypeError
  end.

(** [int(s)] on a string: surrounding whitespace, an optional sign, then
    decimal digits in which single underscores may separate digits.  The
    blanks are tab to carriage return, the space, and the two blanks
    above 127 (next line and no-break space); the separators 28 to 31
    are not among them. *)
Definition is_space (c : ascii) : bool :=
  let n := nat_of_ascii c in
  ((9 <=? n) && (n <=? 13) || (n =? 32) || (n =? 133) || (n =? 160))%nat.

Definition is_digit (c : ascii) : bool :=
  let n := nat_of_ascii c in ((48 <=? n) && (n <=? 57))%nat.

Definition digit_value (c : ascii) : Z := Z.of_nat (nat_of_ascii c) - 48.

Fixpoint lstrip (s : string) : string :=
  match s with
  | String c s' => if is_space c then lstrip s' else s
  | EmptyString => s
  end.

Fixpoint rstrip (s : string) : string :=
  match s with
  | String c s' =>
      match rstrip s' with
      | EmptyString => if is_space c then EmptyString else String c EmptyString
      | t => String c t
      end
  | EmptyString => s
  end.

Fixpoint parse_digits (s : string) (acc : Z) (need_digit : bool) : option Z :=
  match s with
  | EmptyString => if need_digit then None else Some acc
  | String c s' =>
      if is_digit c then parse_digits s' (10 * acc + digit_value c) false
      else if Ascii.eqb c "_"
      then if need_digit then None else parse_digits s' acc true
      else None
  end.

Fixpoint count_digits (s : string) : nat :=
  match s with
  | EmptyString => O
  | String c s' => if is_digit c then S (count_digits s') else count_digits s'
  end.

(** [limit] is the interpreter's bound on the digits of a decimal
    string ([sys.get_int_max_str_digits()]: 4300 by default where there
    is one, 0 for none); it is never applied below 640 digits. *)
Definition int_of_str (limit : nat) (s : string) : outcome Z :=
  let body := rstrip (lstrip s) in
  let signed :=
    match body with
    | String "-" t => option_map Z.opp (parse_digits t 0 true)
    | String "+" t => parse_digits t 0 true
    | t => parse_digits t 0 true
    end in
  match signed with
  | Some z =>
      if ((0 <? limit) && (limit <? count_digits body) && (640 <? count_digits body))%nat
      then Raise ValueError
      else Ret z
  | None => Raise ValueError
  end.

(** ** SQLite values and dates *)

(** The storage classes the program can store and read back: NULL,
    INTEGER and REAL (a [number]), TEXT. *)
Inductive sqlval : Type :=
| SNull
| SNum (n : number)
| SText (s : string).

(** Binding a Python value to a [?] placeholder.  An [int] must fit the
    64-bit INTEGER of SQLite. *)
Definition bind_param (v : value) : outcome sqlval :=
  match v with
  | VNone => Ret SNull
  | VBool b => Ret (SNum (Int (if b then 1 else 0)))
  | VNum (Int z) =>
      if (-9223372036854775808 <=? z) && (z <=? 9223372036854775807)
      then Ret (SNum (Int z))
      else Raise OverflowError
  | VNum (Float q) => Ret (SNum (Float q))
  | VStr s => Ret (SText s)
  | VList _ | VDict _ | VTuple _ => Raise InterfaceError
  end.

(** A column value as [fetchall] hands it to Python. *)
Definition value_of_sql (x : sqlval) : value :=
  match x with
  | SNull => VNone
  | SNum q => VNum q
  | SText s => VStr s
  end.

(** SQL [a = b] and [a < b]: [None] is SQL's NULL (the row does not
    match); a number sorts before any text; texts compare bytewise. *)
Definition sql_eq (a b : sqlval) : option bool :=
  match a, b with
  | SNull, _ | _, SNull => None
  | SNum p, SNum q => Some (Qeq_bool (rational p) (rational q))
  | SText s, SText t => Some (String.eqb s t)
  | _, _ => Some false
  end.

Definition sql_lt (a b : sqlval) : option bool :=
  match a, b with
  | SNull, _ | _, SNull => None
  | SNum p, SNum q => Some (negb (Qle_bool (rational q) (rational p)))
  | SNum _, SText _ => Some true
  | SText _, SNum _ => Some false
  | SText s, SText t => Some (String.ltb s t)
  end.

(** A [WHERE] clause keeps a row only when the condition is true. *)
Definition holds (c : option bool) : bool :=
  match c with Some true => true | _ => false end.

Definition sql_and (a b : option bool) : option bool :=
  match a, b with
  | Some false, _ | _, Some false => Some false
  | Some true, Some true => Some true
  | _, _ => None
  end.

(** The Gregorian calendar, one day at a time. *)
Record civil : Type := { year : Z; month : nat; day : nat }.

Definition leap (y : Z) : bool :=
  (y mod 4 =? 0) && (negb (y mod 100 =? 0) || (y mod 400 =? 0)).

Definition days_in_month (y : Z) (m : nat) : nat :=
  match m with
  | 2 => if leap y then 29 else 28
  | 4 | 6 | 9 | 11 => 30
  | _ => 31
  end%nat.

Definition next_day (c : civil) : civil :=
  if (day c <? days_in_month (year c) (month c))%nat
  then {| year := year c; month := month c; day := S (day c) |}
  else if (month c <? 12)%nat
  then {| year := year c; month := S (month c); day := 1 |}
  else {| year := year c + 1; month := 1; day := 1 |}.

Definition prev_day (c : civil) : civil :=
  if (1 <? day c)%nat
  then {| year := year c; month := month c; day := pred (day c) |}
  else if (1 <? month c)%nat
  then {| year := year c; month := pred (month c);
          day := days_in_month (year c) (pred (month c)) |}
  else {| year := year c - 1; month := 12; day := 31 |}.

Definition epoch : civil := {| year := 1970; month := 1; day := 1 |}.

(** The date [n] days after (before, when negative) 1970-01-01. *)
Definition civil_of_day (n : Z) : civil :=
  if 0 <=? n then Nat.iter (Z.to_nat n) next_day epoch
  else Nat.iter (Z.to_nat (- n)) prev_day epoch.

Definition digit_char (n : Z) : ascii := ascii_of_N (Z.to_N (48 + n mod 10)).

Definition pad2 (n : Z) : string :=
  String (digit_char (n / 10)) (String (digit_char n) EmptyString).

Definition pad4 (n : Z) : string :=
  String (digit_char (n / 1000)) (String (digit_char (n / 100))
    (String (digit_char (n / 10)) (String (digit_char n) EmptyString))).

(** [YYYY-MM-DD], the text SQLite's [date()] returns; NULL outside the
    years 0000 to 9999. *)
Definition iso_date (c : civil) : sqlval :=
  if (0 <=? year c) && (year c <=? 9999)
  then SText (pad4 (year c) ++ "-" ++ pad2 (Z.of_nat (month c)) ++ "-"
              ++ pad2 (Z.of_nat (day c)))
  else SNull.

(** [date('now', '<offset> days')] when the clock shows [now] seconds
    since the epoch. *)
Definition sql_date (now offset : Z) : sqlval :=
  iso_date (civil_of_day (now / 86400 + offset)).

(** ** The database file *)

(** [tokens] is created by the program: [id TEXT PRIMARY KEY, name TEXT].
    Both columns have TEXT affinity. *)
Record token_row : Type := { tokens_id : sqlval; tokens_name : sqlval }.

(** The order of the index SQLite keeps for the primary key: NULL first,
    then numbers by value, then texts bytewise. *)
Definition id_before (a b : sqlval) : bool :=
  match a, b with
  | SNull, SNull => false
  | SNull, _ => true
  | _, SNull => false
  | _, _ => holds (sql_lt a b)
  end.

Fixpoint insert_by_id (r : token_row) (rows : list token_row) : list token_row :=
  match rows with
  | [] => [r]
  | x :: rows' =>
      if id_before (tokens_id r) (tokens_id x) then r :: x :: rows'
      else x :: insert_by_id r rows'
  end.

(** The rows in the order of that index; rows are listed in the order of
    their insertion, which rows of one key keep. *)
Definition by_id (rows : list token_row) : list token_row :=
  fold_left (fun sorted r => insert_by_id r sorted) rows [].

(** Modelled from the spec: the table [token_volumes] is never created by
    the program, only used.  A row holds [token_id], [total_volume]
    (a number or NULL) and [date], which defaults to the current day; the
    columns apply no conversion to what is stored.  [rowid] is SQLite's
    own row number. *)
Record volume_row : Type :=
  { rowid : Z; token_id : sqlval; total_volume : sqlval; date : sqlval }.

(** A table that does not exist is [None]. *)
Record database : Type :=
  { tokens : option (list token_row);
    token_volumes : option (list volume_row) }.

Definition set_tokens (t : option (list token_row)) (d : database) : database :=
  {| tokens := t; token_volumes := token_volumes d |}.

Definition set_token_volumes (t : option (list volume_row)) (d : database) : database :=
  {| tokens := tokens d; token_volumes := t |}.

Definition next_rowid (rows : list volume_row) : Z :=
  1 + fold_right (fun r m => Z.max (rowid r) m) 0 rows.

(** ** The world the program runs in *)

(** A piece of a printed line: literal text, or a value or exception
    interpolated by an f-string. *)
Inductive fragment : Type :=
| Lit (s : string)
| Fmt (v : value)
| FmtExn (e : exn).

(** The statements the program sends to SQLite, with the Python values
    given for the placeholders, in placeholder order. *)
Inductive sql : Type :=
| CreateTokens
    (* CREATE TABLE IF NOT EXISTS tokens (id TEXT PRIMARY KEY, name TEXT) *)
| SelectTokenIds
    (* SELECT id FROM tokens *)
| InsertToken (p1 p2 : value)
    (* INSERT INTO tokens VALUES (?, ?) *)
| InsertVolume (p1 p2 : value)
    (* INSERT INTO token_volumes (token_id, total_volume) VALUES (?, ?) *)
| SelectVolumeIds
    (* SELECT id FROM token_volumes *)
| UpdateVolume (p1 p2 : value)
    (* UPDATE token_volumes SET total_volume = ?
       WHERE token_id = ? AND date = date('now') *)
| SelectYesterday (p1 : value)
    (* SELECT total_volume FROM token_volumes
       WHERE token_id = ? AND date = date('now', '-1 day') *)
| DeleteOld.
    (* DELETE FROM token_volumes WHERE date < date('now', '-21 days') *)

Inductive event : Type :=
| EvGet (url : string) (params : list (string * value))
| EvSleep (seconds : Z)
| EvPrint (line : list fragment)
| EvExecute (stmt : sql).

(** An HTTP response, as far as the program looks at it: the status, the
    [Retry-After] header when there is one, and what [response.json()]
    returns (every body is taken to be valid JSON). *)
Record response : Type :=
  { status_code : Z; retry_after_header : option string; json : value }.

(** What [requests.get] does next: answer, or raise a
    [RequestException]. *)
Inductive http_outcome : Type :=
| Responds (r : response)
| Fails.

(** An open [sqlite3] connection: the uncommitted state of its
    transaction, if one is open, and its running count of changed
    rows. *)
Record connection : Type :=
  { txn : option database; total_changes : Z }.

Record world : Type :=
  { db : database;                  (* the committed content of token_data.db *)
    conns : list connection;        (* the connection objects, by handle *)
    pending : list http_outcome;    (* the exchanges to come *)
    clock : Z;                      (* seconds since the epoch *)
    trace : list event }.

Definition set_db (d : database) (w : world) : world :=
  {| db := d; conns := conns w; pending := pending w; clock := clock w; trace := trace w |}.
Definition set_conns (cs : list connection) (w : world) : world :=
  {| db := db w; conns := cs; pending := pending w; clock := clock w; trace := trace w |}.
Definition set_pending (p : list http_outcome) (w : world) : world :=
  {| db := db w; conns := conns w; pending := p; clock := clock w; trace := trace w |}.
Definition set_clock (t : Z) (w : world) : world :=
  {| db := db w; conns := conns w; pending := pending w; clock := t; trace := trace w |}.
Definition add_event (e : event) (w : world) : world :=
  {| db := db w; conns := conns w; pending := pending w; clock := clock w;
     trace := trace w ++ [e] |}.

(** ** Computations *)

(** A computation runs in a world and returns or raises in a new world.
    [None] means the exchanges listed in [pending] ran out before the
    computation finished: the world says nothing about what comes next. *)
Definition M (A : Type) : Type := world -> option (outcome A * world).

Definition ret {A} (a : A) : M A := fun w => Some (Ret a, w).

Definition raise {A} (e : exn) : M A := fun w => Some (Raise e, w).

Definition bind {A B} (m : M A) (k : A -> M B) : M B :=
  fun w =>
    match m w with
    | Some (Ret a, w') => k a w'
    | Some (Raise e, w') => Some (Raise e, w')
    | None => None
    end.

Definition lift {A} (o : outcome A) : M A := fun w => Some (o, w).

(** [try: body except ...]: [handler e] is the clause that catches [e],
    if there is one. *)
Definition try_except {A} (body : M A) (handler : exn -> option (M A)) : M A :=
  fun w =>
    match body w with
    | Some (Raise e, w') =>
        match handler e with
        | Some h => h w'
        | None => Some (Raise e, w')
        end
    | r => r
    end.

Declare Scope monad_scope.
Delimit Scope monad_scope with monad.
Notation "x <- m ;; k" := (bind m (fun x => k))
  (at level 61, m at next level, right associativity) : monad_scope.
Notation "m ;; k" := (bind m (fun _ => k))
  (at level 61, right associativity) : monad_scope.
Local Open Scope monad_scope.

Definition emit (e : event) : M unit := fun w => Some (Ret tt, add_event e w).

(** [print(f"...")].  Formatting is taken to succeed: the integers the
    program formats were read by [int()] or by [response.json()], within
    the interpreter's bound on decimal digits. *)
Definition print (line : list fragment) : M unit := emit (EvPrint line).

(** [requests.get(url, params=params)]. *)
Definition requests_get (url : string) (params : list (string * value)) : M response :=
  fun w =>
    match pending w with
    | [] => None
    | o :: rest =>
        let w' := set_pending rest (add_event (EvGet url params) w) in
        match o with
        | Responds r => Some (Ret r, w')
        | Fails => Some (Raise RequestException, w')
        end
    end.

Definition no_connection : connection := {| txn := None; total_changes := 0 |}.

Definition conn_at (h : nat) (w : world) : connection := nth h (conns w) no_connection.

Fixpoint replace_nth {A} (n : nat) (x : A) (l : list A) : list A :=
  match l, n with
  | [], _ => []
  | _ :: l', O => x :: l'
  | y :: l', S n' => y :: replace_nth n' x l'
  end.

(** What connection [h] sees: its own transaction, else the file. *)
Definition view (h : nat) (w : world) : database :=
  match txn (conn_at h w) with
  | Some d => d
  | None => db w
  end.

(** [sqlite3.connect(db_file)]. Every call in the program opens the same
    file, as with the default [db_file] arguments. *)
Definition connect : M nat :=
  fun w => Some (Ret (List.length (conns w)), set_conns (conns w ++ [no_connection]) w).

(** [conn.commit()]. *)
Definition commit (h : nat) : M unit :=
  fun w =>
    let c := conn_at h w in
    Some (Ret tt,
          set_conns (replace_nth h {| txn := None; total_changes := total_changes c |} (conns w))
                    (set_db (view h w) w)).

(** [conn.close()]: an open transaction is rolled back. *)
Definition close (h : nat) : M unit :=
  fun w =>
    let c := conn_at h w in
    Some (Ret tt,
          set_conns (replace_nth h {| txn := None; total_changes := total_changes c |}
                                 (conns w)) w).

Definition get_total_changes (h : nat) : M Z :=
  fun w => Some (Ret (total_changes (conn_at h w)), w).

Definition and_then {A B} (o : outcome A) (k : A -> outcome B) : outcome B :=
  match o with
  | Ret a => k a
  | Raise e => Raise e
  end.

(** [hash(v)] succeeds. *)
Fixpoint hashable (v : value) : bool :=
  match v with
  | VList _ | VDict _ => false
  | VTuple l => (fix all (l : list value) : bool :=
                   match l with
                   | [] => true
                   | x :: l' => hashable x && all l'
                   end) l
  | _ => true
  end.

(** [x in s] for a set [s], given by its elements. *)
Definition py_in (x : value) (s : list value) : outcome bool :=
  if hashable x then Ret (existsb (py_eq x) s) else Raise TypeError.

(** [{row[0] for row in rows}]. *)
Fixpoint first_column_set (rows : list value) : outcome (list value) :=
  match rows with
  | [] => Ret []
  | row :: rest =>
      and_then (getindex row 0) (fun x =>
      if hashable x
      then and_then (first_column_set rest) (fun s => Ret (x :: s))
      else Raise TypeError)
  end.

Inductive sql_kind : Type := Query | Change | Schema.

Definition kind_of (stmt : sql) : sql_kind :=
  match stmt with
  | CreateTokens => Schema
  | SelectTokenIds | SelectVolumeIds | SelectYesterday _ => Query
  | InsertToken _ _ | InsertVolume _ _ | UpdateVolume _ _ | DeleteOld => Change
  end.

(** What the program depends on without defining it: SQLite's rendering
    of a REAL stored in a TEXT column; Python's [str()] of a number or
    a container; the schema of [token_volumes], which the program
    never creates: whether it declares the column [id] that
    [get_token_volume] selects (taken to be the row number), and which
    rows its constraints accept in a given database; and three limits of
    the interpreter and the platform: the bound on the digits of a
    decimal string (0 for none), whether a sleep of a given length can be
    scheduled when the clock shows a given time (Linux refuses one that
    would end more than 9223372036 seconds after the machine started),
    and how many nested retries of a fetch the recursion limit leaves
    room for, wherever the fetch is called from. *)
Record deployment : Type :=
  { text_of_float : Q -> string;
    str_other : value -> string;
    volumes_has_id : bool;
    volumes_accepts : database -> sqlval -> sqlval -> bool;
    int_max_str_digits : nat;
    sleep_fits : Z -> Z -> bool;
    retry_room : nat }.

Section Program.

Variable sys : deployment.

(** [str(v)]. *)
Definition py_str (v : value) : string :=
  match v with
  | VStr s => s
  | VNone => "None"
  | VBool true => "True"
  | VBool false => "False"
  | _ => str_other sys v
  end.

Definition text_affinity (x : sqlval) : sqlval :=
  match x with
  | SNum (Int z) => SText (decimal z)
  | SNum (Float q) => SText (text_of_float sys q)
  | _ => x
  end.

(** [time.sleep(seconds)] with an [int]: a length beyond what the
    interpreter converts to nanoseconds is an [OverflowError], another
    negative length a [ValueError], a length the platform cannot
    schedule an [OSError]. *)
Definition time_sleep (seconds : Z) : M unit :=
  fun w =>
    if (seconds <? - 9223372036) || (9223372036 <? seconds)
    then Some (Raise OverflowError, w)
    else if seconds <? 0 then Some (Raise ValueError, w)
    else if sleep_fits sys (clock w) seconds
    then Some (Ret tt, set_clock (clock w + seconds) (add_event (EvSleep seconds) w))
    else Some (Raise OSError, w).

(** One statement on the database a connection sees, at clock [now]:
    the error it raises, or the database after it, the number of rows it
    changed and the rows it returns.  A missing table or column is found
    when the statement is prepared, before the parameters are bound.
    [SELECT id FROM tokens] is answered from the index of the primary
    key, in its order. *)
Definition run_sql (stmt : sql) (now : Z) (d : database)
  : outcome (database * Z * list value) :=
  match stmt with
  | CreateTokens =>
      match tokens d with
      | Some _ => Ret (d, 0, [])
      | None => Ret (set_tokens (Some []) d, 0, [])
      end
  | SelectTokenIds =>
      match tokens d with
      | None => Raise OperationalError
      | Some rows =>
          Ret (d, 0, map (fun r => VTuple [value_of_sql (tokens_id r)]) (by_id rows))
      end
  | InsertToken p1 p2 =>
      match tokens d with
      | None => Raise OperationalError
      | Some rows =>
          and_then (bind_param p1) (fun x1 =>
          and_then (bind_param p2) (fun x2 =>
          let i := text_affinity x1 in
          let n := text_affinity x2 in
          if existsb (fun r => holds (sql_eq (tokens_id r) i)) rows
          then Raise IntegrityError
          else Ret (set_tokens (Some (rows ++ [{| tokens_id := i; tokens_name := n |}])%list) d,
                    1, [])))
      end
  | InsertVolume p1 p2 =>
      match token_volumes d with
      | None => Raise OperationalError
      | Some rows =>
          and_then (bind_param p1) (fun x1 =>
          and_then (bind_param p2) (fun x2 =>
          if volumes_accepts sys d x1 x2
          then Ret (set_token_volumes
                      (Some (rows ++ [{| rowid := next_rowid rows; token_id := x1;
                                         total_volume := x2; date := sql_date now 0 |}])%list) d,
                    1, [])
          else Raise IntegrityError))
      end
  | SelectVolumeIds =>
      match token_volumes d with
      | None => Raise OperationalError
      | Some rows =>
          if volumes_has_id sys
          then Ret (d, 0, map (fun r => VTuple [VNum (Int (rowid r))]) rows)
          else Raise OperationalError
      end
  | UpdateVolume p1 p2 =>
      match token_volumes d with
      | None => Raise OperationalError
      | Some rows =>
          and_then (bind_param p1) (fun x1 =>
          and_then (bind_param p2) (fun x2 =>
          let hit r := holds (sql_and (sql_eq (token_id r) x2)
                                      (sql_eq (date r) (sql_date now 0))) in
          if forallb (fun r => negb (hit r) || volumes_accepts sys d (token_id r) x1) rows
          then Ret (set_token_volumes
                      (Some (map (fun r => if hit r
                                           then {| rowid := rowid r; token_id := token_id r;
                                                   total_volume := x1; date := date r |}
                                           else r) rows)) d,
                    Z.of_nat (List.length (filter hit rows)), [])
          else Raise IntegrityError))
      end
  | SelectYesterday p1 =>
      match token_volumes d with
      | None => Raise OperationalError
      | Some rows =>
          and_then (bind_param p1) (fun x1 =>
          let hit r := holds (sql_and (sql_eq (token_id r) x1)
                                      (sql_eq (date r) (sql_date now (-1)))) in
          Ret (d, 0, map (fun r => VTuple [value_of_sql (total_volume r)]) (filter hit rows)))
      end
  | DeleteOld =>
      match token_volumes d with
      | None => Raise OperationalError
      | Some rows =>
          let old r := holds (sql_lt (date r) (sql_date now (-21))) in
          Ret (set_token_volumes (Some (filter (fun r => negb (old r)) rows)) d,
               Z.of_nat (List.length (filter old rows)), [])
      end
  end.

(** [conn.execute(stmt, params)] followed by [fetchall()] for a query.
    A change opens the connection's transaction; [CREATE TABLE] outside a
    transaction goes to the file at once. *)
Definition execute (h : nat) (stmt : sql) : M (list value) :=
  fun w =>
    let w1 := add_event (EvExecute stmt) w in
    match run_sql stmt (clock w) (view h w) with
    | Raise e => Some (Raise e, w1)
    | Ret (d', n, rows) =>
        let c := conn_at h w in
        let in_txn :=
          set_conns (replace_nth h {| txn := Some d'; total_changes := total_changes c + n |}
                                 (conns w1)) w1 in
        match kind_of stmt with
        | Query => Some (Ret rows, w1)
        | Change => Some (Ret rows, in_txn)
        | Schema =>
            match txn c with
            | Some _ => Some (Ret rows, in_txn)
            | None => Some (Ret rows, set_db d' w1)
            end
        end
    end.

(** ** class CoinGeckoAPI *)

Definition base_url : string := "https://api.coingecko.com/api/v3/".

(** [int(response.headers.get('Retry-After', 30))]. *)
Definition retry_after_of (r : response) : outcome Z :=
  match retry_after_header r with
  | Some s => int_of_str (int_max_str_digits sys) s
  | None => Ret 30
  end.

Definition num (z : Z) : value := VNum (Int z).

(** [fetch_token_data]: [depth] is the number of nested calls the
    recursion limit still allows.  Past it the interpreter raises a
    [RecursionError] somewhere in the innermost call; here it is raised
    on entry. *)
Fixpoint fetch_token_data_rec (depth : nat) (vs_currency per_page page : value) : M value :=
  match depth with
  | O => raise RecursionError
  | S depth' =>
      let endpoint := "coins/markets" in
      let params := [("vs_currency", vs_currency); ("per_page", per_page); ("page", page)] in
      try_except
        (response <- requests_get (base_url ++ endpoint) params ;;
         if status_code response =? 200 then
           ret (json response)
         else if status_code response =? 429 then
           (retry_after <- lift (retry_after_of response) ;;
            print [Lit "Hit rate limit. Retrying after "; Fmt (num retry_after); Lit " seconds"] ;;
            time_sleep retry_after ;;
            fetch_token_data_rec depth' vs_currency per_page page)
         else
           (print [Lit "API Error. Status Code: "; Fmt (num (status_code response))] ;;
            ret VNone))
        (fun e =>
           match e with
           | RequestException => Some (print [Lit "Error fetching data: "; FmtExn e] ;; ret VNone)
           | _ => None
           end)
  end.

(** The call itself, then as many nested retries as there is room
    for. *)
Definition fetch_token_data (vs_currency per_page page : value) : M value :=
  fetch_token_data_rec (S (retry_room sys)) vs_currency per_page page.

(** [get_token_list]. *)
Definition get_token_list : M (list value) :=
  conn <- connect ;;
  tokens <- execute conn SelectTokenIds ;;
  commit conn ;;
  close conn ;;
  ret tokens.

(** The loop shared by [save_token_list] and
    [check_and_update_token_list]. *)
Fixpoint insert_new_tokens (conn : nat) (existing_token_ids token_list : list value) : M unit :=
  match token_list with
  | [] => ret tt
  | token :: rest =>
      token_id <- lift (getitem token "id") ;;
      present <- lift (py_in token_id existing_token_ids) ;;
      (if present then ret tt
       else
         try_except
           (p1 <- lift (getitem token "id") ;;
            p2 <- lift (getitem token "name") ;;
            execute conn (InsertToken p1 p2) ;;
            ret tt)
           (fun e =>
              match e with
              | IntegrityError => Some (ret tt)
              | _ => None
              end)) ;;
      insert_new_tokens conn existing_token_ids rest
  end.

(** [save_token_list]. *)
Definition save_token_list : M value :=
  let list_endpoint := "coins/list" in
  response <- requests_get (base_url ++ list_endpoint) [] ;;
  if status_code response =? 200 then
    let token_list := json response in
    conn <- connect ;;
    execute conn CreateTokens ;;
    rows <- get_token_list ;;
    existing_token_ids <- lift (first_column_set rows) ;;
    items <- lift (iterate token_list) ;;
    insert_new_tokens conn existing_token_ids items ;;
    commit conn ;;
    close conn ;;
    print [Lit "Token list updated."] ;;
    ret VNone
  else
    (print [Lit "Error fetching token list."] ;;
     ret VNone).

(** [check_and_update_token_list]. *)
Definition check_and_update_token_list : M value :=
  let list_endpoint := "coins/list" in
  response <- requests_get (base_url ++ list_endpoint) [] ;;
  if status_code response =? 200 then
    let token_list := json response in
    conn <- connect ;;
    rows <- get_token_list ;;
    existing_token_ids <- lift (first_column_set rows) ;;
    close conn ;;
    conn <- connect ;;
    items <- lift (iterate token_list) ;;
    insert_new_tokens conn existing_token_ids items ;;
    commit conn ;;
    close conn ;;
    print [Lit "Token list updated."] ;;
    ret VNone
  else
    (print [Lit "Error fetching token list."] ;;
     ret VNone).

(** [fetch_token_volume]. *)
Fixpoint fetch_token_volume_rec (depth : nat) (coin_id : value) : M value :=
  match depth with
  | O => raise RecursionError
  | S depth' =>
      let endpoint := "coins/" ++ py_str coin_id in
      try_except
        (response <- requests_get (base_url ++ endpoint) [] ;;
         if status_code response =? 200 then
           (let data := json response in
            market_data <- lift (getitem data "market_data") ;;
            total_volume <- lift (getitem market_data "total_volume") ;;
            daily_volume <-
              (if negb (truthy total_volume) then ret (VStr "null")
               else lift (getitem total_volume "usd")) ;;
            print [Fmt coin_id; Lit ": "; Fmt daily_volume] ;;
            ret daily_volume)
         else if status_code response =? 429 then
           (retry_after <- lift (retry_after_of response) ;;
            print [Lit "Hit rate limit. Retrying after "; Fmt (num retry_after); Lit " seconds"] ;;
            time_sleep retry_after ;;
            fetch_token_volume_rec depth' coin_id)
         else
           (print [Lit "API Error. Status Code: "; Fmt (num (status_code response))] ;;
            ret VNone))
        (fun e =>
           match e with
           | RequestException => Some (print [Lit "Error fetching data: "; FmtExn e] ;; ret VNone)
           | _ => None
           end)
  end.

Definition fetch_token_volume (coin_id : value) : M value :=
  fetch_token_volume_rec (S (retry_room sys)) coin_id.

(** The loop of [save_token_volumes]. *)
Fixpoint save_token_volumes_loop (conn : nat) (all_token_data : list value) : M unit :=
  match all_token_data with
  | [] => ret tt
  | token :: rest =>
      t0 <- lift (getindex token 0) ;;
      let token_id := VStr (py_str t0) in
      volume <- fetch_token_volume token_id ;;
      try_except
        (execute conn (InsertVolume token_id volume) ;;
         ret tt)
        (fun e =>
           match e with
           | IntegrityError =>
               Some (print [Lit "Database integrity error for "; Fmt token_id; Lit ": "; FmtExn e])
           | OperationalError =>
               Some (print [Lit "Database operational error for "; Fmt token_id; Lit ": ";
                            FmtExn e])
           | _ => None
           end) ;;
      save_token_volumes_loop conn rest
  end.

(** [save_token_volumes]. *)
Definition save_token_volumes : M value :=
  conn <- connect ;;
  all_token_data <- get_token_list ;;
  if (List.length all_token_data =? 0)%nat then
    (print [Lit "No tokens found in the token list. Skipping saving volumes"] ;;
     ret VNone)
  else
    (save_token_volumes_loop conn all_token_data ;;
     commit conn ;;
     close conn ;;
     let response := "Token volume data saved." in
     ret (VStr response)).

(** [get_token_volume]. *)
Definition get_token_volume : M (list value) :=
  conn <- connect ;;
  token_volume <- execute conn SelectVolumeIds ;;
  commit conn ;;
  close conn ;;
  ret token_volume.

(** The loop of [update_token_volumes]. *)
Fixpoint update_token_volumes_loop (conn : nat) (tokens : list value) : M unit :=
  match tokens with
  | [] => ret tt
  | token :: rest =>
      coin_id <- lift (getitem token "id") ;;
      token_volume <- fetch_token_volume coin_id ;;
      try_except
        (p1 <- lift (getitem token "total_volume") ;;
         execute conn (UpdateVolume p1 token_volume) ;;
         changes <- get_total_changes conn ;;
         (if changes =? 0 then
            (q1 <- lift (getitem token "id") ;;
             execute conn (InsertVolume q1 token_volume) ;;
             ret tt)
          else ret tt) ;;
         r1 <- lift (getitem token "id") ;;
         result <- execute conn (SelectYesterday r1) ;;
         yesterdays_volume <-
           match result with
           | first :: _ => lift (getindex first 0)
           | [] => ret (num 0)
           end ;;
         print [Fmt yesterdays_volume] ;;
         doubled <- lift (py_double yesterdays_volume) ;;
         spike <- lift (py_gt token_volume doubled) ;;
         if spike then print [Lit "volume is 2x lol"] else ret tt)
        (fun e =>
           match e with
           | IntegrityError =>
               Some (t <- lift (getitem token "id") ;;
                     print [Lit "Database integrity error for "; Fmt t; Lit ": "; FmtExn e])
           | OperationalError =>
               Some (t <- lift (getitem token "id") ;;
                     print [Lit "Database operational error for "; Fmt t; Lit ": "; FmtExn e])
           | _ => None
           end) ;;
      update_token_volumes_loop conn rest
  end.

(** [update_token_volumes]. *)
Definition update_token_volumes : M value :=
  tokens <- get_token_volume ;;
  match tokens with
  | [] => ret VNone
  | _ :: _ =>
      conn <- connect ;;
      update_token_volumes_loop conn tokens ;;
      commit conn ;;
      close conn ;;
      print [Lit "Token volume data updated."] ;;
      ret VNone
  end.

(** [delete_old_data]. *)
Definition delete_old_data : M value :=
  conn <- connect ;;
  execute conn DeleteOld ;;
  commit conn ;;
  close conn ;;
  let response := "Token volume data deleted." in
  print [Lit response] ;;
  ret VNone.

(** The script: one synchronisation of the token list, then one
    snapshot of the volumes. *)
Definition main : M value :=
  save_token_list ;;
  save_token_volumes.

End Program.
(** ** Vocabulary of the statements *)

Definition markets_url : string := base_url ++ "coins/markets".

Definition markets_params (vs_currency per_page page : value) : list (string * value) :=
  [("vs_currency", vs_currency); ("per_page", per_page); ("page", page)].

Definition rate_limit_line (d : Z) : event :=
  EvPrint [Lit "Hit rate limit. Retrying after "; Fmt (num d); Lit " seconds"].

(** The world after a 429 answer was received, reported and slept on. *)
Definition backed_off (url : string) (params : list (string * value)) (d : Z)
  (rest : list http_outcome) (w : world) : world :=
  set_clock (clock w + d)
    (add_event (EvSleep d)
       (add_event (rate_limit_line d)
          (set_pending rest (add_event (EvGet url params) w)))).

(** What [fetch_token_volume] makes of the body of a 200 answer. *)
Definition volume_in (data : value) : outcome value :=
  and_then (getitem data "market_data") (fun market_data =>
  and_then (getitem market_data "total_volume") (fun total_volume =>
  if negb (truthy total_volume) then Ret (VStr "null")
  else getitem total_volume "usd")).

Definition coin_url (sys : deployment) (coin_id : value) : string :=
  base_url ++ "coins/" ++ py_str sys coin_id.

Definition transport_line : event :=
  EvPrint [Lit "Error fetching data: "; FmtExn RequestException].

Definition api_error_line (status : Z) : event :=
  EvPrint [Lit "API Error. Status Code: "; Fmt (num status)].

(** The world after a request was sent and the next exchange consumed. *)
Definition requested (url : string) (params : list (string * value))
  (rest : list http_outcome) (w : world) : world :=
  set_pending rest (add_event (EvGet url params) w).


(** A calendar date: the month exists and the day is one of its days. *)
Definition valid (c : civil) : Prop :=
  (1 <= month c <= 12)%nat /\ (1 <= day c <= days_in_month (year c) (month c))%nat.

(** Earlier in the calendar. *)
Definition civil_lt (a b : civil) : Prop :=
  year a < year b \/
  (year a = year b /\
   ((month a < month b)%nat \/ (month a = month b /\ (day a < day b)%nat))).

(** The row the program inserts for a catalogue entry, given by its
    string id and its name as bound to the placeholder. *)
Definition row_of (sys : deployment) (e : string * sqlval) : token_row :=
  {| tokens_id := SText (fst e); tokens_name := text_affinity sys (snd e) |}.

(** [id] is among the primary keys of [rows]. *)
Definition key_taken (id : sqlval) (rows : list token_row) : bool :=
  existsb (fun r => holds (sql_eq (tokens_id r) id)) rows.

(** The table after the insertion loop has gone through [entries]:
    an entry is skipped when its id was among the ids read at the start
    or is already a key of the table. *)
Fixpoint merged (sys : deployment) (existing : list value)
  (entries : list (string * sqlval)) (rows : list token_row) : list token_row :=
  match entries with
  | [] => rows
  | e :: rest =>
      if existsb (py_eq (VStr (fst e))) existing || key_taken (SText (fst e)) rows
      then merged sys existing rest rows
      else merged sys existing rest (rows ++ [row_of sys e])
  end.

(** The items of a listing read as entries: each has a string under
    ["id"] and, under ["name"], a value that SQLite can bind. *)
Definition reads_as (items : list value) (entries : list (string * sqlval)) : Prop :=
  map (fun token => (getitem token "id", and_then (getitem token "name") bind_param)) items =
  map (fun e => (Ret (VStr (fst e)), Ret (snd e))) entries.


(** The SQL statements in a trace, in order. *)
Fixpoint statements (tr : list event) : list sql :=
  match tr with
  | [] => []
  | EvExecute stmt :: rest => stmt :: statements rest
  | _ :: rest => statements rest
  end.

Definition is_rate_limit (o : http_outcome) : bool :=
  match o with
  | Responds r => status_code r =? 429
  | Fails => false
  end.

(** The longest sleep the interpreter converts to nanoseconds. *)
Definition longest_sleep : Z := 9223372036.

(** The delay a 429 answer asks for, when it is one [time.sleep] takes:
    a whole number of seconds from 0 to [longest_sleep]. *)
Definition backoff (sys : deployment) (o : http_outcome) : option Z :=
  match o with
  | Responds r =>
      if status_code r =? 429
      then match retry_after_of sys r with
           | Ret d => if (0 <=? d) && (d <=? longest_sleep) then Some d else None
           | Raise _ => None
           end
      else None
  | Fails => None
  end.

(** The platform can schedule the sleeps [ds] one after the other,
    starting when the clock shows [now]. *)
Fixpoint slept (sys : deployment) (now : Z) (ds : list Z) : bool :=
  match ds with
  | [] => true
  | d :: ds' => sleep_fits sys now d && slept sys (now + d) ds'
  end.

(** What [fetch_token_volume] makes of an exchange that is not a 429. *)
Definition answer (o : http_outcome) : outcome value :=
  match o with
  | Fails => Ret VNone
  | Responds r => if status_code r =? 200 then volume_in (json r) else Ret VNone
  end.

(** The value one call of [fetch_token_volume] returns on a run of
    exchanges that settles it: 429 answers to sleep on, then one answer
    that is not a 429 and raises nothing. *)
Fixpoint settled (sys : deployment) (seg : list http_outcome) : option value :=
  match seg with
  | [] => None
  | o :: seg' =>
      match seg' with
      | [] =>
          if is_rate_limit o then None
          else match answer o with
               | Ret v => Some v
               | Raise _ => None
               end
      | _ :: _ =>
          match backoff sys o with
          | Some _ => settled sys seg'
          | None => None
          end
      end
  end.

(** Every run of exchanges is short enough for the nested retries it
    takes. *)
Definition in_room (sys : deployment) (segs : list (list http_outcome)) : bool :=
  forallb (fun seg => (List.length seg <=? S (retry_room sys))%nat) segs.

Definition bindable (v : value) : bool :=
  match bind_param v with
  | Ret _ => true
  | Raise _ => false
  end.

(** The row [get_token_list] returns for a token, the [token_id] under
    which [save_token_volumes] files its volume, and the statement it
    issues. *)
Definition listed (r : token_row) : value := VTuple [value_of_sql (tokens_id r)].

Definition volume_key (sys : deployment) (r : token_row) : value :=
  VStr (py_str sys (value_of_sql (tokens_id r))).

Definition insert_of (sys : deployment) (rv : token_row * value) : sql :=
  InsertVolume (volume_key sys (fst rv)) (snd rv).

(** [row] files volume [v] under the key of token [r]. *)
Definition stores (sys : deployment) (row : volume_row) (r : token_row) (v : value) : Prop :=
  bind_param (volume_key sys r) = Ret (token_id row) /\
  bind_param v = Ret (total_volume row).

(** The rows a snapshot appends for the pairs of token and fetched
    volume: each appended row files one of the pairs, and a pair whose
    row the schema accepts in every database has its row. *)
Definition snapshot_rows (sys : deployment) (pairs : list (token_row * value))
  (extra : list volume_row) : Prop :=
  (forall row, In row extra -> exists r v, In (r, v) pairs /\ stores sys row r v) /\
  (forall r v a b,
     In (r, v) pairs ->
     bind_param (volume_key sys r) = Ret a ->
     bind_param v = Ret b ->
     (forall d, volumes_accepts sys d a b = true) ->
     exists row, In row extra /\ stores sys row r v).

(** The [except] clauses around the insert of [save_token_volumes]. *)
Definition insert_handlers (token_id : value) (e : exn) : option (M unit) :=
  match e with
  | IntegrityError =>
      Some (print [Lit "Database integrity error for "; Fmt token_id; Lit ": "; FmtExn e])
  | OperationalError =>
      Some (print [Lit "Database operational error for "; Fmt token_id; Lit ": "; FmtExn e])
  | _ => None
  end.

(** A line that flags a volume spike. *)
Definition is_spike_line (e : event) : bool :=
  match e with
  | EvPrint [Lit s] => String.eqb s "volume is 2x lol"
  | _ => false
  end.

(** ** Sample deployment and worlds *)

Definition integer_part (q : Q) : Z := Qnum q / Z.pos (Qden q).

(** A deployment for the examples.  [str()] of an integer is its
    decimal form; a float is rendered by its integer part followed by
    [.0], which is how a whole float of moderate size is written, and a
    container by a placeholder; no example renders either of the two.  [token_volumes] declares the column [id] and no constraint;
    the digits of a decimal string are bounded by 4300, a sleep must end
    before 9223372036 seconds on the clock, and there is room for 900
    nested retries. *)
Definition sample : deployment :=
  {| text_of_float := fun q => decimal (integer_part q) ++ ".0";
     str_other := fun v => match v with
                           | VNum (Int z) => decimal z
                           | VNum (Float q) => decimal (integer_part q) ++ ".0"
                           | _ => "[...]"
                           end;
     volumes_has_id := true;
     volumes_accepts := fun _ _ _ => true;
     int_max_str_digits := 4300;
     sleep_fits := fun now d => now + d <? 9223372036;
     retry_room := 900 |}.

(** The same with a table that declares neither [id] nor accepts any
    row. *)
Definition strict : deployment :=
  {| text_of_float := text_of_float sample;
     str_other := str_other sample;
     volumes_has_id := false;
     volumes_accepts := fun _ _ _ => false;
     int_max_str_digits := int_max_str_digits sample;
     sleep_fits := sleep_fits sample;
     retry_room := retry_room sample |}.

Definition world_of (d : database) (script : list http_outcome) (now : Z) : world :=
  {| db := d; conns := []; pending := script; clock := now; trace := [] |}.

Definition ok (body : value) : http_outcome :=
  Responds {| status_code := 200; retry_after_header := None; json := body |}.

Definition rate_limited (header : option string) : http_outcome :=
  Responds {| status_code := 429; retry_after_header := header; json := VDict [] |}.

Definition server_error : http_outcome :=
  Responds {| status_code := 500; retry_after_header := None; json := VDict [] |}.

(** The detail record of a coin, reduced to its volume mapping. *)
Definition detail (total_volume : value) : value :=
  VDict [("id", VStr "bitcoin"); ("market_data", VDict [("total_volume", total_volume)])].

Definition usd (v : value) : value := VDict [("usd", v); ("eur", v)].

Definition listing : value :=
  VList [VDict [("id", VStr "bitcoin"); ("symbol", VStr "btc"); ("name", VStr "Bitcoin")];
         VDict [("id", VStr "ethereum"); ("symbol", VStr "eth"); ("name", VStr "Ethereum")];
         VDict [("id", VStr "bitcoin"); ("symbol", VStr "btc"); ("name", VStr "Bitcoin Again")]].

Definition bitcoin_row : token_row :=
  {| tokens_id := SText "bitcoin"; tokens_name := SText "Bitcoin (old name)" |}.

Definition ethereum_row : token_row :=
  {| tokens_id := SText "ethereum"; tokens_name := SText "Ethereum" |}.

(** Day 40 after the epoch is 1970-02-10; 21 days before is 1970-01-20. *)
Definition day40 : Z := 40 * 86400 + 3600.

Definition volume_on (n : Z) (token : string) (day : Z) (volume : Z) : volume_row :=
  {| rowid := n; token_id := SText token; total_volume := SNum (Int volume);
     date := iso_date (civil_of_day day) |}.

Definition stocked : database :=
  {| tokens := Some [bitcoin_row; ethereum_row];
     token_volumes := Some [volume_on 1 "bitcoin" 18 4; volume_on 2 "bitcoin" 19 0;
                            volume_on 3 "bitcoin" 39 0; volume_on 4 "bitcoin" 40 5] |}.

Definition no_volumes : database :=
  {| tokens := Some [bitcoin_row; ethereum_row]; token_volumes := Some [] |}.

Definition no_tokens : database :=
  {| tokens := Some []; token_volumes := Some [] |}.

Definition blank : database := {| tokens := None; token_volumes := None |}.

(** A table whose rows were not inserted in the order of their ids. *)
Definition zeta_row : token_row :=
  {| tokens_id := SText "zeta"; tokens_name := SText "Zeta" |}.

Definition unsorted : database :=
  {| tokens := Some [zeta_row; bitcoin_row]; token_volumes := Some [] |}.

(** A listing that names the later id first. *)
Definition listing_zeta_first : value :=
  VList [VDict [("id", VStr "zeta"); ("name", VStr "Zeta")];
         VDict [("id", VStr "alpha"); ("name", VNum (Int 7))]].

(** 2^63, the first integer SQLite's INTEGER cannot hold. *)
Definition too_big : Z := 9223372036854775808.

(** ** Vocabulary for whole runs *)

(** The requests sent and the sleeps taken in a trace, in order. *)
Fixpoint requests_of (tr : list event) : list (string * list (string * value)) :=
  match tr with
  | [] => []
  | EvGet url params :: rest => (url, params) :: requests_of rest
  | _ :: rest => requests_of rest
  end.

Fixpoint sleeps_of (tr : list event) : list Z :=
  match tr with
  | [] => []
  | EvSleep d :: rest => d :: sleeps_of rest
  | _ :: rest => sleeps_of rest
  end.

(** The delays a run of 429 answers asks for, when the program can
    sleep on every one of them. *)
Fixpoint delays (sys : deployment) (retries : list http_outcome) : option (list Z) :=
  match retries with
  | [] => Some []
  | o :: rest =>
      match backoff sys o, delays sys rest with
      | Some d, Some ds => Some (d :: ds)
      | _, _ => None
      end
  end.

Definition total (ds : list Z) : Z := fold_right Z.add 0 ds.

(** What [fetch_token_data] returns on an exchange that is not a 429. *)
Definition page_answer (o : http_outcome) : value :=
  match o with
  | Fails => VNone
  | Responds r => if status_code r =? 200 then json r else VNone
  end.

(** The delays slept on within a run of exchanges. *)
Definition waits (sys : deployment) (seg : list http_outcome) : list Z :=
  flat_map (fun o => match backoff sys o with Some d => [d] | None => [] end) seg.

(** The requests one token costs: one to its own URL for each exchange
    its fetch consumes. *)
Definition calls (sys : deployment) (rs : token_row * list http_outcome)
  : list (string * list (string * value)) :=
  repeat (coin_url sys (volume_key sys (fst rs)), []) (List.length (snd rs)).

Definition is_print (e : event) : bool :=
  match e with
  | EvPrint _ => true
  | _ => false
  end.

(** The column values a filed volume row is given. *)
Definition filed (sys : deployment) (rv : token_row * value) : outcome sqlval * outcome sqlval :=
  (bind_param (volume_key sys (fst rv)), bind_param (snd rv)).

(** The world in which the loop of [save_token_volumes] starts: the
    connection of the method and the one of [get_token_list] opened,
    the ids selected. *)
Definition snapshot_start (w : world) : world :=
  add_event (EvExecute SelectTokenIds)
    (set_conns ((conns w ++ [no_connection]) ++ [no_connection]) w).
(** * Facts about the library stand-ins *)

(** An integer beyond 64 bits is refused when it is bound. *)
Lemma bind_param_overflow z :
  z < -9223372036854775808 \/ 9223372036854775807 < z ->
  bind_param (num z) = Raise OverflowError.
Proof.
  intros H. unfold num, bind_param.
  destruct (-9223372036854775808 <=? z) eqn:E1; [|reflexivity].
  destruct (z <=? 9223372036854775807) eqn:E2; [|reflexivity].
  apply Z.leb_le in E1. apply Z.leb_le in E2. lia.
Qed.

Lemma bind_param_fits z :
  -9223372036854775808 <= z <= 9223372036854775807 ->
  bind_param (num z) = Ret (SNum (Int z)).
Proof.
  intros [H1 H2]. unfold num, bind_param.
  apply Z.leb_le in H1. apply Z.leb_le in H2. now rewrite H1, H2.
Qed.

Lemma bind_param_too_big :
  bind_param (num too_big) = Raise OverflowError /\
  bind_param (num (too_big - 1)) = Ret (SNum (Int (too_big - 1))) /\
  bind_param (VNum (Float (inject_Z too_big))) = Ret (SNum (Float (inject_Z too_big))).
Proof. repeat split. Qed.

(** [int()] on header texts: blanks around the digits are dropped, the
    information separators are not blanks, one sign and single
    underscores between digits are read. *)
Lemma int_of_str_reads :
  int_of_str 4300 " 7 " = Ret 7 /\
  int_of_str 4300 (String (ascii_of_nat 160) "7") = Ret 7 /\
  int_of_str 4300 (String (ascii_of_nat 133) "7") = Ret 7 /\
  int_of_str 4300 (String (ascii_of_nat 28) "7") = Raise ValueError /\
  int_of_str 4300 (String (ascii_of_nat 31) "7") = Raise ValueError /\
  int_of_str 4300 "-12" = Ret (-12) /\
  int_of_str 4300 "+1_0" = Ret 10 /\
  int_of_str 4300 "1__0" = Raise ValueError /\
  int_of_str 4300 "" = Raise ValueError /\
  int_of_str 4300 "1.5" = Raise ValueError.
Proof. repeat split. Qed.

(** The index on [tokens.id] answers in the order of the ids, whatever
    the order of insertion. *)
Lemma by_id_sorts :
  by_id [zeta_row; bitcoin_row] = [bitcoin_row; zeta_row] /\
  by_id [bitcoin_row; zeta_row] = [bitcoin_row; zeta_row].
Proof. split; reflexivity. Qed.

Section FetchFacts.
Variable sys : deployment.

Lemma getitem_raises obj key :
  getitem obj key <> Raise RequestException.
Proof.
  destruct obj; simpl; try discriminate.
  destruct (lookup key items); discriminate.
Qed.

Lemma statements_app tr1 tr2 :
  statements (tr1 ++ tr2) = (statements tr1 ++ statements tr2)%list.
Proof.
  induction tr1 as [|e tr1 IH]; simpl; [reflexivity|].
  destruct e; simpl; now rewrite IH.
Qed.

(** A sleep the interpreter and the platform take. *)
Lemma time_sleep_runs d w :
  0 <= d <= longest_sleep ->
  sleep_fits sys (clock w) d = true ->
  time_sleep sys d w = Some (Ret tt, set_clock (clock w + d) (add_event (EvSleep d) w)).
Proof.
  unfold longest_sleep. intros Hd Hfit. unfold time_sleep.
  replace (d <? - 9223372036) with false by (symmetry; apply Z.ltb_ge; lia).
  replace (9223372036 <? d) with false by (symmetry; apply Z.ltb_ge; lia).
  replace (d <? 0) with false by (symmetry; apply Z.ltb_ge; lia).
  simpl. now rewrite Hfit.
Qed.

(** A sleep that is refused raises one of three exceptions and leaves
    the world as it is. *)
Lemma time_sleep_refused d w e w' :
  time_sleep sys d w = Some (Raise e, w') ->
  w' = w /\
  ((e = OverflowError /\ (d < - longest_sleep \/ longest_sleep < d)) \/
   (e = ValueError /\ - longest_sleep <= d < 0) \/
   (e = OSError /\ 0 <= d <= longest_sleep /\ sleep_fits sys (clock w) d = false)).
Proof.
  unfold time_sleep, longest_sleep.
  destruct (d <? - 9223372036) eqn:E1; simpl.
  { intros [= <- <-]. apply Z.ltb_lt in E1. split; [reflexivity|]. left. split; [reflexivity|lia]. }
  destruct (9223372036 <? d) eqn:E2; simpl.
  { intros [= <- <-]. apply Z.ltb_lt in E2. split; [reflexivity|]. left. split; [reflexivity|lia]. }
  apply Z.ltb_ge in E1, E2.
  destruct (d <? 0) eqn:E3.
  { intros [= <- <-]. apply Z.ltb_lt in E3. split; [reflexivity|]. right. left.
    split; [reflexivity|lia]. }
  apply Z.ltb_ge in E3.
  destruct (sleep_fits sys (clock w) d) eqn:E4; [discriminate|].
  intros [= <- <-]. split; [reflexivity|]. right. right. split; [reflexivity|]. split; [lia|reflexivity].
Qed.

Lemma time_sleep_not_request d w w' :
  time_sleep sys d w <> Some (Raise RequestException, w').
Proof.
  intros H. apply time_sleep_refused in H.
  destruct H as [_ [[H _]|[[H _]|[H _]]]]; discriminate.
Qed.

Lemma time_sleep_total d w : exists o w', time_sleep sys d w = Some (o, w').
Proof.
  unfold time_sleep.
  destruct ((d <? - 9223372036) || (9223372036 <? d)); [eauto|].
  destruct (d <? 0); [eauto|].
  destruct (sleep_fits sys (clock w) d); eauto.
Qed.

Lemma retry_after_of_raises r e : retry_after_of sys r = Raise e -> e = ValueError.
Proof.
  unfold retry_after_of, int_of_str.
  destruct (retry_after_header r) as [s|]; [|discriminate].
  match goal with
  | |- match ?x with Some _ => _ | None => _ end = _ -> _ => destruct x
  end.
  - match goal with |- (if ?b then _ else _) = _ -> _ => destruct b end;
      [now intros [= <-]|discriminate].
  - now intros [= <-].
Qed.

Lemma backoff_rate_limit o d :
  backoff sys o = Some d ->
  exists r, o = Responds r /\ status_code r = 429 /\ retry_after_of sys r = Ret d /\
            0 <= d <= longest_sleep.
Proof.
  destruct o as [r|]; simpl; [|discriminate].
  destruct (status_code r =? 429) eqn:E; [|discriminate].
  destruct (retry_after_of sys r) as [d'|] eqn:G; [|discriminate].
  destruct ((0 <=? d') && (d' <=? longest_sleep)) eqn:F; [|discriminate].
  intros [= <-]. exists r. apply Z.eqb_eq in E. apply andb_true_iff in F.
  destruct F as [F1 F2]. apply Z.leb_le in F1, F2. auto.
Qed.

(** ** [fetch_token_data] *)

Lemma fetch_token_data_rec_handles depth a b c w w' :
  fetch_token_data_rec sys depth a b c w <> Some (Raise RequestException, w').
Proof.
  revert w w'. induction depth as [|depth IH]; intros w w'; [discriminate|].
  cbn [fetch_token_data_rec]. unfold try_except, bind at 1, requests_get.
  destruct (pending w) as [|[r|] rest]; simpl; try discriminate.
  destruct (status_code r =? 200); simpl; try discriminate.
  destruct (status_code r =? 429); simpl; try discriminate.
  unfold bind, lift, print, emit. destruct (retry_after_of sys r) as [d|e]; simpl.
  - match goal with |- context [time_sleep sys d ?w0] =>
      destruct (time_sleep sys d w0) as [[[[]|e] w1]|] eqn:T end; try discriminate.
    + match goal with |- context [fetch_token_data_rec sys depth a b c ?w1] =>
        destruct (fetch_token_data_rec sys depth a b c w1) as [[[v|e] w2]|] eqn:F end;
        try discriminate.
      destruct e; discriminate.
    + destruct e; discriminate.
  - destruct e; discriminate.
Qed.

Lemma fetch_token_data_rec_429 depth a b c w r rest d :
  pending w = Responds r :: rest ->
  status_code r = 429 ->
  retry_after_of sys r = Ret d ->
  0 <= d <= longest_sleep ->
  sleep_fits sys (clock w) d = true ->
  fetch_token_data_rec sys (S depth) a b c w =
  fetch_token_data_rec sys depth a b c (backed_off markets_url (markets_params a b c) d rest w).
Proof.
  intros Hp Hs Hr Hd Hfit.
  destruct w as [dbw cs p ck tr]. simpl in Hp, Hfit. subst p.
  cbn [fetch_token_data_rec]. unfold try_except, bind, requests_get, lift, print, emit.
  cbn [pending set_pending add_event db conns clock trace].
  rewrite Hs. cbn [Z.eqb Pos.eqb]. rewrite Hr.
  rewrite time_sleep_runs by (cbn [clock]; assumption).
  unfold backed_off, add_event, set_pending, set_clock, markets_url, markets_params,
    rate_limit_line. cbn [pending db conns clock trace].
  match goal with |- context [fetch_token_data_rec sys depth a b c ?w1] =>
    destruct (fetch_token_data_rec sys depth a b c w1) as [[[v|e] w2]|] eqn:F end;
    try reflexivity.
  destruct e; try reflexivity.
  exfalso. eapply fetch_token_data_rec_handles. exact F.
Qed.

Lemma fetch_token_data_rec_200 depth a b c w r rest :
  pending w = Responds r :: rest ->
  status_code r = 200 ->
  fetch_token_data_rec sys (S depth) a b c w =
  Some (Ret (json r), set_pending rest (add_event (EvGet markets_url (markets_params a b c)) w)).
Proof.
  intros Hp Hs.
  destruct w as [dbw cs p ck tr]. simpl in Hp. subst p.
  cbn [fetch_token_data_rec]. unfold try_except, bind, requests_get. simpl. rewrite Hs.
  reflexivity.
Qed.

Lemma fetch_token_data_rec_failed depth a b c w rest :
  pending w = Fails :: rest ->
  fetch_token_data_rec sys (S depth) a b c w =
  Some (Ret VNone,
        add_event transport_line (requested markets_url (markets_params a b c) rest w)).
Proof.
  intros Hp.
  destruct w as [dbw cs p ck tr]. simpl in Hp. subst p. reflexivity.
Qed.

Lemma fetch_token_data_rec_other_status depth a b c w r rest :
  pending w = Responds r :: rest ->
  status_code r <> 200 ->
  status_code r <> 429 ->
  fetch_token_data_rec sys (S depth) a b c w =
  Some (Ret VNone,
        add_event (api_error_line (status_code r))
                  (requested markets_url (markets_params a b c) rest w)).
Proof.
  intros Hp H200 H429.
  destruct w as [dbw cs p ck tr]. simpl in Hp. subst p.
  cbn [fetch_token_data_rec]. unfold try_except, bind, requests_get. simpl.
  apply Z.eqb_neq in H200, H429. rewrite H200, H429. reflexivity.
Qed.

Lemma fetch_token_data_200 a b c w r rest :
  pending w = Responds r :: rest ->
  status_code r = 200 ->
  fetch_token_data sys a b c w =
  Some (Ret (json r), set_pending rest (add_event (EvGet markets_url (markets_params a b c)) w)).
Proof. apply fetch_token_data_rec_200. Qed.

Lemma fetch_token_data_failed a b c w rest :
  pending w = Fails :: rest ->
  fetch_token_data sys a b c w =
  Some (Ret VNone,
        add_event transport_line (requested markets_url (markets_params a b c) rest w)).
Proof. apply fetch_token_data_rec_failed. Qed.

Lemma fetch_token_data_other_status a b c w r rest :
  pending w = Responds r :: rest ->
  status_code r <> 200 ->
  status_code r <> 429 ->
  fetch_token_data sys a b c w =
  Some (Ret VNone,
        add_event (api_error_line (status_code r))
                  (requested markets_url (markets_params a b c) rest w)).
Proof. apply fetch_token_data_rec_other_status. Qed.

(** ** [fetch_token_volume] *)

Lemma fetch_token_volume_rec_handles depth c w w' :
  fetch_token_volume_rec sys depth c w <> Some (Raise RequestException, w').
Proof.
  revert w w'. induction depth as [|depth IH]; intros w w'; [discriminate|].
  cbn [fetch_token_volume_rec]. unfold try_except, bind at 1, requests_get.
  destruct (pending w) as [|[r|] rest]; simpl; try discriminate.
  destruct (status_code r =? 200); simpl.
  { unfold bind, lift, print, emit.
    destruct (getitem (json r) "market_data") as [md|e]; simpl; [|destruct e; discriminate].
    destruct (getitem md "total_volume") as [tv|e]; simpl; [|destruct e; discriminate].
    destruct (negb (truthy tv)); simpl; try discriminate.
    destruct (getitem tv "usd") as [u|e]; simpl; [discriminate|].
    destruct e; discriminate. }
  destruct (status_code r =? 429); simpl; try discriminate.
  unfold bind, lift, print, emit. destruct (retry_after_of sys r) as [d|e]; simpl.
  - match goal with |- context [time_sleep sys d ?w0] =>
      destruct (time_sleep sys d w0) as [[[[]|e] w1]|] eqn:T end; try discriminate.
    + match goal with |- context [fetch_token_volume_rec sys depth c ?w1] =>
        destruct (fetch_token_volume_rec sys depth c w1) as [[[v|e] w2]|] eqn:F end;
        try discriminate.
      destruct e; discriminate.
    + destruct e; discriminate.
  - destruct e; discriminate.
Qed.

Lemma fetch_token_volume_rec_429 depth c w r rest d :
  pending w = Responds r :: rest ->
  status_code r = 429 ->
  retry_after_of sys r = Ret d ->
  0 <= d <= longest_sleep ->
  sleep_fits sys (clock w) d = true ->
  fetch_token_volume_rec sys (S depth) c w =
  fetch_token_volume_rec sys depth c (backed_off (coin_url sys c) [] d rest w).
Proof.
  intros Hp Hs Hr Hd Hfit.
  destruct w as [dbw cs p ck tr]. simpl in Hp, Hfit. subst p.
  cbn [fetch_token_volume_rec]. unfold try_except, bind, requests_get, lift, print, emit.
  cbn [pending set_pending add_event db conns clock trace].
  rewrite Hs. cbn [Z.eqb Pos.eqb]. rewrite Hr.
  rewrite time_sleep_runs by (cbn [clock]; assumption).
  unfold backed_off, add_event, set_pending, set_clock, coin_url, rate_limit_line.
  cbn [pending db conns clock trace].
  match goal with |- context [fetch_token_volume_rec sys depth c ?w1] =>
    destruct (fetch_token_volume_rec sys depth c w1) as [[[v|e] w2]|] eqn:F end;
    try reflexivity.
  destruct e; try reflexivity.
  exfalso. eapply fetch_token_volume_rec_handles. exact F.
Qed.

Lemma fetch_token_volume_rec_200 depth c w r rest :
  pending w = Responds r :: rest ->
  status_code r = 200 ->
  fetch_token_volume_rec sys (S depth) c w =
  Some (volume_in (json r),
        match volume_in (json r) with
        | Ret v => add_event (EvPrint [Fmt c; Lit ": "; Fmt v])
                             (requested (coin_url sys c) [] rest w)
        | Raise _ => requested (coin_url sys c) [] rest w
        end).
Proof.
  intros Hp Hs.
  destruct w as [dbw cs p ck tr]. simpl in Hp. subst p.
  cbn [fetch_token_volume_rec].
  unfold try_except, bind, requests_get, lift, volume_in. simpl. rewrite Hs. simpl.
  destruct (getitem (json r) "market_data") as [md|e] eqn:G1; simpl;
    [|destruct e; try reflexivity; destruct (getitem_raises _ _ G1)].
  destruct (getitem md "total_volume") as [tv|e] eqn:G2; simpl;
    [|destruct e; try reflexivity; destruct (getitem_raises _ _ G2)].
  destruct (negb (truthy tv)); simpl; try reflexivity.
  destruct (getitem tv "usd") as [u|e] eqn:G3; simpl; [reflexivity|].
  destruct e; try reflexivity; destruct (getitem_raises _ _ G3).
Qed.

Lemma fetch_token_volume_rec_failed depth c w rest :
  pending w = Fails :: rest ->
  fetch_token_volume_rec sys (S depth) c w =
  Some (Ret VNone, add_event transport_line (requested (coin_url sys c) [] rest w)).
Proof.
  intros Hp.
  destruct w as [dbw cs p ck tr]. simpl in Hp. subst p. reflexivity.
Qed.

Lemma fetch_token_volume_rec_other_status depth c w r rest :
  pending w = Responds r :: rest ->
  status_code r <> 200 ->
  status_code r <> 429 ->
  fetch_token_volume_rec sys (S depth) c w =
  Some (Ret VNone,
        add_event (api_error_line (status_code r)) (requested (coin_url sys c) [] rest w)).
Proof.
  intros Hp H200 H429.
  destruct w as [dbw cs p ck tr]. simpl in Hp. subst p.
  cbn [fetch_token_volume_rec]. unfold try_except, bind, requests_get. simpl.
  apply Z.eqb_neq in H200, H429. rewrite H200, H429. reflexivity.
Qed.

Lemma fetch_token_volume_200 c w r rest :
  pending w = Responds r :: rest ->
  status_code r = 200 ->
  fetch_token_volume sys c w =
  Some (volume_in (json r),
        match volume_in (json r) with
        | Ret v => add_event (EvPrint [Fmt c; Lit ": "; Fmt v])
                             (requested (coin_url sys c) [] rest w)
        | Raise _ => requested (coin_url sys c) [] rest w
        end).
Proof. apply fetch_token_volume_rec_200. Qed.

Lemma fetch_token_volume_failed c w rest :
  pending w = Fails :: rest ->
  fetch_token_volume sys c w =
  Some (Ret VNone, add_event transport_line (requested (coin_url sys c) [] rest w)).
Proof. apply fetch_token_volume_rec_failed. Qed.

Lemma fetch_token_volume_other_status c w r rest :
  pending w = Responds r :: rest ->
  status_code r <> 200 ->
  status_code r <> 429 ->
  fetch_token_volume sys c w =
  Some (Ret VNone,
        add_event (api_error_line (status_code r)) (requested (coin_url sys c) [] rest w)).
Proof. apply fetch_token_volume_rec_other_status. Qed.

(** ** A 429 answer that cannot be slept on *)

Ltac stopped :=
  unfold markets_url, markets_params, rate_limit_line, coin_url, longest_sleep;
  cbn [pending clock db conns trace add_event set_pending set_clock Z.opp];
  rewrite <- ?app_assoc; cbn [app];
  repeat split;
  first [ reflexivity
        | rewrite ?statements_app; cbn [statements]; rewrite ?app_nil_r; reflexivity
        | repeat match goal with H : ?b = _ |- context [?b] => rewrite H end;
          cbn [orb]; reflexivity ].

(** What a 429 answer makes a fetch raise instead of sleeping: the
    [ValueError] of [int()], or what [time.sleep] refuses the delay
    with. *)
Lemma fetch_token_data_rec_429_stops depth a b c w r rest :
  pending w = Responds r :: rest ->
  status_code r = 429 ->
  backoff sys (Responds r) = None \/
  (exists d, backoff sys (Responds r) = Some d /\ sleep_fits sys (clock w) d = false) ->
  exists e w',
    fetch_token_data_rec sys (S depth) a b c w = Some (Raise e, w') /\
    pending w' = rest /\ clock w' = clock w /\ db w' = db w /\ conns w' = conns w /\
    statements (trace w') = statements (trace w) /\
    trace w' = (trace w ++ EvGet markets_url (markets_params a b c) ::
                match retry_after_of sys r with
                | Ret d => [rate_limit_line d]
                | Raise _ => []
                end)%list /\
    match retry_after_of sys r with
    | Raise _ => e = ValueError
    | Ret d =>
        if (d <? - longest_sleep) || (longest_sleep <? d) then e = OverflowError
        else if d <? 0 then e = ValueError
        else e = OSError
    end.
Proof.
  intros Hp Hs Hbad.
  destruct w as [dbw cs p ck tr]. simpl in Hp. subst p. simpl in Hbad.
  rewrite Hs in Hbad. cbn [Z.eqb Pos.eqb] in Hbad.
  cbn [fetch_token_data_rec]. unfold try_except, bind, requests_get, lift, print, emit.
  cbn [pending set_pending add_event db conns clock trace].
  rewrite Hs. cbn [Z.eqb Pos.eqb].
  destruct (retry_after_of sys r) as [d|e] eqn:Hr.
  - unfold time_sleep, longest_sleep in *. cbn [clock].
    destruct (d <? - 9223372036) eqn:E1; cbn [orb].
    { eexists. eexists. split; [reflexivity|]. stopped. }
    destruct (9223372036 <? d) eqn:E2; cbn [orb].
    { eexists. eexists. split; [reflexivity|]. stopped. }
    destruct (d <? 0) eqn:E3.
    { eexists. eexists. split; [reflexivity|]. stopped. }
    pose proof (proj1 (Z.ltb_ge _ _) E1). pose proof (proj1 (Z.ltb_ge _ _) E2).
    pose proof (proj1 (Z.ltb_ge _ _) E3).
    replace ((0 <=? d) && (d <=? 9223372036)) with true in Hbad
      by (symmetry; apply andb_true_iff; split; apply Z.leb_le; lia).
    destruct Hbad as [Hbad|(d' & [= <-] & Hfit)]; [discriminate|].
    cbn [clock add_event set_pending] in *. rewrite Hfit.
    eexists. eexists. split; [reflexivity|]. stopped.
  - rewrite (retry_after_of_raises r e Hr).
    eexists. eexists. split; [reflexivity|]. stopped.
Qed.

Lemma fetch_token_volume_rec_429_stops depth c w r rest :
  pending w = Responds r :: rest ->
  status_code r = 429 ->
  backoff sys (Responds r) = None \/
  (exists d, backoff sys (Responds r) = Some d /\ sleep_fits sys (clock w) d = false) ->
  exists e w',
    fetch_token_volume_rec sys (S depth) c w = Some (Raise e, w') /\
    pending w' = rest /\ clock w' = clock w /\ db w' = db w /\ conns w' = conns w /\
    statements (trace w') = statements (trace w) /\
    trace w' = (trace w ++ EvGet (coin_url sys c) [] ::
                match retry_after_of sys r with
                | Ret d => [rate_limit_line d]
                | Raise _ => []
                end)%list /\
    match retry_after_of sys r with
    | Raise _ => e = ValueError
    | Ret d =>
        if (d <? - longest_sleep) || (longest_sleep <? d) then e = OverflowError
        else if d <? 0 then e = ValueError
        else e = OSError
    end.
Proof.
  intros Hp Hs Hbad.
  destruct w as [dbw cs p ck tr]. simpl in Hp. subst p. simpl in Hbad.
  rewrite Hs in Hbad. cbn [Z.eqb Pos.eqb] in Hbad.
  cbn [fetch_token_volume_rec]. unfold try_except, bind, requests_get, lift, print, emit.
  cbn [pending set_pending add_event db conns clock trace].
  rewrite Hs. cbn [Z.eqb Pos.eqb].
  destruct (retry_after_of sys r) as [d|e] eqn:Hr.
  - unfold time_sleep, longest_sleep in *. cbn [clock].
    destruct (d <? - 9223372036) eqn:E1; cbn [orb].
    { eexists. eexists. split; [reflexivity|]. stopped. }
    destruct (9223372036 <? d) eqn:E2; cbn [orb].
    { eexists. eexists. split; [reflexivity|]. stopped. }
    destruct (d <? 0) eqn:E3.
    { eexists. eexists. split; [reflexivity|]. stopped. }
    pose proof (proj1 (Z.ltb_ge _ _) E1). pose proof (proj1 (Z.ltb_ge _ _) E2).
    pose proof (proj1 (Z.ltb_ge _ _) E3).
    replace ((0 <=? d) && (d <=? 9223372036)) with true in Hbad
      by (symmetry; apply andb_true_iff; split; apply Z.leb_le; lia).
    destruct Hbad as [Hbad|(d' & [= <-] & Hfit)]; [discriminate|].
    cbn [clock add_event set_pending] in *. rewrite Hfit.
    eexists. eexists. split; [reflexivity|]. stopped.
  - rewrite (retry_after_of_raises r e Hr).
    eexists. eexists. split; [reflexivity|]. stopped.
Qed.
End FetchFacts.

(** ** Retries *)

Section RetryFacts.
Variable sys : deployment.

Lemma requests_of_app tr1 tr2 :
  requests_of (tr1 ++ tr2) = (requests_of tr1 ++ requests_of tr2)%list.
Proof.
  induction tr1 as [|e tr1 IH]; simpl; [reflexivity|].
  destruct e; simpl; now rewrite IH.
Qed.

Lemma sleeps_of_app tr1 tr2 :
  sleeps_of (tr1 ++ tr2) = (sleeps_of tr1 ++ sleeps_of tr2)%list.
Proof.
  induction tr1 as [|e tr1 IH]; simpl; [reflexivity|].
  destruct e; simpl; now rewrite IH.
Qed.

Lemma total_app ds1 ds2 : total (ds1 ++ ds2) = total ds1 + total ds2.
Proof. unfold total. induction ds1 as [|d ds1 IH]; simpl; lia. Qed.

Lemma slept_app now ds1 ds2 :
  slept sys now (ds1 ++ ds2) = slept sys now ds1 && slept sys (now + total ds1) ds2.
Proof.
  revert now. induction ds1 as [|d ds1 IH]; intros now; simpl.
  - unfold total. simpl. now rewrite Z.add_0_r.
  - rewrite IH, andb_assoc. unfold total. simpl. now rewrite Z.add_assoc.
Qed.

Lemma fetch_token_data_rec_final depth a b c w o rest :
  pending w = o :: rest ->
  is_rate_limit o = false ->
  exists w',
    fetch_token_data_rec sys (S depth) a b c w = Some (Ret (page_answer o), w') /\
    pending w' = rest /\ db w' = db w /\ conns w' = conns w /\ clock w' = clock w /\
    statements (trace w') = statements (trace w) /\
    requests_of (trace w') =
      (requests_of (trace w) ++ [(markets_url, markets_params a b c)])%list /\
    sleeps_of (trace w') = sleeps_of (trace w).
Proof.
  intros Hp Hrl. destruct o as [r|]; simpl in Hrl.
  - apply Z.eqb_neq in Hrl. cbn [page_answer answer].
    destruct (status_code r =? 200) eqn:E200.
    + apply Z.eqb_eq in E200. rewrite (fetch_token_data_rec_200 sys depth a b c w r rest Hp E200).
      eexists. split; [reflexivity|]. simpl.
      rewrite statements_app, requests_of_app, sleeps_of_app. simpl.
      rewrite !app_nil_r. auto 10.
    + apply Z.eqb_neq in E200.
      rewrite (fetch_token_data_rec_other_status sys depth a b c w r rest Hp E200 Hrl).
      eexists. split; [reflexivity|]. simpl.
      rewrite !statements_app, !requests_of_app, !sleeps_of_app. simpl.
      rewrite !app_nil_r. auto 10.
  - rewrite (fetch_token_data_rec_failed sys depth a b c w rest Hp).
    eexists. split; [reflexivity|]. simpl.
    rewrite !statements_app, !requests_of_app, !sleeps_of_app. simpl.
    rewrite !app_nil_r. auto 10.
Qed.

Lemma fetch_token_volume_rec_final depth c w o rest :
  pending w = o :: rest ->
  is_rate_limit o = false ->
  exists w',
    fetch_token_volume_rec sys (S depth) c w = Some (answer o, w') /\
    pending w' = rest /\ db w' = db w /\ conns w' = conns w /\ clock w' = clock w /\
    statements (trace w') = statements (trace w) /\
    requests_of (trace w') = (requests_of (trace w) ++ [(coin_url sys c, [])])%list /\
    sleeps_of (trace w') = sleeps_of (trace w).
Proof.
  intros Hp Hrl. destruct o as [r|]; simpl in Hrl.
  - apply Z.eqb_neq in Hrl. cbn [page_answer answer].
    destruct (status_code r =? 200) eqn:E200.
    + apply Z.eqb_eq in E200. rewrite (fetch_token_volume_rec_200 sys depth c w r rest Hp E200).
      eexists. split; [reflexivity|].
      destruct (volume_in (json r)); simpl;
        rewrite ?statements_app, ?requests_of_app, ?sleeps_of_app; simpl;
        rewrite ?statements_app, ?requests_of_app, ?sleeps_of_app; simpl;
        rewrite ?app_nil_r; auto 10.
    + apply Z.eqb_neq in E200.
      rewrite (fetch_token_volume_rec_other_status sys depth c w r rest Hp E200 Hrl).
      eexists. split; [reflexivity|]. simpl.
      rewrite !statements_app, !requests_of_app, !sleeps_of_app. simpl.
      rewrite !app_nil_r. auto 10.
  - rewrite (fetch_token_volume_rec_failed sys depth c w rest Hp).
    eexists. split; [reflexivity|]. simpl.
    rewrite !statements_app, !requests_of_app, !sleeps_of_app. simpl.
    rewrite !app_nil_r. auto 10.
Qed.

Lemma repeat_snoc {A} (x : A) n : (repeat x n ++ [x])%list = x :: repeat x n.
Proof. induction n as [|n IH]; simpl; [reflexivity|]. now rewrite IH. Qed.

(** As long as there is room for the nested calls and the sleeps can be
    scheduled, both fetches ask again after each 429 answer. *)
Lemma fetch_token_data_rec_retried a b c : forall retries ds depth w o rest,
  pending w = (retries ++ o :: rest)%list ->
  delays sys retries = Some ds ->
  slept sys (clock w) ds = true ->
  is_rate_limit o = false ->
  (List.length retries <= depth)%nat ->
  exists w',
    fetch_token_data_rec sys (S depth) a b c w = Some (Ret (page_answer o), w') /\
    pending w' = rest /\ db w' = db w /\ conns w' = conns w /\
    clock w' = clock w + total ds /\
    statements (trace w') = statements (trace w) /\
    requests_of (trace w') =
      (requests_of (trace w)
       ++ repeat (markets_url, markets_params a b c) (S (List.length retries)))%list /\
    sleeps_of (trace w') = (sleeps_of (trace w) ++ ds)%list.
Proof.
  induction retries as [|o1 retries IH]; intros ds depth w o rest Hp Hds Hsl Hrl Hroom.
  - injection Hds as <-. simpl in Hp.
    destruct (fetch_token_data_rec_final depth a b c w o rest Hp Hrl)
      as (w' & Hrun & Hq & Hd & Hc & Hk & Hs & Hr & Hsl').
    exists w'. unfold total. simpl. rewrite app_nil_r, Z.add_0_r. auto 10.
  - cbn [delays] in Hds.
    destruct (backoff sys o1) as [d|] eqn:Hb; [|discriminate].
    destruct (delays sys retries) as [ds'|] eqn:Hds'; [|discriminate].
    injection Hds as <-.
    cbn [slept] in Hsl. apply andb_true_iff in Hsl. destruct Hsl as [Hfit Hsl].
    destruct (backoff_rate_limit sys o1 d Hb) as (r & -> & H429 & Hr & Hd).
    rewrite <- app_comm_cons in Hp.
    destruct depth as [|depth]; [simpl in Hroom; lia|].
    rewrite (fetch_token_data_rec_429 sys (S depth) a b c w r _ d Hp H429 Hr Hd Hfit).
    destruct (IH ds' depth (backed_off markets_url (markets_params a b c) d
                                 (retries ++ o :: rest)%list w) o rest)
      as (w' & Hrun & Hq & Hdb & Hc & Hk & Hs & Hrq & Hsl'); auto;
      [simpl in Hroom; lia|].
    exists w'. split; [exact Hrun|]. simpl in *.
    rewrite !statements_app in Hs. rewrite !requests_of_app in Hrq.
    rewrite !sleeps_of_app in Hsl'. simpl in *.
    rewrite !app_nil_r in *. rewrite <- !app_assoc in *. simpl in *.
    unfold total in *. simpl. repeat split; auto; lia.
Qed.

Lemma fetch_token_volume_rec_retried c : forall retries ds depth w o rest,
  pending w = (retries ++ o :: rest)%list ->
  delays sys retries = Some ds ->
  slept sys (clock w) ds = true ->
  is_rate_limit o = false ->
  (List.length retries <= depth)%nat ->
  exists w',
    fetch_token_volume_rec sys (S depth) c w = Some (answer o, w') /\
    pending w' = rest /\ db w' = db w /\ conns w' = conns w /\
    clock w' = clock w + total ds /\
    statements (trace w') = statements (trace w) /\
    requests_of (trace w') =
      (requests_of (trace w) ++ repeat (coin_url sys c, []) (S (List.length retries)))%list /\
    sleeps_of (trace w') = (sleeps_of (trace w) ++ ds)%list.
Proof.
  induction retries as [|o1 retries IH]; intros ds depth w o rest Hp Hds Hsl Hrl Hroom.
  - injection Hds as <-. simpl in Hp.
    destruct (fetch_token_volume_rec_final depth c w o rest Hp Hrl)
      as (w' & Hrun & Hq & Hd & Hc & Hk & Hs & Hr & Hsl').
    exists w'. unfold total. simpl. rewrite app_nil_r, Z.add_0_r. auto 10.
  - cbn [delays] in Hds.
    destruct (backoff sys o1) as [d|] eqn:Hb; [|discriminate].
    destruct (delays sys retries) as [ds'|] eqn:Hds'; [|discriminate].
    injection Hds as <-.
    cbn [slept] in Hsl. apply andb_true_iff in Hsl. destruct Hsl as [Hfit Hsl].
    destruct (backoff_rate_limit sys o1 d Hb) as (r & -> & H429 & Hr & Hd).
    rewrite <- app_comm_cons in Hp.
    destruct depth as [|depth]; [simpl in Hroom; lia|].
    rewrite (fetch_token_volume_rec_429 sys (S depth) c w r _ d Hp H429 Hr Hd Hfit).
    destruct (IH ds' depth (backed_off (coin_url sys c) [] d (retries ++ o :: rest)%list w)
                 o rest)
      as (w' & Hrun & Hq & Hdb & Hc & Hk & Hs & Hrq & Hsl'); auto;
      [simpl in Hroom; lia|].
    exists w'. split; [exact Hrun|]. simpl in *.
    rewrite !statements_app in Hs. rewrite !requests_of_app in Hrq.
    rewrite !sleeps_of_app in Hsl'. simpl in *.
    rewrite !app_nil_r in *. rewrite <- !app_assoc in *. simpl in *.
    unfold total in *. simpl. repeat split; auto; lia.
Qed.

Lemma fetch_token_volume_retried c retries ds w o rest :
  pending w = (retries ++ o :: rest)%list ->
  delays sys retries = Some ds ->
  slept sys (clock w) ds = true ->
  is_rate_limit o = false ->
  (List.length retries <= retry_room sys)%nat ->
  exists w',
    fetch_token_volume sys c w = Some (answer o, w') /\
    pending w' = rest /\ db w' = db w /\ conns w' = conns w /\
    clock w' = clock w + total ds /\
    statements (trace w') = statements (trace w) /\
    requests_of (trace w') =
      (requests_of (trace w) ++ repeat (coin_url sys c, []) (S (List.length retries)))%list /\
    sleeps_of (trace w') = (sleeps_of (trace w) ++ ds)%list.
Proof. apply fetch_token_volume_rec_retried. Qed.

Lemma fetch_token_data_retried a b c retries ds w o rest :
  pending w = (retries ++ o :: rest)%list ->
  delays sys retries = Some ds ->
  slept sys (clock w) ds = true ->
  is_rate_limit o = false ->
  (List.length retries <= retry_room sys)%nat ->
  exists w',
    fetch_token_data sys a b c w = Some (Ret (page_answer o), w') /\
    pending w' = rest /\ db w' = db w /\ conns w' = conns w /\
    clock w' = clock w + total ds /\
    statements (trace w') = statements (trace w) /\
    requests_of (trace w') =
      (requests_of (trace w)
       ++ repeat (markets_url, markets_params a b c) (S (List.length retries)))%list /\
    sleeps_of (trace w') = (sleeps_of (trace w) ++ ds)%list.
Proof. apply fetch_token_data_rec_retried. Qed.

(** A run of exchanges that settles a fetch: 429 answers, then one
    answer that is none. *)
Lemma settled_split seg v :
  settled sys seg = Some v ->
  exists retries o,
    seg = (retries ++ [o])%list /\ delays sys retries = Some (waits sys seg) /\
    is_rate_limit o = false /\ answer o = Ret v.
Proof.
  revert v. induction seg as [|o seg IH]; intros v Hs; [discriminate|].
  cbn [settled] in Hs. destruct seg as [|o' seg'].
  - destruct (is_rate_limit o) eqn:Hrl; [discriminate|].
    destruct (answer o) as [v'|] eqn:Ha; [|discriminate]. injection Hs as <-.
    exists [], o. split; [reflexivity|]. split; [|auto].
    unfold waits. simpl.
    destruct o as [r|]; simpl in *; [|reflexivity].
    rewrite Hrl. reflexivity.
  - destruct (backoff sys o) as [d|] eqn:Hb; [|discriminate].
    destruct (IH v Hs) as (retries & o1 & Hseg & Hd & Hrl & Ha).
    exists (o :: retries), o1. rewrite Hseg. split; [reflexivity|].
    split; [|auto]. cbn [delays]. rewrite Hb, Hd, Hseg.
    unfold waits. cbn [flat_map]. rewrite Hb. reflexivity.
Qed.

(** A call of [fetch_token_volume] on exchanges that settle it returns
    the settled value and touches neither the database nor the
    connections. *)
Lemma fetch_token_volume_settled c seg v w rest :
  settled sys seg = Some v ->
  (List.length seg <= S (retry_room sys))%nat ->
  slept sys (clock w) (waits sys seg) = true ->
  pending w = (seg ++ rest)%list ->
  exists w',
    fetch_token_volume sys c w = Some (Ret v, w') /\
    pending w' = rest /\ db w' = db w /\ conns w' = conns w /\
    clock w' = clock w + total (waits sys seg) /\
    statements (trace w') = statements (trace w) /\
    requests_of (trace w') =
      (requests_of (trace w) ++ repeat (coin_url sys c, []) (List.length seg))%list /\
    sleeps_of (trace w') = (sleeps_of (trace w) ++ waits sys seg)%list.
Proof.
  intros Hs Hroom Hsl Hp.
  destruct (settled_split seg v Hs) as (retries & o & Eseg & Hd & Hrl & Ha).
  assert (Hlen : List.length seg = S (List.length retries))
    by (rewrite Eseg, length_app; simpl; lia).
  destruct (fetch_token_volume_retried c retries (waits sys seg) w o rest)
    as (w' & Hrun & H); auto.
  - rewrite Hp, Eseg, <- app_assoc. reflexivity.
  - lia.
  - exists w'. rewrite Ha in Hrun. rewrite Hlen. auto.
Qed.
End RetryFacts.
Section FetchClaims.
Variable sys : deployment.

(** C2. When [fetch_token_data] gets a 429 answer and then a 200
    answer, it sleeps for the delay the 429 answer advertises in
    [Retry-After] (30 seconds when the header is absent) between the two
    requests, sends the second request to the same URL with the same
    parameters, and returns the body of the 200 answer.
    [fetch_token_volume] retries in the same way and returns what it
    makes of the 200 answer.  The advertised delay is the header read as
    a whole number of seconds that [time.sleep] takes: from 0 to
    9223372036, and one the platform can schedule.  The retry is a
    nested call, for which the recursion limit must leave room.  A 429
    answer that advertises no such delay ends the call in a
    [ValueError], an [OverflowError] or an [OSError], with the 200
    answer not yet asked for, so a call that gets both answers has
    slept. *)
Theorem fetch_retries_after_rate_limit a b c coin w r1 r2 rest :
  pending w = Responds r1 :: Responds r2 :: rest ->
  status_code r1 = 429 ->
  status_code r2 = 200 ->
  (1 <= retry_room sys)%nat ->
  (retry_after_header r1 = None -> retry_after_of sys r1 = Ret 30) /\
  (forall d,
     retry_after_of sys r1 = Ret d ->
     0 <= d <= longest_sleep ->
     sleep_fits sys (clock w) d = true ->
     (exists w',
        fetch_token_data sys a b c w = Some (Ret (json r2), w') /\
        trace w' = (trace w ++ [EvGet markets_url (markets_params a b c); rate_limit_line d;
                                EvSleep d; EvGet markets_url (markets_params a b c)])%list /\
        clock w' = clock w + d /\ pending w' = rest /\ db w' = db w) /\
     (exists w',
        fetch_token_volume sys coin w = Some (volume_in (json r2), w') /\
        firstn 4 (skipn (List.length (trace w)) (trace w')) =
          [EvGet (coin_url sys coin) []; rate_limit_line d; EvSleep d;
           EvGet (coin_url sys coin) []] /\
        clock w' = clock w + d /\ pending w' = rest /\ db w' = db w)) /\
  (backoff sys (Responds r1) = None \/
   (exists d, backoff sys (Responds r1) = Some d /\ sleep_fits sys (clock w) d = false) ->
   exists e,
     (e = ValueError \/ e = OverflowError \/ e = OSError) /\
     (exists w',
        fetch_token_data sys a b c w = Some (Raise e, w') /\
        pending w' = Responds r2 :: rest /\ clock w' = clock w) /\
     (exists w',
        fetch_token_volume sys coin w = Some (Raise e, w') /\
        pending w' = Responds r2 :: rest /\ clock w' = clock w)).
Proof.
  intros Hp H1 H2 Hroom. split; [|split].
  - intros Hn. unfold retry_after_of. now rewrite Hn.
  - intros d Hr Hd Hfit.
    unfold fetch_token_data, fetch_token_volume.
    destruct (retry_room sys) as [|room]; [lia|]. split.
    + erewrite fetch_token_data_rec_429 by eassumption.
      erewrite fetch_token_data_rec_200 by (try reflexivity; assumption).
      eexists. split; [reflexivity|]. simpl.
      repeat split. rewrite <- !app_assoc. reflexivity.
    + erewrite fetch_token_volume_rec_429 by eassumption.
      erewrite fetch_token_volume_rec_200 by (try reflexivity; assumption).
      eexists. split; [reflexivity|].
      destruct (volume_in (json r2)); simpl; repeat split;
        rewrite <- !app_assoc; rewrite skipn_app, skipn_all, Nat.sub_diag; reflexivity.
  - intros Hbad.
    destruct (fetch_token_data_rec_429_stops sys (retry_room sys) a b c w r1 _ Hp H1 Hbad)
      as (e & w1 & Hrun1 & Hq1 & Hc1 & _ & _ & _ & _ & He1).
    destruct (fetch_token_volume_rec_429_stops sys (retry_room sys) coin w r1 _ Hp H1 Hbad)
      as (e' & w2 & Hrun2 & Hq2 & Hc2 & _ & _ & _ & _ & He2).
    assert (e' = e /\ (e = ValueError \/ e = OverflowError \/ e = OSError)) as [-> He].
    { destruct (retry_after_of sys r1) as [d|x].
      - destruct ((d <? - longest_sleep) || (longest_sleep <? d)); [subst; auto|].
        destruct (d <? 0); subst; auto.
      - subst. auto. }
    exists e. split; [exact He|]. split; [exists w1|exists w2]; auto.
Qed.

(** C8. An answer with a status other than 200 and 429, and a
    transport failure raised by [requests.get], make [fetch_token_data]
    return [None]: no other value comes back and no exception escapes.
    The same holds for [fetch_token_volume]. *)
Theorem fetch_failure_returns_none a b c coin w o rest :
  pending w = o :: rest ->
  o = Fails \/ (exists r, o = Responds r /\ status_code r <> 200 /\ status_code r <> 429) ->
  (exists w', fetch_token_data sys a b c w = Some (Ret VNone, w') /\
              pending w' = rest /\ db w' = db w /\ clock w' = clock w) /\
  (exists w', fetch_token_volume sys coin w = Some (Ret VNone, w') /\
              pending w' = rest /\ db w' = db w /\ clock w' = clock w).
Proof.
  intros Hp [->|(r & -> & H200 & H429)].
  - rewrite (fetch_token_data_failed sys a b c _ _ Hp), (fetch_token_volume_failed sys coin _ _ Hp).
    split; eexists; (split; [reflexivity|]); repeat split.
  - rewrite (fetch_token_data_other_status sys a b c _ _ _ Hp H200 H429),
            (fetch_token_volume_other_status sys coin _ _ _ Hp H200 H429).
    split; eexists; (split; [reflexivity|]); repeat split.
Qed.
End FetchClaims.

(** ** Connections *)

Lemma length_replace_nth {A} (n : nat) (x : A) (l : list A) :
  List.length (replace_nth n x l) = List.length l.
Proof.
  revert n. induction l as [|y l IH]; intros [|n]; simpl; auto.
Qed.

Lemma nth_replace_nth {A} (n : nat) (x d : A) (l : list A) :
  (n < List.length l)%nat -> nth n (replace_nth n x l) d = x.
Proof.
  revert n. induction l as [|y l IH]; intros [|n] Hn; simpl in *; try lia; auto.
  apply IH. lia.
Qed.

Lemma replace_nth_middle {A} (x y : A) (l r : list A) :
  replace_nth (List.length l) x (l ++ y :: r) = (l ++ x :: r)%list.
Proof.
  induction l as [|z l IH]; simpl; [reflexivity|]. now rewrite IH.
Qed.

Lemma replace_nth_twice {A} (n : nat) (x y : A) (l : list A) :
  replace_nth n x (replace_nth n y l) = replace_nth n x l.
Proof.
  revert n. induction l as [|z l IH]; intros [|n]; simpl; auto. now rewrite IH.
Qed.

Section DeleteFacts.
Variable sys : deployment.

(** [delete_old_data] on a database that has the table: the rows that
    are not older than 21 days stay, in order; nothing else changes. *)
Lemma delete_old_data_runs w rows :
  token_volumes (db w) = Some rows ->
  exists w',
    delete_old_data sys w = Some (Ret VNone, w') /\
    tokens (db w') = tokens (db w) /\
    token_volumes (db w') =
      Some (filter (fun r => negb (holds (sql_lt (date r) (sql_date (clock w) (-21))))) rows) /\
    pending w' = pending w /\ clock w' = clock w.
Proof.
  intros Hrows. destruct w as [d cs p ck tr]. simpl in *.
  unfold delete_old_data, bind, connect, execute, commit, close, print, emit, ret,
    view, conn_at. simpl.
  rewrite nth_middle. simpl. rewrite Hrows. simpl.
  rewrite replace_nth_middle.
  unfold conn_at, view. simpl. rewrite nth_middle. simpl.
  rewrite replace_nth_middle. rewrite nth_middle. simpl.
  eexists. split; [reflexivity|]. simpl. auto.
Qed.
End DeleteFacts.

(** ** The calendar and the text of a date *)

Section Calendar.

Lemma days_in_month_bounds y m : (28 <= days_in_month y m <= 31)%nat.
Proof.
  unfold days_in_month.
  do 12 (destruct m as [|m]; [destruct (leap y); lia|]). lia.
Qed.

Lemma next_day_valid c : valid c -> valid (next_day c).
Proof.
  unfold valid, next_day. intros [Hm Hd].
  destruct (day c <? days_in_month (year c) (month c))%nat eqn:E1; cbn [year month day].
  - apply Nat.ltb_lt in E1. lia.
  - destruct (month c <? 12)%nat eqn:E2; cbn [year month day].
    + apply Nat.ltb_lt in E2.
      pose proof (days_in_month_bounds (year c) (S (month c))). lia.
    + pose proof (days_in_month_bounds (year c + 1) 1). lia.
Qed.

Lemma next_day_later c : valid c -> civil_lt c (next_day c).
Proof.
  unfold valid, next_day, civil_lt. intros [Hm Hd].
  destruct (day c <? days_in_month (year c) (month c))%nat eqn:E1; simpl.
  - right. split; [reflexivity|]. right. split; [reflexivity|]. lia.
  - destruct (month c <? 12)%nat eqn:E2; simpl.
    + right. split; [reflexivity|]. left. lia.
    + left. lia.
Qed.

Lemma civil_lt_trans a b c : civil_lt a b -> civil_lt b c -> civil_lt a c.
Proof. unfold civil_lt. intros H1 H2. lia. Qed.

Lemma days_forward_valid n : valid (Nat.iter n next_day epoch).
Proof.
  induction n as [|n IH]; simpl.
  - unfold valid, epoch; simpl. lia.
  - now apply next_day_valid.
Qed.

Lemma days_forward_later n m :
  (n < m)%nat -> civil_lt (Nat.iter n next_day epoch) (Nat.iter m next_day epoch).
Proof.
  induction 1 as [|m Hle IH]; simpl.
  - apply next_day_later, days_forward_valid.
  - eapply civil_lt_trans; [exact IH|]. apply next_day_later, days_forward_valid.
Qed.

Lemma days_forward_year n : 1970 <= year (Nat.iter n next_day epoch).
Proof.
  induction n as [|n IH]; [unfold epoch; simpl; lia|].
  change (Nat.iter (S n) next_day epoch) with (next_day (Nat.iter n next_day epoch)).
  revert IH. generalize (Nat.iter n next_day epoch). intros c IH.
  unfold next_day.
  destruct (_ <? _)%nat; cbn [year]; [exact IH|].
  destruct (_ <? _)%nat; cbn [year]; lia.
Qed.

(** Days since the epoch are in calendar order. *)
Lemma civil_of_day_later a b :
  0 <= a < b -> civil_lt (civil_of_day a) (civil_of_day b).
Proof.
  intros H. unfold civil_of_day.
  destruct (0 <=? a) eqn:Ea; [|apply Z.leb_gt in Ea; lia].
  destruct (0 <=? b) eqn:Eb; [|apply Z.leb_gt in Eb; lia].
  apply days_forward_later. lia.
Qed.

Lemma civil_of_day_valid a : 0 <= a -> valid (civil_of_day a).
Proof.
  intros H. unfold civil_of_day.
  destruct (0 <=? a) eqn:Ea; [|apply Z.leb_gt in Ea; lia].
  apply days_forward_valid.
Qed.

Lemma civil_of_day_year a : 0 <= a -> 1970 <= year (civil_of_day a).
Proof.
  intros H. unfold civil_of_day.
  destruct (0 <=? a) eqn:Ea; [|apply Z.leb_gt in Ea; lia].
  apply days_forward_year.
Qed.

Lemma digit_char_compare x y :
  Ascii.compare (digit_char x) (digit_char y) = Z.compare (x mod 10) (y mod 10).
Proof.
  unfold digit_char, Ascii.compare.
  pose proof (Z.mod_pos_bound x 10 ltac:(lia)) as Hx.
  pose proof (Z.mod_pos_bound y 10 ltac:(lia)) as Hy.
  rewrite !N_ascii_embedding by lia.
  rewrite Z2N.inj_compare by lia.
  apply Z.add_compare_mono_l.
Qed.

Lemma digits2 x :
  0 <= x < 100 ->
  x = 10 * ((x / 10) mod 10) + x mod 10 /\
  0 <= (x / 10) mod 10 < 10 /\ 0 <= x mod 10 < 10.
Proof. intros H. Z.to_euclidean_division_equations. lia. Qed.

Lemma digits4 x :
  0 <= x < 10000 ->
  x = 1000 * ((x / 1000) mod 10) + 100 * ((x / 100) mod 10)
      + 10 * ((x / 10) mod 10) + x mod 10 /\
  0 <= (x / 1000) mod 10 < 10 /\ 0 <= (x / 100) mod 10 < 10 /\
  0 <= (x / 10) mod 10 < 10 /\ 0 <= x mod 10 < 10.
Proof. intros H. Z.to_euclidean_division_equations. lia. Qed.

Lemma pad2_compare x y s t :
  0 <= x < 100 -> 0 <= y < 100 ->
  String.compare (pad2 x ++ s) (pad2 y ++ t) =
  match Z.compare x y with Eq => String.compare s t | c => c end.
Proof.
  intros Hx Hy. unfold pad2. cbn [String.append String.compare].
  rewrite !digit_char_compare.
  destruct (digits2 x Hx) as (Ex & Hx1 & Hx0).
  destruct (digits2 y Hy) as (Ey & Hy1 & Hy0).
  revert Ex Ey Hx1 Hx0 Hy1 Hy0.
  generalize ((x / 10) mod 10) (x mod 10) ((y / 10) mod 10) (y mod 10).
  intros x1 x0 y1 y0 Ex Ey Hx1 Hx0 Hy1 Hy0.
  destruct (Z.compare_spec x y) as [E|E|E];
    destruct (Z.compare_spec x1 y1) as [E1|E1|E1];
    destruct (Z.compare_spec x0 y0) as [E0|E0|E0];
    try reflexivity; exfalso; lia.
Qed.

Lemma pad4_compare x y s t :
  0 <= x < 10000 -> 0 <= y < 10000 ->
  String.compare (pad4 x ++ s) (pad4 y ++ t) =
  match Z.compare x y with Eq => String.compare s t | c => c end.
Proof.
  intros Hx Hy. unfold pad4. cbn [String.append String.compare].
  rewrite !digit_char_compare.
  destruct (digits4 x Hx) as (Ex & Hx3 & Hx2 & Hx1 & Hx0).
  destruct (digits4 y Hy) as (Ey & Hy3 & Hy2 & Hy1 & Hy0).
  revert Ex Ey Hx3 Hx2 Hx1 Hx0 Hy3 Hy2 Hy1 Hy0.
  generalize ((x / 1000) mod 10) ((x / 100) mod 10) ((x / 10) mod 10) (x mod 10)
             ((y / 1000) mod 10) ((y / 100) mod 10) ((y / 10) mod 10) (y mod 10).
  intros x3 x2 x1 x0 y3 y2 y1 y0 Ex Ey Hx3 Hx2 Hx1 Hx0 Hy3 Hy2 Hy1 Hy0.
  destruct (Z.compare_spec x y) as [E|E|E];
    destruct (Z.compare_spec x3 y3) as [E3|E3|E3];
    destruct (Z.compare_spec x2 y2) as [E2|E2|E2];
    destruct (Z.compare_spec x1 y1) as [E1|E1|E1];
    destruct (Z.compare_spec x0 y0) as [E0|E0|E0];
    try reflexivity; exfalso; lia.
Qed.

Lemma string_compare_refl s : String.compare s s = Eq.
Proof.
  induction s as [|c s IH]; simpl; [reflexivity|].
  unfold Ascii.compare. now rewrite N.compare_refl.
Qed.

(** On the years 0000 to 9999 the text of a date sorts like the date. *)
Lemma iso_date_later c1 c2 :
  valid c1 -> valid c2 ->
  0 <= year c1 <= 9999 -> 0 <= year c2 <= 9999 ->
  civil_lt c1 c2 ->
  exists s t, iso_date c1 = SText s /\ iso_date c2 = SText t /\ String.compare s t = Lt.
Proof.
  intros [Hm1 Hd1] [Hm2 Hd2] Hy1 Hy2 Hlt.
  pose proof (days_in_month_bounds (year c1) (month c1)) as B1.
  pose proof (days_in_month_bounds (year c2) (month c2)) as B2.
  unfold iso_date.
  replace ((0 <=? year c1) && (year c1 <=? 9999)) with true
    by (symmetry; apply andb_true_iff; split; apply Z.leb_le; lia).
  replace ((0 <=? year c2) && (year c2 <=? 9999)) with true
    by (symmetry; apply andb_true_iff; split; apply Z.leb_le; lia).
  do 2 eexists. split; [reflexivity|]. split; [reflexivity|].
  rewrite pad4_compare by lia.
  cbn [String.append]. cbn [String.compare].
  replace (Ascii.compare "-" "-") with Eq by reflexivity.
  rewrite pad2_compare by lia.
  cbn [String.append]. cbn [String.compare].
  replace (Ascii.compare "-" "-") with Eq by reflexivity.
  change (pad2 (Z.of_nat (day c1))) with (pad2 (Z.of_nat (day c1)) ++ "").
  change (pad2 (Z.of_nat (day c2))) with (pad2 (Z.of_nat (day c2)) ++ "").
  rewrite pad2_compare by lia.
  unfold civil_lt in Hlt.
  destruct (Z.compare_spec (year c1) (year c2)) as [E|E|E];
    destruct (Z.compare_spec (Z.of_nat (month c1)) (Z.of_nat (month c2))) as [F|F|F];
    destruct (Z.compare_spec (Z.of_nat (day c1)) (Z.of_nat (day c2))) as [G|G|G];
    try reflexivity; exfalso; lia.
Qed.

(** SQL's [<] on the texts of two days since the epoch is the order of
    the days. *)
Lemma date_text_order a b :
  0 <= a -> 0 <= b ->
  year (civil_of_day a) <= 9999 -> year (civil_of_day b) <= 9999 ->
  sql_lt (iso_date (civil_of_day a)) (iso_date (civil_of_day b)) = Some (a <? b).
Proof.
  intros Ha Hb Ya Yb.
  pose proof (civil_of_day_year a Ha). pose proof (civil_of_day_year b Hb).
  pose proof (civil_of_day_valid a Ha). pose proof (civil_of_day_valid b Hb).
  destruct (Z.lt_trichotomy a b) as [L|[E|G]].
  - destruct (iso_date_later (civil_of_day a) (civil_of_day b)) as (s & t & -> & -> & C);
      auto; try lia.
    { apply civil_of_day_later. lia. }
    simpl. unfold String.ltb. rewrite C.
    f_equal. symmetry. apply Z.ltb_lt. exact L.
  - subst b.
    replace (a <? a) with false by (symmetry; apply Z.ltb_irrefl).
    unfold iso_date.
    replace ((0 <=? year (civil_of_day a)) && (year (civil_of_day a) <=? 9999)) with true
      by (symmetry; apply andb_true_iff; split; apply Z.leb_le; lia).
    simpl. unfold String.ltb. now rewrite string_compare_refl.
  - destruct (iso_date_later (civil_of_day b) (civil_of_day a)) as (s & t & -> & -> & C);
      auto; try lia.
    { apply civil_of_day_later. lia. }
    simpl. unfold String.ltb. rewrite String.compare_antisym, C. simpl.
    f_equal. symmetry. apply Z.ltb_ge. lia.
Qed.

End Calendar.

Section DeleteClaim.
Variable sys : deployment.

Lemma civil_of_day_year_mono a b :
  0 <= a <= b -> year (civil_of_day a) <= year (civil_of_day b).
Proof.
  intros H. destruct (Z.eq_dec a b) as [->|N]; [lia|].
  assert (L : civil_lt (civil_of_day a) (civil_of_day b)) by (apply civil_of_day_later; lia).
  unfold civil_lt in L. lia.
Qed.

(** C5. [delete_old_data] removes every [token_volumes] row dated
    strictly more than 21 days before the current day and keeps every
    row dated within the window, the row dated exactly 21 days ago
    included; no row is added and the [tokens] table is unchanged.  Dates
    are the [YYYY-MM-DD] texts of days since 1970-01-01, up to the year
    9999. *)
Theorem delete_old_data_keeps_window w rows :
  token_volumes (db w) = Some rows ->
  21 <= clock w / 86400 ->
  year (civil_of_day (clock w / 86400)) <= 9999 ->
  exists w' kept,
    delete_old_data sys w = Some (Ret VNone, w') /\
    tokens (db w') = tokens (db w) /\
    token_volumes (db w') = Some kept /\
    (forall r, In r kept -> In r rows) /\
    (forall r k, In r rows -> 0 <= k -> year (civil_of_day k) <= 9999 ->
       date r = iso_date (civil_of_day k) ->
       (In r kept <-> clock w / 86400 - 21 <= k)).
Proof.
  intros Hrows Hday Hyear.
  destruct (delete_old_data_runs sys w rows Hrows) as (w' & Hrun & Htok & Hvol & _).
  exists w'. eexists. split; [exact Hrun|]. split; [exact Htok|]. split; [exact Hvol|].
  split.
  - intros r Hr. apply filter_In in Hr. tauto.
  - intros r k Hr Hk Hyk Hdate. rewrite filter_In.
    unfold sql_date. rewrite Hdate.
    replace (clock w / 86400 + -21) with (clock w / 86400 - 21) by lia.
    rewrite date_text_order; try lia.
    + simpl. destruct (k <? clock w / 86400 - 21) eqn:E; simpl.
      * apply Z.ltb_lt in E. split; [intros [_ F]; discriminate|lia].
      * apply Z.ltb_ge in E. tauto.
    + pose proof (civil_of_day_year_mono (clock w / 86400 - 21) (clock w / 86400)). lia.
Qed.
End DeleteClaim.

Section UpdateFacts.
Variable sys : deployment.

(** [get_token_volume] on a database that has the table. *)
Lemma get_token_volume_runs w rows :
  token_volumes (db w) = Some rows ->
  get_token_volume sys w =
  Some (if volumes_has_id sys
        then Ret (map (fun r => VTuple [num (rowid r)]) rows)
        else Raise OperationalError,
        add_event (EvExecute SelectVolumeIds) (set_conns (conns w ++ [no_connection]) w)).
Proof.
  intros Hrows. destruct w as [d cs p ck tr]. simpl in *.
  unfold get_token_volume, bind, connect, execute, commit, close, ret, view, conn_at. simpl.
  rewrite nth_middle. simpl. rewrite Hrows.
  destruct (volumes_has_id sys); simpl; [|reflexivity].
  unfold conn_at, view. simpl. rewrite nth_middle. simpl.
  rewrite !replace_nth_middle. rewrite nth_middle. reflexivity.
Qed.

(** C9. Whenever [token_volumes] holds at least one row,
    [update_token_volumes] ends in an uncaught exception: the rows
    [get_token_volume] returns are tuples, indexing a tuple with a string
    key is a [TypeError], and the loop does so for its first row before
    any request or statement of its own (where the table has no column
    [id], the [SELECT id] of [get_token_volume] already fails).  Nothing
    is fetched and the database is unchanged. *)
Theorem update_token_volumes_raises w rows :
  token_volumes (db w) = Some rows ->
  rows <> [] ->
  (forall l key, getitem (VTuple l) key = Raise TypeError) /\
  (volumes_has_id sys = true ->
   exists w1, get_token_volume sys w =
              Some (Ret (map (fun r => VTuple [num (rowid r)]) rows), w1)) /\
  exists w',
    update_token_volumes sys w =
      Some (Raise (if volumes_has_id sys then TypeError else OperationalError), w') /\
    db w' = db w /\ pending w' = pending w /\
    trace w' = (trace w ++ [EvExecute SelectVolumeIds])%list.
Proof.
  intros Hrows Hne. split; [reflexivity|]. split.
  - intros Hid. rewrite (get_token_volume_runs w rows Hrows), Hid. eauto.
  - unfold update_token_volumes, bind at 1.
    rewrite (get_token_volume_runs w rows Hrows).
    destruct (volumes_has_id sys).
    + destruct rows as [|r rows']; [congruence|]. simpl.
      eexists. split; [reflexivity|]. simpl. auto.
    + eexists. split; [reflexivity|]. simpl. auto.
Qed.
End UpdateFacts.

(** ** Synchronising the token list *)

Section SyncFacts.
Variable sys : deployment.

(** The order of the index holds the rows of the table, each once. *)
Lemma In_insert_by_id x r rows :
  In x (insert_by_id r rows) <-> x = r \/ In x rows.
Proof.
  induction rows as [|y rows IH]; simpl; [intuition congruence|].
  destruct (id_before (tokens_id r) (tokens_id y)); simpl; [intuition congruence|].
  rewrite IH. intuition congruence.
Qed.

Lemma by_id_snoc rows r : by_id (rows ++ [r]) = insert_by_id r (by_id rows).
Proof. unfold by_id. now rewrite fold_left_app. Qed.

Lemma In_by_id x rows : In x (by_id rows) <-> In x rows.
Proof.
  induction rows as [|r rows IH] using rev_ind; [reflexivity|].
  rewrite by_id_snoc, In_insert_by_id, IH, in_app_iff. simpl. intuition congruence.
Qed.

Lemma length_insert_by_id r rows :
  List.length (insert_by_id r rows) = S (List.length rows).
Proof.
  induction rows as [|y rows IH]; simpl; [reflexivity|].
  destruct (id_before (tokens_id r) (tokens_id y)); simpl; congruence.
Qed.

Lemma length_by_id rows : List.length (by_id rows) = List.length rows.
Proof.
  induction rows as [|r rows IH] using rev_ind; [reflexivity|].
  rewrite by_id_snoc, length_insert_by_id, IH, length_app. simpl. lia.
Qed.

Lemma by_id_nil rows : by_id rows = [] -> rows = [].
Proof.
  intros H. apply (f_equal (@List.length _)) in H. rewrite length_by_id in H.
  now destruct rows.
Qed.

Lemma existing_by_id v rows :
  existsb (py_eq v) (map (fun r => value_of_sql (tokens_id r)) (by_id rows)) =
  existsb (py_eq v) (map (fun r => value_of_sql (tokens_id r)) rows).
Proof.
  apply Bool.eq_true_iff_eq. rewrite !existsb_exists.
  split; intros (u & Hin & H); exists u; (split; [|exact H]);
    apply in_map_iff in Hin; destruct Hin as (r & <- & Hr);
    apply in_map_iff; exists r; (split; [reflexivity|]); now apply In_by_id.
Qed.

Lemma merged_same_existing ex1 ex2 entries : forall rows,
  (forall v, existsb (py_eq v) ex1 = existsb (py_eq v) ex2) ->
  merged sys ex1 entries rows = merged sys ex2 entries rows.
Proof.
  induction entries as [|e entries IH]; intros rows H; [reflexivity|].
  cbn [merged]. rewrite H. destruct (_ || _); apply IH; exact H.
Qed.

Lemma merged_by_id entries old rows :
  merged sys (map (fun r => value_of_sql (tokens_id r)) (by_id old)) entries rows =
  merged sys (map (fun r => value_of_sql (tokens_id r)) old) entries rows.
Proof. apply merged_same_existing. intros v. apply existing_by_id. Qed.

Lemma key_taken_In i rows :
  key_taken (SText i) rows = true <-> In (SText i) (map tokens_id rows).
Proof.
  unfold key_taken. rewrite existsb_exists, in_map_iff. split.
  - intros (r & Hr & Hk). exists r. split; [|exact Hr].
    destruct (tokens_id r) as [|q|s]; simpl in Hk; try discriminate.
    destruct (String.eqb_spec s i); [congruence|discriminate].
  - intros (r & Hk & Hr). exists r. split; [exact Hr|].
    rewrite Hk. simpl. now rewrite String.eqb_refl.
Qed.

Lemma existing_In i rows :
  existsb (py_eq (VStr i)) (map (fun r => value_of_sql (tokens_id r)) rows) = true <->
  In (SText i) (map tokens_id rows).
Proof.
  rewrite existsb_exists, in_map_iff. split.
  - intros (v & Hv & He). apply in_map_iff in Hv. destruct Hv as (r & <- & Hr).
    exists r. split; [|exact Hr].
    destruct (tokens_id r) as [|q|s]; simpl in He; try discriminate.
    destruct (String.eqb_spec i s); [congruence|discriminate].
  - intros (r & Hk & Hr). exists (VStr i). split.
    + apply in_map_iff. exists r. rewrite Hk. auto.
    + simpl. apply String.eqb_refl.
Qed.

(** The pure content of the loop: rows are only appended, the keys
    become the union, and keys stay distinct. *)
Lemma merged_union entries : forall rows existing,
  (forall i, existsb (py_eq (VStr i)) existing = true -> In (SText i) (map tokens_id rows)) ->
  NoDup (map tokens_id rows) ->
  exists added,
    merged sys existing entries rows = (rows ++ added)%list /\
    (forall x, In x (map tokens_id (rows ++ added)) <->
               In x (map tokens_id rows) \/ In x (map (fun e => SText (fst e)) entries)) /\
    NoDup (map tokens_id (rows ++ added)) /\
    (forall row, In row added -> exists e, In e entries /\ row = row_of sys e).
Proof.
  induction entries as [|e entries IH]; intros rows existing Hex Hnd; cbn [merged map].
  - exists []. rewrite app_nil_r. repeat split; auto.
    + intros [H|[]]; exact H.
    + intros row [].
  - destruct (existsb (py_eq (VStr (fst e))) existing || key_taken (SText (fst e)) rows) eqn:E.
    + assert (Hin : In (SText (fst e)) (map tokens_id rows)).
      { apply orb_true_iff in E. destruct E as [E|E]; [auto|]. now apply key_taken_In. }
      destruct (IH rows existing Hex Hnd) as (added & Hm & Hu & Hn & Ha).
      exists added. split; [exact Hm|]. split; [|split; [exact Hn|]].
      * intros x. rewrite Hu. simpl. split; [tauto|].
        intros [H|[<-|H]]; auto.
      * intros row Hr. destruct (Ha row Hr) as (e' & He' & ->). exists e'. simpl. auto.
    + apply orb_false_iff in E. destruct E as [_ E].
      assert (Hnin : ~ In (SText (fst e)) (map tokens_id rows)).
      { intros H. apply key_taken_In in H. congruence. }
      destruct (IH (rows ++ [row_of sys e])%list existing) as (added & Hm & Hu & Hn & Ha).
      { intros i Hi. rewrite map_app, in_app_iff. left. auto. }
      { rewrite map_app. simpl. apply NoDup_app; auto.
        - constructor; [intros []|constructor].
        - intros x Hx [<-|[]]. contradiction. }
      exists (row_of sys e :: added). rewrite <- app_assoc in Hm, Hu, Hn. simpl in Hm, Hu, Hn.
      split; [exact Hm|]. split; [|split; [exact Hn|]].
      * intros x. rewrite Hu. rewrite map_app, in_app_iff. simpl. tauto.
      * intros row [<-|Hr]; [exists e; simpl; auto|].
        destruct (Ha row Hr) as (e' & He' & ->). exists e'. simpl. auto.
Qed.

Lemma view_written h d n cs w :
  (h < List.length cs)%nat ->
  view h (set_conns (replace_nth h {| txn := Some d; total_changes := n |} cs) w) = d.
Proof.
  intros Hh. unfold view, conn_at. simpl. now rewrite nth_replace_nth.
Qed.

Lemma execute_insert_token h w i n x rows :
  tokens (view h w) = Some rows ->
  bind_param n = Ret x ->
  execute sys h (InsertToken (VStr i) n) w =
  if key_taken (SText i) rows
  then Some (Raise IntegrityError, add_event (EvExecute (InsertToken (VStr i) n)) w)
  else Some (Ret [],
             set_conns
               (replace_nth h
                  {| txn := Some (set_tokens (Some (rows ++ [row_of sys (i, x)])%list)
                                             (view h w));
                     total_changes := total_changes (conn_at h w) + 1 |}
                  (conns w))
               (add_event (EvExecute (InsertToken (VStr i) n)) w)).
Proof.
  intros Hrows Hn. unfold execute. simpl. rewrite Hrows. simpl. rewrite Hn. simpl.
  unfold key_taken. destruct (existsb _ rows); reflexivity.
Qed.

(** The insertion loop on connection [h], for a listing that reads as
    [entries]. *)
Lemma insert_new_tokens_runs h existing : forall entries items w rows,
  reads_as items entries ->
  (h < List.length (conns w))%nat ->
  tokens (view h w) = Some rows ->
  exists w',
    insert_new_tokens sys h existing items w = Some (Ret tt, w') /\
    tokens (view h w') = Some (merged sys existing entries rows) /\
    token_volumes (view h w') = token_volumes (view h w) /\
    db w' = db w /\ pending w' = pending w /\ clock w' = clock w /\
    List.length (conns w') = List.length (conns w).
Proof.
  induction entries as [|e entries IH]; intros items w rows Hread Hh Hrows;
    destruct items as [|token items]; try discriminate.
  - exists w. simpl. auto 10.
  - unfold reads_as in Hread. cbn [map] in Hread.
    injection Hread as Hid Hname Hrest.
    destruct (getitem token "name") as [n|] eqn:Hn; [|discriminate].
    cbn [and_then] in Hname.
    cbn [insert_new_tokens merged].
    rewrite Hid, Hn.
    unfold bind, lift, ret, try_except, py_in. cbn [hashable].
    destruct (existsb (py_eq (VStr (fst e))) existing) eqn:Ex; cbn [orb].
    + apply IH; assumption.
    + rewrite (execute_insert_token h w (fst e) n (snd e) rows Hrows Hname).
      destruct (key_taken (SText (fst e)) rows) eqn:Ek.
      * destruct (IH items (add_event (EvExecute (InsertToken (VStr (fst e)) n)) w) rows)
          as (w' & Hrun & Ht & Hv & Hd & Hp & Hc & Hl); auto.
        exists w'. split; [exact Hrun|]. auto 10.
      * match goal with |- context [insert_new_tokens sys h existing items ?w2] =>
          destruct (IH items w2 (rows ++ [row_of sys e])%list)
            as (w' & Hrun & Ht & Hv & Hd & Hp & Hc & Hl) end; auto.
        { simpl. rewrite length_replace_nth. exact Hh. }
        { rewrite view_written by exact Hh. destruct e; reflexivity. }
        exists w'. split; [exact Hrun|]. split; [exact Ht|].
        rewrite view_written in Hv by exact Hh.
        simpl in Hl. rewrite length_replace_nth in Hl. auto 10.
Qed.
End SyncFacts.

Section SyncClaim.
Variable sys : deployment.

Lemma first_column_set_ids rows :
  first_column_set (map (fun r => VTuple [value_of_sql (tokens_id r)]) rows) =
  Ret (map (fun r => value_of_sql (tokens_id r)) rows).
Proof.
  induction rows as [|r rows IH]; [reflexivity|].
  cbn [map first_column_set]. rewrite IH.
  destruct (tokens_id r); reflexivity.
Qed.


Lemma bind_step {A B} (m : M A) (k : A -> M B) w a w1 :
  m w = Some (Ret a, w1) -> bind m k w = k a w1.
Proof. intros H. unfold bind. now rewrite H. Qed.

Lemma requests_get_responds url params w r rest :
  pending w = Responds r :: rest ->
  requests_get url params w = Some (Ret r, requested url params rest w).
Proof. intros H. unfold requests_get. now rewrite H. Qed.

Lemma view_fresh w0 w :
  view (List.length (conns w)) (set_conns (conns w ++ [no_connection]) w0) = db w0.
Proof. unfold view, conn_at. simpl. now rewrite nth_middle. Qed.

(** [get_token_list] reads the committed table through a connection of
    its own. *)
Lemma get_token_list_runs w :
  get_token_list sys w =
  Some (match tokens (db w) with
        | Some rows => Ret (map (fun r => VTuple [value_of_sql (tokens_id r)]) (by_id rows))
        | None => Raise OperationalError
        end,
        add_event (EvExecute SelectTokenIds) (set_conns (conns w ++ [no_connection]) w)).
Proof.
  destruct w as [d cs p ck tr].
  unfold get_token_list, bind, connect, execute, commit, close, ret, view, conn_at. simpl.
  rewrite nth_middle. simpl.
  destruct (tokens d) as [rows|]; simpl; [|reflexivity].
  unfold conn_at, view. simpl. rewrite nth_middle. simpl.
  rewrite !replace_nth_middle. rewrite nth_middle. reflexivity.
Qed.

(** The part the two synchronisations share, once the listing is in
    hand and connection [h] is open on the committed table. *)
Lemma finish_sync h existing items entries w rows :
  reads_as items entries ->
  (h < List.length (conns w))%nat ->
  view h w = db w ->
  tokens (db w) = Some rows ->
  exists w',
    (insert_new_tokens sys h existing items ;;
     commit h ;;
     close h ;;
     print [Lit "Token list updated."] ;;
     ret VNone) w = Some (Ret VNone, w') /\
    tokens (db w') = Some (merged sys existing entries rows) /\
    token_volumes (db w') = token_volumes (db w) /\ pending w' = pending w /\
    clock w' = clock w.
Proof.
  intros Hread Hh Hview Hrows.
  destruct (insert_new_tokens_runs sys h existing entries items w rows Hread Hh)
    as (w1 & Hrun & Ht & Hv & Hd & Hp & Hc & Hl).
  { now rewrite Hview. }
  erewrite bind_step by exact Hrun.
  unfold bind, commit, close, print, emit, ret. simpl.
  eexists. split; [reflexivity|]. simpl.
  rewrite Ht, Hv, Hview. auto.
Qed.

Lemma check_and_update_token_list_runs w r rest items entries old :
  pending w = Responds r :: rest ->
  status_code r = 200 ->
  iterate (json r) = Ret items ->
  reads_as items entries ->
  tokens (db w) = Some old ->
  exists w',
    check_and_update_token_list sys w = Some (Ret VNone, w') /\
    tokens (db w') =
      Some (merged sys (map (fun r => value_of_sql (tokens_id r)) old) entries old) /\
    token_volumes (db w') = token_volumes (db w) /\ pending w' = rest /\
    clock w' = clock w.
Proof.
  intros Hp Hs Hit Hread Hold.
  unfold check_and_update_token_list.
  erewrite bind_step by (apply requests_get_responds; exact Hp).
  rewrite Hs. cbn [Z.eqb Pos.eqb].
  erewrite bind_step by reflexivity.
  erewrite bind_step
    by (rewrite get_token_list_runs; cbn [db set_conns requested set_pending add_event];
        rewrite Hold; reflexivity).
  rewrite first_column_set_ids.
  erewrite bind_step by reflexivity.
  erewrite bind_step by reflexivity.
  erewrite bind_step by reflexivity.
  rewrite Hit.
  erewrite bind_step by reflexivity.
  match goal with |- context [bind (insert_new_tokens sys ?h ?ex items) ?k ?w5] =>
    destruct (finish_sync h ex items entries w5 old Hread)
      as (w' & Hrun & Ht & Hv & Hq & Hck)
  end.
  { simpl. rewrite !length_app. simpl. rewrite length_replace_nth, !length_app. simpl. lia. }
  { match goal with |- view ?h (set_conns (?cs ++ _) ?w0) = _ =>
      change h with (List.length cs) end.
    unfold view, conn_at. simpl conns. rewrite nth_middle. reflexivity. }
  { exact Hold. }
  rewrite (merged_by_id sys) in Ht.
  exists w'. split; [exact Hrun|]. split; [exact Ht|]. split; [exact Hv|].
  split; [exact Hq|exact Hck].
Qed.

Lemma execute_create_fresh w0 w :
  conns w0 = (conns w ++ [no_connection])%list ->
  execute sys (List.length (conns w)) CreateTokens w0 =
  Some (Ret [],
        set_db (match tokens (db w0) with
                | Some _ => db w0
                | None => set_tokens (Some []) (db w0)
                end)
               (add_event (EvExecute CreateTokens) w0)).
Proof.
  intros Hc. unfold execute, view, conn_at. rewrite Hc, nth_middle. simpl.
  destruct (tokens (db w0)); reflexivity.
Qed.

Lemma save_token_list_runs w r rest items entries old :
  pending w = Responds r :: rest ->
  status_code r = 200 ->
  iterate (json r) = Ret items ->
  reads_as items entries ->
  tokens (db w) = Some old \/ (tokens (db w) = None /\ old = []) ->
  exists w',
    save_token_list sys w = Some (Ret VNone, w') /\
    tokens (db w') =
      Some (merged sys (map (fun r => value_of_sql (tokens_id r)) old) entries old) /\
    token_volumes (db w') = token_volumes (db w) /\ pending w' = rest /\
    clock w' = clock w.
Proof.
  intros Hp Hs Hit Hread Hold.
  unfold save_token_list.
  erewrite bind_step by (apply requests_get_responds; exact Hp).
  rewrite Hs. cbn [Z.eqb Pos.eqb].
  erewrite bind_step by reflexivity.
  erewrite bind_step by (apply execute_create_fresh; reflexivity).
  cbn [db set_conns requested set_pending add_event].
  set (d' := match tokens (db w) with
             | Some _ => db w
             | None => set_tokens (Some []) (db w)
             end).
  assert (Hd' : tokens d' = Some old /\ token_volumes d' = token_volumes (db w)).
  { subst d'. destruct Hold as [H|[H ->]]; rewrite H; auto. }
  destruct Hd' as [Hd1 Hd2].
  erewrite bind_step by (rewrite get_token_list_runs; cbn [db set_db]; rewrite Hd1; reflexivity).
  rewrite first_column_set_ids.
  erewrite bind_step by reflexivity.
  rewrite Hit.
  erewrite bind_step by reflexivity.
  match goal with |- context [bind (insert_new_tokens sys ?h ?ex items) ?k ?w5] =>
    destruct (finish_sync h ex items entries w5 old Hread)
      as (w' & Hrun & Ht & Hv & Hq & Hck)
  end.
  { simpl. rewrite !length_app. simpl. lia. }
  { unfold view, conn_at. simpl conns. rewrite <- app_assoc. simpl app.
    rewrite nth_middle. reflexivity. }
  { exact Hd1. }
  rewrite (merged_by_id sys) in Ht.
  exists w'. split; [exact Hrun|]. split; [exact Ht|]. split; [rewrite Hv; exact Hd2|].
  split; [exact Hq|exact Hck].
Qed.

(** Without the table [check_and_update_token_list] stops at its
    [SELECT], with nothing written. *)
Lemma check_and_update_token_list_needs_table w r rest :
  pending w = Responds r :: rest ->
  status_code r = 200 ->
  tokens (db w) = None ->
  exists w',
    check_and_update_token_list sys w = Some (Raise OperationalError, w') /\ db w' = db w.
Proof.
  intros Hp Hs Hnone. unfold check_and_update_token_list.
  erewrite bind_step by (apply requests_get_responds; exact Hp).
  rewrite Hs. cbn [Z.eqb Pos.eqb].
  erewrite bind_step by reflexivity.
  unfold bind at 1. rewrite get_token_list_runs.
  cbn [db set_conns requested set_pending add_event]. rewrite Hnone.
  eexists. split; reflexivity.
Qed.

End SyncClaim.

(** ** Snapshots of the volumes *)

Section SnapshotFacts.
Variable sys : deployment.

Lemma view_same h w w1 :
  conns w1 = conns w -> db w1 = db w -> view h w1 = view h w.
Proof. unfold view, conn_at. now intros -> ->. Qed.

(** One guarded insert: it never raises, it is one statement in the
    trace, and it appends at most the row it was asked to. *)
Lemma insert_attempt h w k v a b :
  (h < List.length (conns w))%nat ->
  bind_param k = Ret a ->
  bind_param v = Ret b ->
  exists w1,
    try_except (execute sys h (InsertVolume k v) ;; ret tt) (insert_handlers k) w
      = Some (Ret tt, w1) /\
    pending w1 = pending w /\ db w1 = db w /\ clock w1 = clock w /\
    List.length (conns w1) = List.length (conns w) /\
    statements (trace w1) = (statements (trace w) ++ [InsertVolume k v])%list /\
    tokens (view h w1) = tokens (view h w) /\
    match token_volumes (view h w) with
    | None => token_volumes (view h w1) = None
    | Some vrows =>
        exists e1,
          token_volumes (view h w1) = Some (vrows ++ e1)%list /\
          (forall row, In row e1 -> token_id row = a /\ total_volume row = b) /\
          ((forall d, volumes_accepts sys d a b = true) -> exists row, In row e1)
    end.
Proof.
  intros Hh Hk Hv. unfold try_except, bind, execute. simpl.
  destruct (token_volumes (view h w)) as [vrows|] eqn:Hrows.
  - rewrite Hk, Hv. simpl.
    destruct (volumes_accepts sys (view h w) a b) eqn:Hacc; simpl.
    + eexists. split; [reflexivity|]. simpl.
      rewrite length_replace_nth, statements_app, view_written by exact Hh. simpl.
      repeat split; auto.
      eexists. split; [reflexivity|]. split.
      * intros row [<-|[]]. auto.
      * intros _. eexists. left. reflexivity.
    + eexists. split; [reflexivity|]. simpl.
      rewrite !statements_app. simpl. rewrite app_nil_r.
      repeat split; auto.
      change (view h (add_event _ (add_event _ w))) with (view h w).
      exists []. rewrite app_nil_r. split; [exact Hrows|]. split.
      * intros row [].
      * intros Hall. rewrite Hall in Hacc. discriminate.
  - eexists. split; [reflexivity|]. simpl.
    rewrite !statements_app. simpl. rewrite app_nil_r.
    repeat split; auto.
Qed.

(** The loop of [save_token_volumes] on connection [h]: one settled
    fetch and one guarded insert per token. *)
Lemma save_token_volumes_loop_runs h : forall rows segs vols w rest,
  map (settled sys) segs = map Some vols ->
  List.length vols = List.length rows ->
  forallb bindable vols = true ->
  in_room sys segs = true ->
  slept sys (clock w) (flat_map (waits sys) segs) = true ->
  pending w = (List.concat segs ++ rest)%list ->
  (h < List.length (conns w))%nat ->
  exists w',
    save_token_volumes_loop sys h (map listed rows) w = Some (Ret tt, w') /\
    pending w' = rest /\ db w' = db w /\
    clock w' = clock w + total (flat_map (waits sys) segs) /\
    List.length (conns w') = List.length (conns w) /\
    statements (trace w') =
      (statements (trace w) ++ map (insert_of sys) (combine rows vols))%list /\
    tokens (view h w') = tokens (view h w) /\
    match token_volumes (view h w) with
    | None => token_volumes (view h w') = None
    | Some vrows =>
        exists extra,
          token_volumes (view h w') = Some (vrows ++ extra)%list /\
          snapshot_rows sys (combine rows vols) extra
    end.
Proof.
  induction rows as [|r rows IH]; intros segs vols w rest Hset Hlen Hbind Hroom Hsl Hp Hh.
  - destruct vols; [|discriminate]. destruct segs; [|discriminate].
    simpl in Hp. exists w. simpl. rewrite app_nil_r.
    repeat split; auto; [unfold total; simpl; lia|].
    destruct (token_volumes (view h w)) as [vrows|]; [|reflexivity].
    exists []. rewrite app_nil_r. split; [reflexivity|].
    split; [intros row []|intros ? ? ? ? []].
  - destruct vols as [|v vols]; [discriminate|].
    destruct segs as [|seg segs]; [discriminate|].
    cbn [map] in Hset. injection Hset as Hseg Hsegs.
    cbn [forallb] in Hbind. apply andb_true_iff in Hbind. destruct Hbind as [Hbv Hbind].
    cbn [List.concat] in Hp. rewrite <- app_assoc in Hp.
    cbn [in_room forallb] in Hroom. apply andb_true_iff in Hroom.
    destruct Hroom as [Hr1 Hroom]. apply Nat.leb_le in Hr1.
    cbn [flat_map] in Hsl. rewrite slept_app in Hsl. apply andb_true_iff in Hsl.
    destruct Hsl as [Hsl1 Hsl2].
    destruct (fetch_token_volume_settled sys (volume_key sys r) seg v w _ Hseg Hr1 Hsl1 Hp)
      as (w1 & Hfetch & Hp1 & Hd1 & Hc1 & Hk1 & Hs1 & _).
    unfold bindable in Hbv. destruct (bind_param v) as [b|] eqn:Hv; [|discriminate].
    destruct (insert_attempt h w1 (volume_key sys r) v
                (SText (py_str sys (value_of_sql (tokens_id r)))) b) as
      (w2 & Hins & Hp2 & Hd2 & Hk2 & Hl2 & Hs2 & Ht2 & Hr2);
      [rewrite Hc1; exact Hh|reflexivity|exact Hv|].
    destruct (IH segs vols w2 rest Hsegs)
      as (w' & Hrun & Hp' & Hd' & Hk' & Hl' & Hs' & Ht' & Hr');
      [simpl in Hlen; lia|exact Hbind|exact Hroom|rewrite Hk2, Hk1; exact Hsl2|congruence
      |rewrite Hl2, Hc1; exact Hh|].
    exists w'. split.
    { cbn [map save_token_volumes_loop]. unfold listed at 1.
      erewrite bind_step by reflexivity.
      erewrite bind_step by exact Hfetch.
      unfold insert_handlers in Hins.
      erewrite bind_step by exact Hins.
      exact Hrun. }
    rewrite (view_same h w w1 Hc1 Hd1) in Ht2, Hr2.
    split; [exact Hp'|]. split; [congruence|].
    split; [rewrite Hk', Hk2, Hk1; cbn [flat_map]; rewrite total_app; lia|].
    split; [congruence|].
    split.
    { rewrite Hs', Hs2, Hs1. cbn [combine map]. rewrite <- app_assoc. reflexivity. }
    split; [congruence|].
    destruct (token_volumes (view h w)) as [vrows|].
    + destruct Hr2 as (e1 & He1 & Hsound1 & Hcomp1). rewrite He1 in Hr'.
      destruct Hr' as (extra & Hex & Hsound & Hcomp).
      exists (e1 ++ extra)%list. rewrite app_assoc. split; [exact Hex|].
      split.
      * intros row Hrow. apply in_app_iff in Hrow. destruct Hrow as [Hrow|Hrow].
        -- exists r, v. split; [left; reflexivity|].
           destruct (Hsound1 row Hrow) as [E1 E2]. unfold stores.
           rewrite E1, E2. split; [reflexivity|exact Hv].
        -- destruct (Hsound row Hrow) as (r' & v' & Hin & Hst).
           exists r', v'. split; [right; exact Hin|exact Hst].
      * intros r' v' a' b' Hin Ha' Hb' Hall. destruct Hin as [[= <- <-]|Hin].
        -- simpl in Ha'. injection Ha' as <-. rewrite Hv in Hb'. injection Hb' as <-.
           destruct (Hcomp1 Hall) as (row & Hrow).
           exists row. split; [apply in_app_iff; left; exact Hrow|].
           destruct (Hsound1 row Hrow) as [E1 E2]. unfold stores.
           rewrite E1, E2. split; [reflexivity|exact Hv].
        -- destruct (Hcomp r' v' a' b' Hin Ha' Hb' Hall) as (row & Hrow & Hst).
           exists row. split; [apply in_app_iff; right; exact Hrow|exact Hst].
    + rewrite Hr2 in Hr'. exact Hr'.
Qed.

Lemma save_token_volumes_empty w :
  tokens (db w) = Some [] ->
  exists w',
    save_token_volumes sys w = Some (Ret VNone, w') /\
    pending w' = pending w /\ db w' = db w /\
    statements (trace w') = (statements (trace w) ++ [SelectTokenIds])%list.
Proof.
  intros Hrows. unfold save_token_volumes.
  erewrite bind_step by reflexivity.
  erewrite bind_step
    by (rewrite get_token_list_runs; cbn [db set_conns]; rewrite Hrows; reflexivity).
  cbn [map List.length Nat.eqb]. unfold bind, print, emit, ret.
  eexists. split; [reflexivity|]. simpl.
  rewrite !statements_app. simpl. rewrite app_nil_r. auto.
Qed.

Lemma save_token_volumes_runs w rows segs vols rest :
  tokens (db w) = Some rows ->
  rows <> [] ->
  map (settled sys) segs = map Some vols ->
  List.length vols = List.length rows ->
  forallb bindable vols = true ->
  in_room sys segs = true ->
  slept sys (clock w) (flat_map (waits sys) segs) = true ->
  pending w = (List.concat segs ++ rest)%list ->
  exists w',
    save_token_volumes sys w = Some (Ret (VStr "Token volume data saved."), w') /\
    pending w' = rest /\
    statements (trace w') =
      (statements (trace w)
       ++ SelectTokenIds :: map (insert_of sys) (combine (by_id rows) vols))%list /\
    tokens (db w') = tokens (db w) /\
    match token_volumes (db w) with
    | None => token_volumes (db w') = None
    | Some vrows =>
        exists extra,
          token_volumes (db w') = Some (vrows ++ extra)%list /\
          snapshot_rows sys (combine (by_id rows) vols) extra
    end.
Proof.
  intros Hrows Hne Hset Hlen Hbind Hroom Hsl Hp. unfold save_token_volumes.
  erewrite bind_step by reflexivity.
  erewrite bind_step
    by (rewrite get_token_list_runs; cbn [db set_conns]; rewrite Hrows; reflexivity).
  replace (List.length (map (fun r => VTuple [value_of_sql (tokens_id r)]) (by_id rows)) =? 0)%nat
    with false
    by (rewrite length_map, length_by_id; destruct rows; [congruence|reflexivity]).
  rewrite <- (length_by_id rows) in Hlen.
  match goal with |- context [bind (save_token_volumes_loop sys ?h _) _ ?w2] =>
    destruct (save_token_volumes_loop_runs h (by_id rows) segs vols w2 rest Hset Hlen Hbind Hroom)
      as (w' & Hrun & Hp' & Hd' & Hk' & Hl' & Hs' & Ht' & Hr');
      [exact Hsl|exact Hp|simpl; rewrite !length_app; simpl; lia|];
    assert (Hview : view h w2 = db w)
      by (unfold view, conn_at; simpl conns; rewrite <- app_assoc; simpl app;
          rewrite nth_middle; reflexivity)
  end.
  unfold listed in Hrun. erewrite bind_step by exact Hrun.
  unfold bind, commit, close, ret. simpl.
  eexists. split; [reflexivity|]. simpl.
  rewrite Hview in Ht', Hr'.
  split; [exact Hp'|]. split.
  { rewrite Hs'. simpl. rewrite !statements_app. simpl. rewrite <- app_assoc. reflexivity. }
  split; [exact Ht'|exact Hr'].
Qed.
End SnapshotFacts.

Section SnapshotClaims.
Variable sys : deployment.

(** C7 (amended). On a non-empty stored token list whose fetches settle
    on values SQLite can bind, [save_token_volumes] goes through the
    stored ids in the order of the primary key, issues exactly one
    [token_volumes] insert per token, each with the value fetched for
    it, whatever the inserts do (a missing table and rejected rows
    included), and returns the completion string.  On an empty stored
    list it issues no insert and returns [None].  A fetch settles when
    its 429 answers advertise delays that [time.sleep] takes, are no
    more than the recursion limit leaves room for, and are followed by
    an answer from which a value is read; an integer value must fit 64
    bits to be bound. *)
Theorem save_token_volumes_one_insert_each w rows segs vols rest :
  tokens (db w) = Some rows ->
  map (settled sys) segs = map Some vols ->
  List.length vols = List.length rows ->
  forallb bindable vols = true ->
  in_room sys segs = true ->
  slept sys (clock w) (flat_map (waits sys) segs) = true ->
  pending w = (List.concat segs ++ rest)%list ->
  exists w',
    save_token_volumes sys w =
      Some (Ret (match rows with
                 | [] => VNone
                 | _ :: _ => VStr "Token volume data saved."
                 end), w') /\
    statements (trace w') =
      (statements (trace w)
       ++ SelectTokenIds :: map (insert_of sys) (combine (by_id rows) vols))%list /\
    pending w' = rest.
Proof.
  intros Hrows Hset Hlen Hbind Hroom Hsl Hp. destruct rows as [|r rows].
  - destruct vols; [|discriminate]. destruct segs; [|discriminate]. simpl in Hp.
    destruct (save_token_volumes_empty sys w Hrows) as (w' & Hrun & Hq & _ & Hs).
    exists w'. split; [exact Hrun|]. split; [exact Hs|congruence].
  - destruct (save_token_volumes_runs sys w (r :: rows) segs vols rest Hrows)
      as (w' & Hrun & Hq & Hs & _); auto; [discriminate|].
    exists w'. auto.
Qed.

(** C10. [save_token_volumes] files whatever [fetch_token_volume]
    returned: the rows it appends are rows for the stored tokens, taken
    in the order of the primary key, with the fetched value bound as it
    is, and a token whose fetch came back as [None] (a failed fetch) or
    as the string ["null"] (no volume data) gets its row like any other,
    holding NULL or the text ["null"], wherever the table accepts that
    row.  The fetches settle as for C7. *)
Theorem save_token_volumes_files_failures w rows segs vols rest vrows :
  tokens (db w) = Some rows ->
  rows <> [] ->
  token_volumes (db w) = Some vrows ->
  map (settled sys) segs = map Some vols ->
  List.length vols = List.length rows ->
  forallb bindable vols = true ->
  in_room sys segs = true ->
  slept sys (clock w) (flat_map (waits sys) segs) = true ->
  pending w = (List.concat segs ++ rest)%list ->
  exists w' extra,
    save_token_volumes sys w = Some (Ret (VStr "Token volume data saved."), w') /\
    token_volumes (db w') = Some (vrows ++ extra)%list /\
    snapshot_rows sys (combine (by_id rows) vols) extra /\
    (forall r v,
       In (r, v) (combine (by_id rows) vols) ->
       v = VNone \/ v = VStr "null" ->
       (forall d x,
          bind_param v = Ret x ->
          volumes_accepts sys d (SText (py_str sys (value_of_sql (tokens_id r)))) x = true) ->
       exists row,
         In row extra /\
         token_id row = SText (py_str sys (value_of_sql (tokens_id r))) /\
         value_of_sql (total_volume row) = v).
Proof.
  intros Hrows Hne Hvol Hset Hlen Hbind Hroom Hsl Hp.
  destruct (save_token_volumes_runs sys w rows segs vols rest
              Hrows Hne Hset Hlen Hbind Hroom Hsl Hp)
    as (w' & Hrun & _ & _ & _ & Hr).
  rewrite Hvol in Hr. destruct Hr as (extra & Hex & Hsnap).
  exists w', extra. split; [exact Hrun|]. split; [exact Hex|]. split; [exact Hsnap|].
  intros r v Hin Hv Hacc.
  destruct Hsnap as [_ Hcomplete].
  assert (Hb : exists x, bind_param v = Ret x /\ value_of_sql x = v).
  { destruct Hv as [-> | ->]; eexists; (split; [reflexivity|reflexivity]). }
  destruct Hb as (x & Hx & Hback).
  destruct (Hcomplete r v _ x Hin eq_refl Hx) as (row & Hrow & Hk & Hst).
  { intros d. apply Hacc. exact Hx. }
  exists row. split; [exact Hrow|].
  simpl in Hk. injection Hk as <-. rewrite Hx in Hst. injection Hst as <-. auto.
Qed.
End SnapshotClaims.

Section VolumeClaim.
Variable sys : deployment.

(** C3 (amended). On a 200 answer whose [market_data.total_volume] is a
    mapping, [fetch_token_volume] returns the string ["null"] when the
    mapping is empty, and otherwise the [usd] entry as it is (a number,
    zero included, when the entry is one; a [KeyError] when there is no
    such entry).  It returns [None] on a status other than 200 and 429
    and on a transport failure, and on a 200 answer exactly when the
    [usd] entry is itself null.  A number, the string ["null"] and
    [None] are pairwise unequal. *)
Theorem fetch_token_volume_outcomes c w o rest :
  pending w = o :: rest ->
  (forall r md items,
     o = Responds r ->
     status_code r = 200 ->
     getitem (json r) "market_data" = Ret md ->
     getitem md "total_volume" = Ret (VDict items) ->
     exists w' res,
       fetch_token_volume sys c w = Some (res, w') /\ pending w' = rest /\
       (items = [] -> res = Ret (VStr "null")) /\
       (forall v, items <> [] -> lookup "usd" items = Some v -> res = Ret v) /\
       (items <> [] -> lookup "usd" items = None -> res = Raise KeyError) /\
       (res = Ret VNone <-> lookup "usd" items = Some VNone)) /\
  (o = Fails \/ (exists r, o = Responds r /\ status_code r <> 200 /\ status_code r <> 429) ->
   exists w', fetch_token_volume sys c w = Some (Ret VNone, w') /\ pending w' = rest) /\
  (forall q, py_eq (VNum q) (VStr "null") = false /\
             py_eq (VNum q) VNone = false /\
             py_eq (VStr "null") VNone = false).
Proof.
  intros Hp. split; [|split].
  - intros r md items -> H200 Hmd Htv.
    rewrite (fetch_token_volume_200 sys c w r rest Hp H200).
    unfold volume_in. rewrite Hmd. cbn [and_then]. rewrite Htv. cbn [and_then].
    destruct items as [|[k v0] items].
    + do 2 eexists. split; [reflexivity|]. simpl.
      repeat split; try congruence; discriminate.
    + cbn [truthy negb]. cbn [getitem].
      destruct (lookup "usd" ((k, v0) :: items)) as [u|] eqn:Hu.
      * do 2 eexists. split; [reflexivity|]. simpl.
        repeat split; congruence.
      * do 2 eexists. split; [reflexivity|]. simpl.
        repeat split; try congruence; discriminate.
  - intros [->|(r & -> & H200 & H429)].
    + rewrite (fetch_token_volume_failed sys c w rest Hp). eexists. split; reflexivity.
    + rewrite (fetch_token_volume_other_status sys c w r rest Hp H200 H429).
      eexists. split; reflexivity.
  - intros q. repeat split.
Qed.
End VolumeClaim.

(** ** More on the two fetches *)

Section FetchExtras.
Variable sys : deployment.

(** X1. Neither fetch has a bound of its own on its retries.  After any
    number of 429 answers that the recursion limit leaves room for, each
    advertising a delay [time.sleep] takes, the fetch has asked once
    more than it was refused, always at the same URL with the same
    parameters, has slept each advertised delay in turn, and returns
    what the first other answer gives, having run no SQL and left the
    database alone. *)
Theorem fetches_retry_while_there_is_room a b c coin w retries ds o rest :
  pending w = (retries ++ o :: rest)%list ->
  delays sys retries = Some ds ->
  slept sys (clock w) ds = true ->
  is_rate_limit o = false ->
  (List.length retries <= retry_room sys)%nat ->
  (exists w',
     fetch_token_data sys a b c w = Some (Ret (page_answer o), w') /\
     requests_of (trace w') =
       (requests_of (trace w)
        ++ repeat (markets_url, markets_params a b c) (S (List.length retries)))%list /\
     sleeps_of (trace w') = (sleeps_of (trace w) ++ ds)%list /\
     clock w' = clock w + total ds /\
     pending w' = rest /\ db w' = db w /\ statements (trace w') = statements (trace w)) /\
  (exists w',
     fetch_token_volume sys coin w = Some (answer o, w') /\
     requests_of (trace w') =
       (requests_of (trace w) ++ repeat (coin_url sys coin, []) (S (List.length retries)))%list /\
     sleeps_of (trace w') = (sleeps_of (trace w) ++ ds)%list /\
     clock w' = clock w + total ds /\
     pending w' = rest /\ db w' = db w /\ statements (trace w') = statements (trace w)).
Proof.
  intros Hp Hds Hsl Hrl Hroom. split.
  - destruct (fetch_token_data_retried sys a b c retries ds w o rest Hp Hds Hsl Hrl Hroom)
      as (w' & Hrun & Hq & Hd & _ & Hk & Hs & Hr & Hsl').
    exists w'. auto 10.
  - destruct (fetch_token_volume_retried sys coin retries ds w o rest Hp Hds Hsl Hrl Hroom)
      as (w' & Hrun & Hq & Hd & _ & Hk & Hs & Hr & Hsl').
    exists w'. auto 10.
Qed.

Lemma getitem_raises_only obj key e :
  getitem obj key = Raise e -> e = KeyError \/ e = TypeError.
Proof.
  destruct obj; simpl; try (intros [= <-]; auto).
  destruct (lookup key items); [discriminate|]. intros [= <-]. auto.
Qed.

(** X2. A 200 answer whose body is not shaped as expected is not turned
    into [None]: when [market_data] or [total_volume] cannot be read, or
    a non-empty [total_volume] has no [usd] entry, the [KeyError] or
    [TypeError] leaves [fetch_token_volume], with the answer used up and
    nothing printed.  A [total_volume] that is falsy in any way (null,
    zero, an empty string, list or mapping) gives the string ["null"]. *)
Theorem fetch_token_volume_malformed_body c w r rest :
  pending w = Responds r :: rest ->
  status_code r = 200 ->
  (forall e,
     getitem (json r) "market_data" = Raise e \/
     (exists md, getitem (json r) "market_data" = Ret md /\
                 getitem md "total_volume" = Raise e) \/
     (exists md tv, getitem (json r) "market_data" = Ret md /\
                    getitem md "total_volume" = Ret tv /\
                    truthy tv = true /\ getitem tv "usd" = Raise e) ->
     (e = KeyError \/ e = TypeError) /\
     exists w',
       fetch_token_volume sys c w = Some (Raise e, w') /\
       pending w' = rest /\
       trace w' = (trace w ++ [EvGet (coin_url sys c) []])%list) /\
  (forall md tv,
     getitem (json r) "market_data" = Ret md ->
     getitem md "total_volume" = Ret tv ->
     truthy tv = false ->
     exists w',
       fetch_token_volume sys c w = Some (Ret (VStr "null"), w') /\ pending w' = rest).
Proof.
  intros Hp H200. rewrite (fetch_token_volume_200 sys c w r rest Hp H200).
  unfold volume_in. split.
  - intros e [H|[(md & Hmd & H)|(md & tv & Hmd & Htv & Ht & H)]].
    + split; [exact (getitem_raises_only _ _ _ H)|].
      rewrite H. cbn [and_then]. eexists. split; [reflexivity|]. auto.
    + split; [exact (getitem_raises_only _ _ _ H)|].
      rewrite Hmd. cbn [and_then]. rewrite H. cbn [and_then].
      eexists. split; [reflexivity|]. auto.
    + split; [exact (getitem_raises_only _ _ _ H)|].
      rewrite Hmd. cbn [and_then]. rewrite Htv. cbn [and_then]. rewrite Ht. cbn [negb].
      rewrite H. eexists. split; [reflexivity|]. auto.
  - intros md tv Hmd Htv Ht.
    rewrite Hmd. cbn [and_then]. rewrite Htv. cbn [and_then]. rewrite Ht. cbn [negb].
    eexists. split; [reflexivity|]. reflexivity.
Qed.
End FetchExtras.

(** ** More on synchronising the token list *)

Section SyncExtras.
Variable sys : deployment.

Lemma bind_raise_step {A B} (m : M A) (k : A -> M B) w e w1 :
  m w = Some (Raise e, w1) -> bind m k w = Some (Raise e, w1).
Proof. intros H. unfold bind. now rewrite H. Qed.

(** X3. A listing answered with any status but 200 is given up at once,
    a 429 with its [Retry-After] included: both synchronisations print
    one line and return [None], having sent that one request, opened no
    connection, run no SQL, slept not at all and left the database
    alone. *)
Theorem sync_gives_up_on_status w r rest :
  pending w = Responds r :: rest ->
  status_code r <> 200 ->
  exists w',
    save_token_list sys w = Some (Ret VNone, w') /\
    check_and_update_token_list sys w = Some (Ret VNone, w') /\
    trace w' = (trace w ++ [EvGet (base_url ++ "coins/list") [];
                            EvPrint [Lit "Error fetching token list."]])%list /\
    db w' = db w /\ conns w' = conns w /\ clock w' = clock w /\ pending w' = rest.
Proof.
  intros Hp Hs. apply Z.eqb_neq in Hs.
  unfold save_token_list, check_and_update_token_list.
  erewrite !bind_step by (apply requests_get_responds; exact Hp).
  rewrite Hs. unfold bind, print, emit, ret.
  eexists. split; [reflexivity|]. split; [reflexivity|]. simpl.
  rewrite <- app_assoc. auto 10.
Qed.

(** X4. A transport failure while the listing is fetched is not caught:
    the [RequestException] leaves both synchronisations (the two
    fetches return [None] instead), with no connection opened and the
    database alone. *)
Theorem sync_lets_transport_failure_out w rest :
  pending w = Fails :: rest ->
  exists w',
    save_token_list sys w = Some (Raise RequestException, w') /\
    check_and_update_token_list sys w = Some (Raise RequestException, w') /\
    db w' = db w /\ conns w' = conns w /\ pending w' = rest /\
    statements (trace w') = statements (trace w).
Proof.
  intros Hp. unfold save_token_list, check_and_update_token_list, bind, requests_get.
  rewrite Hp. eexists. split; [reflexivity|]. split; [reflexivity|]. simpl.
  rewrite statements_app. simpl. rewrite app_nil_r. auto 10.
Qed.

Lemma merged_prefix existing entries : forall rows,
  exists added, merged sys existing entries rows = (rows ++ added)%list.
Proof.
  induction entries as [|e entries IH]; intros rows; cbn [merged].
  - exists []. now rewrite app_nil_r.
  - destruct (_ || _).
    + apply IH.
    + destruct (IH (rows ++ [row_of sys e])%list) as (added & ->).
      exists (row_of sys e :: added). now rewrite <- app_assoc.
Qed.

Lemma merged_app existing l1 l2 : forall rows,
  merged sys existing (l1 ++ l2) rows = merged sys existing l2 (merged sys existing l1 rows).
Proof.
  induction l1 as [|e l1 IH]; intros rows; cbn [merged app]; [reflexivity|].
  destruct (_ || _); apply IH.
Qed.

Lemma merged_keys_within existing entries : forall rows x,
  In x (map tokens_id (merged sys existing entries rows)) ->
  In x (map tokens_id rows) \/ In x (map (fun e => SText (fst e)) entries).
Proof.
  induction entries as [|e entries IH]; intros rows x Hx; cbn [merged map] in *.
  - auto.
  - destruct (_ || _).
    + destruct (IH rows x Hx); simpl; auto.
    + destruct (IH _ x Hx) as [H|H]; simpl; auto.
      rewrite map_app, in_app_iff in H. simpl in H. tauto.
Qed.

(** A listing that names only stored ids changes no row. *)
Lemma merged_fixed entries rows :
  (forall e, In e entries -> In (SText (fst e)) (map tokens_id rows)) ->
  merged sys (map (fun r => value_of_sql (tokens_id r)) rows) entries rows = rows.
Proof.
  induction entries as [|e entries IH]; intros Hall; cbn [merged]; [reflexivity|].
  assert (He : existsb (py_eq (VStr (fst e)))
                       (map (fun r => value_of_sql (tokens_id r)) rows) = true).
  { apply existing_In. apply Hall. left. reflexivity. }
  rewrite He. cbn [orb]. apply IH. intros e' He'. apply Hall. right. exact He'.
Qed.

Lemma database_eq d1 d2 :
  tokens d1 = tokens d2 -> token_volumes d1 = token_volumes d2 -> d1 = d2.
Proof. destruct d1, d2. simpl. now intros -> ->. Qed.

(** X5. On an existing table the two synchronisations do the same: for
    the same listing they leave the same database. *)
Theorem sync_functions_agree w r rest items entries old :
  pending w = Responds r :: rest ->
  status_code r = 200 ->
  json r = VList items ->
  reads_as items entries ->
  tokens (db w) = Some old ->
  exists w1 w2,
    save_token_list sys w = Some (Ret VNone, w1) /\
    check_and_update_token_list sys w = Some (Ret VNone, w2) /\
    db w1 = db w2 /\ pending w1 = pending w2.
Proof.
  intros Hp Hs Hj Hread Hold.
  assert (Hit := f_equal iterate Hj). cbn [iterate] in Hit.
  destruct (save_token_list_runs sys w r rest items entries old Hp Hs Hit Hread
              (or_introl Hold)) as (w1 & Hrun1 & Ht1 & Hv1 & Hq1 & _).
  destruct (check_and_update_token_list_runs sys w r rest items entries old Hp Hs Hit Hread
              Hold) as (w2 & Hrun2 & Ht2 & Hv2 & Hq2 & _).
  exists w1, w2. split; [exact Hrun1|]. split; [exact Hrun2|]. split; [|congruence].
  apply database_eq; congruence.
Qed.

(** X6. Synchronising twice against the same listing is synchronising
    once: the second run, whichever of the two it is, leaves the
    database as the first left it. *)
Theorem sync_twice_is_sync_once w r rest items entries old :
  pending w = Responds r :: Responds r :: rest ->
  status_code r = 200 ->
  json r = VList items ->
  reads_as items entries ->
  NoDup (map tokens_id old) ->
  tokens (db w) = Some old \/ (tokens (db w) = None /\ old = []) ->
  exists w1 w2 w3,
    save_token_list sys w = Some (Ret VNone, w1) /\
    save_token_list sys w1 = Some (Ret VNone, w2) /\
    check_and_update_token_list sys w1 = Some (Ret VNone, w3) /\
    db w2 = db w1 /\ db w3 = db w1.
Proof.
  intros Hp Hs Hj Hread Hnd Hold.
  assert (Hit := f_equal iterate Hj). cbn [iterate] in Hit.
  destruct (save_token_list_runs sys w r (Responds r :: rest) items entries old
              Hp Hs Hit Hread Hold) as (w1 & Hrun1 & Ht1 & Hv1 & Hq1 & _).
  set (rows1 := merged sys (map (fun r => value_of_sql (tokens_id r)) old) entries old) in *.
  assert (Hall : forall e, In e entries -> In (SText (fst e)) (map tokens_id rows1)).
  { destruct (merged_union sys entries old (map (fun r => value_of_sql (tokens_id r)) old))
      as (added & Hm & Hu & _); auto.
    { intros i Hi. now apply existing_In. }
    intros e He. subst rows1. rewrite Hm. apply Hu. right.
    apply in_map_iff. exists e. auto. }
  destruct (save_token_list_runs sys w1 r rest items entries rows1
              Hq1 Hs Hit Hread (or_introl Ht1)) as (w2 & Hrun2 & Ht2 & Hv2 & _).
  destruct (check_and_update_token_list_runs sys w1 r rest items entries rows1
              Hq1 Hs Hit Hread Ht1) as (w3 & Hrun3 & Ht3 & Hv3 & _).
  rewrite (merged_fixed entries rows1 Hall) in Ht2, Ht3.
  exists w1, w2, w3. split; [exact Hrun1|]. split; [exact Hrun2|]. split; [exact Hrun3|].
  split; apply database_eq; congruence.
Qed.

(** X7. What [save_token_list] stores, [get_token_list] returns: the
    ids of the rows that were there and of the new ones, each once as a
    1-tuple, in the order of the primary key, not in that of their
    insertion; every listed id is among them. *)
Theorem sync_then_list_round_trip w r rest items entries old :
  pending w = Responds r :: rest ->
  status_code r = 200 ->
  json r = VList items ->
  reads_as items entries ->
  NoDup (map tokens_id old) ->
  tokens (db w) = Some old \/ (tokens (db w) = None /\ old = []) ->
  exists w1 w2 added,
    save_token_list sys w = Some (Ret VNone, w1) /\
    tokens (db w1) = Some (old ++ added)%list /\
    get_token_list sys w1 = Some (Ret (map listed (by_id (old ++ added))), w2) /\
    (forall e, In e entries ->
               In (VTuple [VStr (fst e)]) (map listed (by_id (old ++ added)))) /\
    db w2 = db w1.
Proof.
  intros Hp Hs Hj Hread Hnd Hold.
  assert (Hit := f_equal iterate Hj). cbn [iterate] in Hit.
  destruct (save_token_list_runs sys w r rest items entries old Hp Hs Hit Hread Hold)
    as (w1 & Hrun1 & Ht1 & _).
  destruct (merged_union sys entries old (map (fun r => value_of_sql (tokens_id r)) old))
    as (added & Hm & Hu & _); auto.
  { intros i Hi. now apply existing_In. }
  rewrite Hm in Ht1.
  exists w1. eexists. exists added. split; [exact Hrun1|]. split; [exact Ht1|]. split.
  - rewrite get_token_list_runs, Ht1. reflexivity.
  - split; [|reflexivity].
    intros e He.
    assert (Hk : In (SText (fst e)) (map tokens_id (old ++ added))).
    { apply Hu. right. apply in_map_iff. exists e. auto. }
    apply in_map_iff in Hk. destruct Hk as (row & Hk & Hrow).
    apply in_map_iff. exists row. split; [|apply In_by_id; exact Hrow].
    unfold listed. now rewrite Hk.
Qed.

Lemma bind_assoc {A B C} (m : M A) (k : A -> M B) (k' : B -> M C) w :
  bind (bind m k) k' w = bind m (fun a => bind (k a) k') w.
Proof. unfold bind. destruct (m w) as [[[a|e] w1]|]; reflexivity. Qed.

Lemma bind_ext {A B} (m : M A) (k k' : A -> M B) w :
  (forall a w1, k a w1 = k' a w1) -> bind m k w = bind m k' w.
Proof. intros H. unfold bind. destruct (m w) as [[[a|e] w1]|]; auto. Qed.

Lemma insert_new_tokens_app h existing l1 : forall l2 w,
  insert_new_tokens sys h existing (l1 ++ l2) w =
  bind (insert_new_tokens sys h existing l1)
       (fun _ => insert_new_tokens sys h existing l2) w.
Proof.
  induction l1 as [|token l1 IH]; intros l2 w; [reflexivity|].
  cbn [app insert_new_tokens]. rewrite !bind_assoc.
  apply bind_ext. intros tid w1. rewrite bind_assoc.
  apply bind_ext. intros present w2. rewrite bind_assoc.
  apply bind_ext. intros u w3. apply IH.
Qed.

(** X8. A listing with an entry whose id cannot be read commits none of
    its entries, the well-formed ones before it included: the
    [KeyError] or [TypeError] leaves the synchronisation before the
    commit, and the table holds what it held ([save_token_list] has
    created it by then if it was missing). *)
Theorem sync_commits_nothing_on_bad_entry w r rest good entries bad more e old :
  pending w = Responds r :: rest ->
  status_code r = 200 ->
  json r = VList (good ++ bad :: more)%list ->
  reads_as good entries ->
  getitem bad "id" = Raise e ->
  (tokens (db w) = Some old \/ (tokens (db w) = None /\ old = []) ->
   exists w',
     save_token_list sys w = Some (Raise e, w') /\
     tokens (db w') = Some old /\ token_volumes (db w') = token_volumes (db w)) /\
  (tokens (db w) = Some old ->
   exists w',
     check_and_update_token_list sys w = Some (Raise e, w') /\ db w' = db w).
Proof.
  intros Hp Hs Hj Hread Hbad.
  assert (Hit := f_equal iterate Hj). cbn [iterate] in Hit.
  assert (Hloop : forall h existing w0 rows,
             (h < List.length (conns w0))%nat ->
             tokens (view h w0) = Some rows ->
             exists w1,
               insert_new_tokens sys h existing (good ++ bad :: more) w0
                 = Some (Raise e, w1) /\ db w1 = db w0).
  { intros h existing w0 rows Hh Hrows.
    destruct (insert_new_tokens_runs sys h existing entries good w0 rows Hread Hh Hrows)
      as (w1 & Hrun & _ & _ & Hd & _).
    exists w1. split; [|exact Hd].
    rewrite insert_new_tokens_app. erewrite bind_step by exact Hrun.
    cbn [insert_new_tokens]. unfold bind, lift. now rewrite Hbad. }
  split; intros Hold.
  - unfold save_token_list.
    erewrite bind_step by (apply requests_get_responds; exact Hp).
    rewrite Hs. cbn [Z.eqb Pos.eqb].
    erewrite bind_step by reflexivity.
    erewrite bind_step by (apply execute_create_fresh; reflexivity).
    cbn [db set_conns requested set_pending add_event].
    set (d' := match tokens (db w) with
               | Some _ => db w
               | None => set_tokens (Some []) (db w)
               end).
    assert (Hd' : tokens d' = Some old /\ token_volumes d' = token_volumes (db w)).
    { subst d'. destruct Hold as [H|[H ->]]; rewrite H; auto. }
    destruct Hd' as [Hd1 Hd2].
    erewrite bind_step
      by (rewrite get_token_list_runs; cbn [db set_db]; rewrite Hd1; reflexivity).
    rewrite first_column_set_ids.
    erewrite bind_step by reflexivity.
    rewrite Hit.
    erewrite bind_step by reflexivity.
    match goal with |- context [bind (insert_new_tokens sys ?h ?ex _) ?k ?w5] =>
      destruct (Hloop h ex w5 old) as (w1 & Hrun & Hd)
    end.
    { simpl. rewrite !length_app. simpl. lia. }
    { unfold view, conn_at. simpl conns. rewrite <- app_assoc. simpl app.
      rewrite nth_middle. exact Hd1. }
    erewrite bind_raise_step by exact Hrun.
    exists w1. split; [reflexivity|]. rewrite Hd. simpl. auto.
  - unfold check_and_update_token_list.
    erewrite bind_step by (apply requests_get_responds; exact Hp).
    rewrite Hs. cbn [Z.eqb Pos.eqb].
    erewrite bind_step by reflexivity.
    erewrite bind_step
      by (rewrite get_token_list_runs; cbn [db set_conns requested set_pending add_event];
          rewrite Hold; reflexivity).
    rewrite first_column_set_ids.
    erewrite bind_step by reflexivity.
    erewrite bind_step by reflexivity.
    erewrite bind_step by reflexivity.
    rewrite Hit.
    erewrite bind_step by reflexivity.
    match goal with |- context [bind (insert_new_tokens sys ?h ?ex _) ?k ?w5] =>
      destruct (Hloop h ex w5 old) as (w1 & Hrun & Hd)
    end.
    { simpl. rewrite !length_app. simpl. rewrite length_replace_nth, !length_app. simpl. lia. }
    { match goal with |- tokens (view ?h (set_conns (?cs ++ _) ?w0)) = _ =>
        change h with (List.length cs) end.
      unfold view, conn_at. simpl conns. rewrite nth_middle. exact Hold. }
    erewrite bind_raise_step by exact Hrun.
    exists w1. split; [reflexivity|]. rewrite Hd. reflexivity.
Qed.

Lemma same_key_same_row (rows : list token_row) a b :
  NoDup (map tokens_id rows) ->
  In a rows -> In b rows -> tokens_id a = tokens_id b -> a = b.
Proof.
  induction rows as [|r rows IH]; intros Hnd Ha Hb Hk; [destruct Ha|].
  simpl in Hnd. inversion Hnd as [|? ? Hnot Hnd']; subst.
  destruct Ha as [<-|Ha], Hb as [<-|Hb]; auto.
  - exfalso. apply Hnot. rewrite Hk. now apply in_map.
  - exfalso. apply Hnot. rewrite <- Hk. now apply in_map.
Qed.

(** The first entry that brings a new id is the one stored. *)
Lemma merged_first_wins old pre i n post :
  ~ In i (map fst pre) ->
  ~ In (SText i) (map tokens_id old) ->
  In (row_of sys (i, n))
     (merged sys (map (fun r => value_of_sql (tokens_id r)) old)
             (pre ++ (i, n) :: post) old).
Proof.
  intros Hpre Hold. rewrite merged_app. cbn [merged fst].
  set (E := map (fun r => value_of_sql (tokens_id r)) old).
  set (rows := merged sys E pre old).
  assert (H1 : existsb (py_eq (VStr i)) E = false).
  { destruct (existsb (py_eq (VStr i)) E) eqn:Ex; [|reflexivity].
    exfalso. apply Hold. now apply existing_In. }
  assert (H2 : key_taken (SText i) rows = false).
  { destruct (key_taken (SText i) rows) eqn:Ek; [|reflexivity].
    exfalso. apply key_taken_In in Ek.
    destruct (merged_keys_within E pre old _ Ek) as [H|H]; [auto|].
    apply in_map_iff in H. destruct H as (e & [= He] & Hin).
    apply Hpre. rewrite <- He. now apply in_map. }
  rewrite H1, H2. cbn [orb].
  destruct (merged_prefix E post (rows ++ [row_of sys (i, n)])%list) as (added & ->).
  rewrite !in_app_iff. left. right. left. reflexivity.
Qed.

(** X9. When a listing names a new id more than once, the row stored
    for it carries the name of its first entry; it is the only row
    under that id. *)
Theorem sync_keeps_first_of_duplicates w r rest items pre i n post old :
  pending w = Responds r :: rest ->
  status_code r = 200 ->
  json r = VList items ->
  reads_as items (pre ++ (i, n) :: post)%list ->
  NoDup (map tokens_id old) ->
  ~ In i (map fst pre) ->
  ~ In (SText i) (map tokens_id old) ->
  tokens (db w) = Some old \/ (tokens (db w) = None /\ old = []) ->
  exists w' table,
    save_token_list sys w = Some (Ret VNone, w') /\
    tokens (db w') = Some table /\
    In (row_of sys (i, n)) table /\
    (forall row, In row table -> tokens_id row = SText i -> row = row_of sys (i, n)).
Proof.
  intros Hp Hs Hj Hread Hnd Hpre Hnew Hold.
  assert (Hit := f_equal iterate Hj). cbn [iterate] in Hit.
  destruct (save_token_list_runs sys w r rest items _ old Hp Hs Hit Hread Hold)
    as (w' & Hrun & Ht & _).
  exists w'. eexists. split; [exact Hrun|]. split; [exact Ht|].
  pose proof (merged_first_wins old pre i n post Hpre Hnew) as Hin.
  split; [exact Hin|].
  intros row Hrow Hk.
  destruct (merged_union sys (pre ++ (i, n) :: post)%list old
              (map (fun r => value_of_sql (tokens_id r)) old))
    as (added & Hm & _ & Hn & _); auto.
  { intros j Hex. now apply existing_In. }
  rewrite Hm in Hrow, Hin.
  eapply same_key_same_row; eauto.
Qed.
End SyncExtras.

(** ** More on the snapshots *)

Section SnapshotExtras.
Variable sys : deployment.

(** The trace side of one guarded insert: the statement, then at most
    printed lines. *)
Lemma insert_attempt_trace h w k v a b w1 :
  bind_param k = Ret a ->
  bind_param v = Ret b ->
  try_except (execute sys h (InsertVolume k v) ;; ret tt) (insert_handlers k) w
    = Some (Ret tt, w1) ->
  exists tail,
    trace w1 = (trace w ++ EvExecute (InsertVolume k v) :: tail)%list /\
    forallb is_print tail = true.
Proof.
  intros Hk Hv. unfold try_except, bind, execute. simpl.
  destruct (token_volumes (view h w)) as [vrows|].
  - rewrite Hk, Hv. simpl.
    destruct (volumes_accepts sys (view h w) a b); simpl; intros [= <-]; simpl.
    + exists []. auto.
    + eexists. rewrite <- app_assoc. simpl. split; reflexivity.
  - intros [= <-]. simpl. eexists. rewrite <- app_assoc. simpl. split; reflexivity.
Qed.

Lemma requests_of_prints tail :
  forallb is_print tail = true -> requests_of tail = [] /\ sleeps_of tail = [].
Proof.
  induction tail as [|e tail IH]; simpl; [auto|].
  destruct e; simpl; try discriminate. exact IH.
Qed.

(** The pace of the loop: one request per exchange consumed, to the URL
    of the token in turn, and no sleep but the advertised delays. *)
Lemma save_token_volumes_loop_pace h : forall rows segs vols w rest,
  map (settled sys) segs = map Some vols ->
  List.length vols = List.length rows ->
  forallb bindable vols = true ->
  in_room sys segs = true ->
  slept sys (clock w) (flat_map (waits sys) segs) = true ->
  pending w = (List.concat segs ++ rest)%list ->
  (h < List.length (conns w))%nat ->
  exists w',
    save_token_volumes_loop sys h (map listed rows) w = Some (Ret tt, w') /\
    requests_of (trace w') =
      (requests_of (trace w) ++ flat_map (calls sys) (combine rows segs))%list /\
    sleeps_of (trace w') = (sleeps_of (trace w) ++ flat_map (waits sys) segs)%list.
Proof.
  induction rows as [|r rows IH]; intros segs vols w rest Hset Hlen Hbind Hroom Hsl Hp Hh.
  - destruct vols; [|discriminate]. destruct segs; [|discriminate].
    exists w. simpl. rewrite !app_nil_r. auto.
  - destruct vols as [|v vols]; [discriminate|].
    destruct segs as [|seg segs]; [discriminate|].
    cbn [map] in Hset. injection Hset as Hseg Hsegs.
    cbn [forallb] in Hbind. apply andb_true_iff in Hbind. destruct Hbind as [Hbv Hbind].
    cbn [List.concat] in Hp. rewrite <- app_assoc in Hp.
    cbn [in_room forallb] in Hroom. apply andb_true_iff in Hroom.
    destruct Hroom as [Hr1 Hroom]. apply Nat.leb_le in Hr1.
    cbn [flat_map] in Hsl. rewrite slept_app in Hsl. apply andb_true_iff in Hsl.
    destruct Hsl as [Hsl1 Hsl2].
    destruct (fetch_token_volume_settled sys (volume_key sys r) seg v w _ Hseg Hr1 Hsl1 Hp)
      as (w1 & Hfetch & Hp1 & Hd1 & Hc1 & Hk1 & Hs1 & Hrq1 & Hsq1).
    unfold bindable in Hbv. destruct (bind_param v) as [b|] eqn:Hv; [|discriminate].
    destruct (insert_attempt sys h w1 (volume_key sys r) v
                (SText (py_str sys (value_of_sql (tokens_id r)))) b) as
      (w2 & Hins & Hp2 & Hd2 & Hk2 & Hl2 & _);
      [rewrite Hc1; exact Hh|reflexivity|exact Hv|].
    destruct (insert_attempt_trace h w1 (volume_key sys r) v _ b w2 eq_refl Hv Hins)
      as (tail & Htr & Htail).
    destruct (requests_of_prints tail Htail) as [Hrt Hst].
    destruct (IH segs vols w2 rest Hsegs) as (w' & Hrun & Hr' & Hsl');
      [simpl in Hlen; lia|exact Hbind|exact Hroom|rewrite Hk2, Hk1; exact Hsl2|congruence
      |rewrite Hl2, Hc1; exact Hh|].
    exists w'. split.
    { cbn [map save_token_volumes_loop]. unfold listed at 1.
      erewrite bind_step by reflexivity.
      erewrite bind_step by exact Hfetch.
      unfold insert_handlers in Hins.
      erewrite bind_step by exact Hins.
      exact Hrun. }
    rewrite Hr', Hsl', Htr.
    rewrite requests_of_app, sleeps_of_app. simpl. rewrite Hrt, Hst, Hrq1, Hsq1.
    rewrite !app_nil_r. cbn [combine flat_map]. unfold calls at 2. cbn [fst snd].
    rewrite <- !app_assoc. auto.
Qed.

Lemma insert_accepted h w k v a b vrows :
  (h < List.length (conns w))%nat ->
  bind_param k = Ret a ->
  bind_param v = Ret b ->
  token_volumes (view h w) = Some vrows ->
  volumes_accepts sys (view h w) a b = true ->
  exists w1,
    try_except (execute sys h (InsertVolume k v) ;; ret tt) (insert_handlers k) w
      = Some (Ret tt, w1) /\
    token_volumes (view h w1) =
      Some (vrows ++ [{| rowid := next_rowid vrows; token_id := a; total_volume := b;
                         date := sql_date (clock w) 0 |}])%list.
Proof.
  intros Hh Hk Hv Hrows Hacc. unfold try_except, bind, execute. simpl.
  rewrite Hrows, Hk, Hv. simpl. rewrite Hacc. simpl.
  eexists. split; [reflexivity|]. now rewrite view_written.
Qed.

Lemma total_nonneg seg : 0 <= total (waits sys seg).
Proof.
  unfold total, waits. induction seg as [|o seg IH]; simpl; [lia|].
  destruct (backoff sys o) as [d|] eqn:Hb; simpl; [|exact IH].
  destruct (backoff_rate_limit sys o d Hb) as (r & _ & _ & _ & Hd). lia.
Qed.

Lemma waits_total_nonneg segs : 0 <= total (flat_map (waits sys) segs).
Proof.
  induction segs as [|seg segs IH]; simpl; [unfold total; simpl; lia|].
  rewrite total_app. pose proof (total_nonneg seg). lia.
Qed.

(** The loop where the table takes every row: exactly one row per
    token, in order, behind the rows that were there, each dated by the
    clock at its insert. *)
Lemma save_token_volumes_loop_exact h : forall rows segs vols w rest vrows,
  map (settled sys) segs = map Some vols ->
  List.length vols = List.length rows ->
  forallb bindable vols = true ->
  in_room sys segs = true ->
  slept sys (clock w) (flat_map (waits sys) segs) = true ->
  pending w = (List.concat segs ++ rest)%list ->
  (h < List.length (conns w))%nat ->
  token_volumes (view h w) = Some vrows ->
  (forall d rv a b, In rv (combine rows vols) -> filed sys rv = (Ret a, Ret b) ->
                    volumes_accepts sys d a b = true) ->
  exists w' extra,
    save_token_volumes_loop sys h (map listed rows) w = Some (Ret tt, w') /\
    token_volumes (view h w') = Some (vrows ++ extra)%list /\
    map (fun row => (Ret (token_id row), Ret (total_volume row))) extra =
      map (filed sys) (combine rows vols) /\
    Forall (fun row => exists c, clock w <= c <= clock w' /\ date row = sql_date c 0) extra /\
    clock w <= clock w'.
Proof.
  induction rows as [|r rows IH];
    intros segs vols w rest vrows Hset Hlen Hbind Hroom Hsl Hp Hh Hrows Hacc.
  - destruct vols; [|discriminate]. destruct segs; [|discriminate].
    exists w, []. simpl. rewrite app_nil_r. repeat split; auto; lia.
  - destruct vols as [|v vols]; [discriminate|].
    destruct segs as [|seg segs]; [discriminate|].
    cbn [map] in Hset. injection Hset as Hseg Hsegs.
    cbn [forallb] in Hbind. apply andb_true_iff in Hbind. destruct Hbind as [Hbv Hbind].
    cbn [List.concat] in Hp. rewrite <- app_assoc in Hp.
    cbn [in_room forallb] in Hroom. apply andb_true_iff in Hroom.
    destruct Hroom as [Hr1 Hroom]. apply Nat.leb_le in Hr1.
    cbn [flat_map] in Hsl. rewrite slept_app in Hsl. apply andb_true_iff in Hsl.
    destruct Hsl as [Hsl1 Hsl2].
    destruct (fetch_token_volume_settled sys (volume_key sys r) seg v w _ Hseg Hr1 Hsl1 Hp)
      as (w1 & Hfetch & Hp1 & Hd1 & Hc1 & Hk1 & _).
    pose proof (total_nonneg seg) as Hnn.
    unfold bindable in Hbv. destruct (bind_param v) as [b|] eqn:Hv; [|discriminate].
    assert (Hview1 : view h w1 = view h w) by (apply view_same; assumption).
    destruct (insert_accepted h w1 (volume_key sys r) v
                (SText (py_str sys (value_of_sql (tokens_id r)))) b vrows)
      as (w2 & Hins & Hrows2);
      [rewrite Hc1; exact Hh|reflexivity|exact Hv|rewrite Hview1; exact Hrows| |].
    { apply (Hacc _ (r, v)); [left; reflexivity|]. unfold filed. simpl. now rewrite Hv. }
    destruct (insert_attempt sys h w1 (volume_key sys r) v
                (SText (py_str sys (value_of_sql (tokens_id r)))) b)
      as (w2' & Hins' & Hp2 & Hd2 & Hk2 & Hl2 & _);
      [rewrite Hc1; exact Hh|reflexivity|exact Hv|].
    rewrite Hins in Hins'. injection Hins' as <-.
    assert (Hlen' : List.length vols = List.length rows) by (simpl in Hlen; lia).
    assert (Hp2' : pending w2 = (List.concat segs ++ rest)%list) by congruence.
    assert (Hh2 : (h < List.length (conns w2))%nat) by (rewrite Hl2, Hc1; exact Hh).
    assert (Hsl2' : slept sys (clock w2) (flat_map (waits sys) segs) = true)
      by (rewrite Hk2, Hk1; exact Hsl2).
    assert (Hacc' : forall d rv a0 b0, In rv (combine rows vols) ->
                      filed sys rv = (Ret a0, Ret b0) -> volumes_accepts sys d a0 b0 = true).
    { intros d rv a0 b0 Hin. apply Hacc. right. exact Hin. }
    destruct (IH segs vols w2 rest _ Hsegs Hlen' Hbind Hroom Hsl2' Hp2' Hh2 Hrows2 Hacc')
      as (w' & extra & Hrun & Hex & Hmap & Hdates & Hk').
    exists w'. eexists. split.
    { cbn [map save_token_volumes_loop]. unfold listed at 1.
      erewrite bind_step by reflexivity.
      erewrite bind_step by exact Hfetch.
      unfold insert_handlers in Hins.
      erewrite bind_step by exact Hins.
      exact Hrun. }
    split; [rewrite Hex, <- app_assoc; reflexivity|].
    split; [|split].
    + cbn [app map combine]. rewrite Hmap. unfold filed at 2. cbn [fst snd].
      rewrite Hv. reflexivity.
    + constructor.
      * exists (clock w1). simpl. split; [lia|reflexivity].
      * eapply Forall_impl; [|exact Hdates].
        intros row (c & Hc & Hdate). exists c. split; [lia|exact Hdate].
    + lia.
Qed.

Lemma save_token_volumes_unfold w rows :
  tokens (db w) = Some rows ->
  rows <> [] ->
  save_token_volumes sys w =
  bind (save_token_volumes_loop sys (List.length (conns w)) (map listed (by_id rows)))
       (fun _ => commit (List.length (conns w)) ;;
                 close (List.length (conns w)) ;;
                 ret (VStr "Token volume data saved."))
       (snapshot_start w).
Proof.
  intros Hrows Hne. unfold save_token_volumes.
  erewrite bind_step by reflexivity.
  erewrite bind_step
    by (rewrite get_token_list_runs; cbn [db set_conns]; rewrite Hrows; reflexivity).
  replace (List.length (map (fun r => VTuple [value_of_sql (tokens_id r)]) (by_id rows)) =? 0)%nat
    with false
    by (rewrite length_map, length_by_id; destruct rows; [congruence|reflexivity]).
  reflexivity.
Qed.

Lemma snapshot_start_facts w :
  (List.length (conns w) < List.length (conns (snapshot_start w)))%nat /\
  view (List.length (conns w)) (snapshot_start w) = db w /\
  pending (snapshot_start w) = pending w /\
  clock (snapshot_start w) = clock w /\
  db (snapshot_start w) = db w /\
  trace (snapshot_start w) = (trace w ++ [EvExecute SelectTokenIds])%list.
Proof.
  unfold snapshot_start. simpl. rewrite !length_app. simpl. split; [lia|].
  split; [|auto].
  unfold view, conn_at. simpl conns. rewrite <- app_assoc. simpl app.
  rewrite nth_middle. reflexivity.
Qed.

Lemma snapshot_finish h w' :
  exists w'',
    (commit h ;; close h ;; ret (VStr "Token volume data saved.")) w' =
      Some (Ret (VStr "Token volume data saved."), w'') /\
    db w'' = view h w' /\ pending w'' = pending w' /\
    trace w'' = trace w' /\ clock w'' = clock w'.
Proof.
  unfold bind, commit, close, ret. eexists. split; [reflexivity|]. simpl. auto.
Qed.

Lemma sql_date_same_day c1 c2 offset :
  c1 / 86400 = c2 / 86400 -> sql_date c1 offset = sql_date c2 offset.
Proof. unfold sql_date. now intros ->. Qed.

Lemma same_day_between a c b :
  a <= c <= b -> b / 86400 = a / 86400 -> c / 86400 = a / 86400.
Proof.
  intros [H1 H2] Hab.
  pose proof (Z.div_le_mono a c 86400 ltac:(lia) H1).
  pose proof (Z.div_le_mono c b 86400 ltac:(lia) H2). lia.
Qed.

(** Everything a completed snapshot does, in one place. *)
Lemma save_token_volumes_whole w rows segs vols rest :
  tokens (db w) = Some rows ->
  rows <> [] ->
  map (settled sys) segs = map Some vols ->
  List.length vols = List.length rows ->
  forallb bindable vols = true ->
  in_room sys segs = true ->
  slept sys (clock w) (flat_map (waits sys) segs) = true ->
  pending w = (List.concat segs ++ rest)%list ->
  exists w',
    save_token_volumes sys w = Some (Ret (VStr "Token volume data saved."), w') /\
    pending w' = rest /\
    tokens (db w') = Some rows /\
    clock w' = clock w + total (flat_map (waits sys) segs) /\
    requests_of (trace w') =
      (requests_of (trace w) ++ flat_map (calls sys) (combine (by_id rows) segs))%list /\
    sleeps_of (trace w') = (sleeps_of (trace w) ++ flat_map (waits sys) segs)%list /\
    forall vrows,
      token_volumes (db w) = Some vrows ->
      (forall d rv a b, In rv (combine (by_id rows) vols) -> filed sys rv = (Ret a, Ret b) ->
                        volumes_accepts sys d a b = true) ->
      exists extra,
        token_volumes (db w') = Some (vrows ++ extra)%list /\
        map (fun row => (Ret (token_id row), Ret (total_volume row))) extra =
          map (filed sys) (combine (by_id rows) vols) /\
        Forall (fun row => exists c, clock w <= c <= clock w' /\ date row = sql_date c 0) extra.
Proof.
  intros Hrows Hne Hset Hlen Hbind Hroom Hsl Hp.
  rewrite (save_token_volumes_unfold w rows Hrows Hne).
  destruct (snapshot_start_facts w) as (Hh & Hview & Hp0 & Hk0 & Hd0 & Ht0).
  assert (Hp' : pending (snapshot_start w) = (List.concat segs ++ rest)%list) by congruence.
  assert (Hsl' : slept sys (clock (snapshot_start w)) (flat_map (waits sys) segs) = true)
    by (rewrite Hk0; exact Hsl).
  assert (Hlen' : List.length vols = List.length (by_id rows))
    by (rewrite length_by_id; exact Hlen).
  destruct (save_token_volumes_loop_runs sys (List.length (conns w)) (by_id rows) segs vols
              (snapshot_start w) rest Hset Hlen' Hbind Hroom Hsl' Hp' Hh)
    as (w1 & Hrun & Hq & _ & Hk & _ & _ & Htok & _).
  destruct (save_token_volumes_loop_pace (List.length (conns w)) (by_id rows) segs vols
              (snapshot_start w) rest Hset Hlen' Hbind Hroom Hsl' Hp' Hh)
    as (w1' & Hrun' & Hrq & Hsq).
  rewrite Hrun in Hrun'. injection Hrun' as <-.
  erewrite bind_step by exact Hrun.
  destruct (snapshot_finish (List.length (conns w)) w1)
    as (w' & Hfin & Hdb & Hpend & Htr & Hk').
  exists w'. split; [exact Hfin|].
  rewrite Hdb, Hpend, Hk', Hk, Hk0, Htr, Hrq, Hsq, Ht0, requests_of_app, sleeps_of_app.
  simpl. rewrite !app_nil_r.
  split; [exact Hq|]. split; [rewrite Htok, Hview; exact Hrows|].
  split; [reflexivity|]. split; [reflexivity|]. split; [reflexivity|].
  intros vrows Hvol Hacc.
  assert (Hvol' : token_volumes (view (List.length (conns w)) (snapshot_start w)) = Some vrows)
    by (rewrite Hview; exact Hvol).
  destruct (save_token_volumes_loop_exact (List.length (conns w)) (by_id rows) segs vols
              (snapshot_start w) rest vrows Hset Hlen' Hbind Hroom Hsl' Hp' Hh Hvol' Hacc)
    as (w1' & extra & Hrun' & Hex & Hmap & Hdates & _).
  rewrite Hrun in Hrun'. injection Hrun' as <-.
  exists extra. split; [exact Hex|]. split; [exact Hmap|].
  rewrite Hk, Hk0 in Hdates. exact Hdates.
Qed.

(** X10. [save_token_volumes] does not pace itself: it sends one request
    per stored token, taken in the order of the primary key, each to the
    URL of that token, plus one more for every 429 answer, and sleeps
    the advertised delays and nothing else.  The fetches settle: their
    429 answers advertise delays that [time.sleep] takes, are no more
    than the recursion limit leaves room for, and are followed by an
    answer from which a value that SQLite can bind is read. *)
Theorem save_token_volumes_pace w rows segs vols rest :
  tokens (db w) = Some rows ->
  rows <> [] ->
  map (settled sys) segs = map Some vols ->
  List.length vols = List.length rows ->
  forallb bindable vols = true ->
  in_room sys segs = true ->
  slept sys (clock w) (flat_map (waits sys) segs) = true ->
  pending w = (List.concat segs ++ rest)%list ->
  exists w',
    save_token_volumes sys w = Some (Ret (VStr "Token volume data saved."), w') /\
    requests_of (trace w') =
      (requests_of (trace w) ++ flat_map (calls sys) (combine (by_id rows) segs))%list /\
    sleeps_of (trace w') = (sleeps_of (trace w) ++ flat_map (waits sys) segs)%list /\
    clock w' = clock w + total (flat_map (waits sys) segs).
Proof.
  intros Hrows Hne Hset Hlen Hbind Hroom Hsl Hp.
  destruct (save_token_volumes_whole w rows segs vols rest
              Hrows Hne Hset Hlen Hbind Hroom Hsl Hp)
    as (w' & Hrun & _ & _ & Hk & Hrq & Hsq & _).
  exists w'. auto.
Qed.

(** X11. Where the table takes the rows, a snapshot appends exactly one
    row per stored token, in the order of the primary key of [tokens],
    behind the rows that were there: the row holds the key of the token
    and the fetched value, and is dated today when the snapshot ends on
    the day it began.  The [tokens] table is as it was.  The fetches
    settle as for X10. *)
Theorem save_token_volumes_files_one_row_each w rows segs vols rest vrows :
  tokens (db w) = Some rows ->
  rows <> [] ->
  token_volumes (db w) = Some vrows ->
  map (settled sys) segs = map Some vols ->
  List.length vols = List.length rows ->
  forallb bindable vols = true ->
  in_room sys segs = true ->
  slept sys (clock w) (flat_map (waits sys) segs) = true ->
  pending w = (List.concat segs ++ rest)%list ->
  (forall d rv a b, In rv (combine (by_id rows) vols) -> filed sys rv = (Ret a, Ret b) ->
                    volumes_accepts sys d a b = true) ->
  exists w' extra,
    save_token_volumes sys w = Some (Ret (VStr "Token volume data saved."), w') /\
    tokens (db w') = Some rows /\
    token_volumes (db w') = Some (vrows ++ extra)%list /\
    map (fun row => (Ret (token_id row), Ret (total_volume row))) extra =
      map (filed sys) (combine (by_id rows) vols) /\
    ((clock w + total (flat_map (waits sys) segs)) / 86400 = clock w / 86400 ->
     Forall (fun row => date row = sql_date (clock w) 0) extra).
Proof.
  intros Hrows Hne Hvol Hset Hlen Hbind Hroom Hsl Hp Hacc.
  destruct (save_token_volumes_whole w rows segs vols rest
              Hrows Hne Hset Hlen Hbind Hroom Hsl Hp)
    as (w' & Hrun & _ & Htok & Hk & _ & _ & Hfiled).
  destruct (Hfiled vrows Hvol Hacc) as (extra & Hex & Hmap & Hdates).
  exists w', extra. split; [exact Hrun|]. split; [exact Htok|]. split; [exact Hex|].
  split; [exact Hmap|].
  intros Hday. eapply Forall_impl; [|exact Hdates].
  intros row (c & Hc & ->). apply sql_date_same_day.
  apply (same_day_between (clock w) c (clock w')); [exact Hc|]. rewrite Hk. exact Hday.
Qed.

Lemma map_fst_combine_same {A B} (l : list A) : forall (l' : list B),
  List.length l' = List.length l -> map fst (combine l l') = l.
Proof.
  induction l as [|a l IH]; intros [|b l'] H; simpl in *; try discriminate; auto.
  f_equal. apply IH. lia.
Qed.

Lemma filed_keys rows vols extra :
  List.length vols = List.length rows ->
  map (fun row => (Ret (token_id row), Ret (total_volume row))) extra =
    map (filed sys) (combine rows vols) ->
  map (fun row => @Ret sqlval (token_id row)) extra =
    map (fun r => bind_param (volume_key sys r)) rows.
Proof.
  intros Hlen Hmap.
  apply (f_equal (map fst)) in Hmap. rewrite !map_map in Hmap. simpl in Hmap.
  rewrite Hmap. rewrite <- (map_fst_combine_same rows vols Hlen) at 2.
  rewrite map_map. reflexivity.
Qed.

(** X12. Nothing in [save_token_volumes] looks for a row of the day: a
    second snapshot on the same day appends a second row for every
    token, with the same key and the same date as the first, where the
    table takes them.  The fetches of both snapshots settle as for
    X10. *)
Theorem save_token_volumes_twice_doubles_the_day
        w rows segs1 vols1 segs2 vols2 rest vrows :
  tokens (db w) = Some rows ->
  rows <> [] ->
  token_volumes (db w) = Some vrows ->
  map (settled sys) segs1 = map Some vols1 -> List.length vols1 = List.length rows ->
  forallb bindable vols1 = true -> in_room sys segs1 = true ->
  map (settled sys) segs2 = map Some vols2 -> List.length vols2 = List.length rows ->
  forallb bindable vols2 = true -> in_room sys segs2 = true ->
  slept sys (clock w) (flat_map (waits sys) segs1 ++ flat_map (waits sys) segs2) = true ->
  pending w = (List.concat segs1 ++ List.concat segs2 ++ rest)%list ->
  (forall d r v a b, In r rows -> filed sys (r, v) = (Ret a, Ret b) ->
                     volumes_accepts sys d a b = true) ->
  (clock w + total (flat_map (waits sys) segs1) + total (flat_map (waits sys) segs2)) / 86400 =
    clock w / 86400 ->
  exists w1 w2 first second,
    save_token_volumes sys w = Some (Ret (VStr "Token volume data saved."), w1) /\
    save_token_volumes sys w1 = Some (Ret (VStr "Token volume data saved."), w2) /\
    token_volumes (db w2) = Some (vrows ++ first ++ second)%list /\
    List.length first = List.length rows /\
    map (fun row => (token_id row, date row)) second =
      map (fun row => (token_id row, date row)) first.
Proof.
  intros Hrows Hne Hvol Hset1 Hlen1 Hbind1 Hroom1 Hset2 Hlen2 Hbind2 Hroom2 Hsl Hp Hacc Hday.
  pose proof (waits_total_nonneg segs1) as Hn1.
  pose proof (waits_total_nonneg segs2) as Hn2.
  rewrite slept_app in Hsl. apply andb_true_iff in Hsl. destruct Hsl as [Hsl1 Hsl2].
  assert (Hacc1 : forall d rv a b, In rv (combine (by_id rows) vols1) ->
            filed sys rv = (Ret a, Ret b) -> volumes_accepts sys d a b = true).
  { intros d [r v] a b Hin. apply Hacc. apply In_by_id. eapply in_combine_l; exact Hin. }
  assert (Hacc2 : forall d rv a b, In rv (combine (by_id rows) vols2) ->
            filed sys rv = (Ret a, Ret b) -> volumes_accepts sys d a b = true).
  { intros d [r v] a b Hin. apply Hacc. apply In_by_id. eapply in_combine_l; exact Hin. }
  destruct (save_token_volumes_whole w rows segs1 vols1 (List.concat segs2 ++ rest)%list
              Hrows Hne Hset1 Hlen1 Hbind1 Hroom1 Hsl1 Hp)
    as (w1 & Hrun1 & Hp1 & Htok1 & Hk1 & _ & _ & Hfiled1).
  destruct (Hfiled1 vrows Hvol Hacc1) as (first & Hex1 & Hmap1 & Hd1).
  rewrite <- Hk1 in Hsl2.
  destruct (save_token_volumes_whole w1 rows segs2 vols2 rest
              Htok1 Hne Hset2 Hlen2 Hbind2 Hroom2 Hsl2 Hp1)
    as (w2 & Hrun2 & _ & _ & Hk2 & _ & _ & Hfiled2).
  destruct (Hfiled2 _ Hex1 Hacc2) as (second & Hex2 & Hmap2 & Hd2).
  exists w1, w2, first, second.
  split; [exact Hrun1|]. split; [exact Hrun2|].
  split; [rewrite Hex2, <- app_assoc; reflexivity|].
  assert (Hl1 : List.length first = List.length rows).
  { apply (f_equal (@List.length _)) in Hmap1.
    rewrite !length_map, length_combine, length_by_id in Hmap1. lia. }
  split; [exact Hl1|].
  assert (Hdate1 : Forall (fun row => date row = sql_date (clock w) 0) first).
  { eapply Forall_impl; [|exact Hd1]. intros row (c & Hc & ->).
    apply sql_date_same_day.
    apply (same_day_between (clock w) c
             (clock w + total (flat_map (waits sys) segs1)
              + total (flat_map (waits sys) segs2)));
      [lia|exact Hday]. }
  assert (Hdate2 : Forall (fun row => date row = sql_date (clock w) 0) second).
  { eapply Forall_impl; [|exact Hd2]. intros row (c & Hc & ->).
    apply sql_date_same_day.
    apply (same_day_between (clock w) c
             (clock w + total (flat_map (waits sys) segs1)
              + total (flat_map (waits sys) segs2)));
      [lia|exact Hday]. }
  assert (Hlen1' : List.length vols1 = List.length (by_id rows))
    by (rewrite length_by_id; exact Hlen1).
  assert (Hlen2' : List.length vols2 = List.length (by_id rows))
    by (rewrite length_by_id; exact Hlen2).
  pose proof (filed_keys (by_id rows) vols1 first Hlen1' Hmap1) as Hkeys1.
  pose proof (filed_keys (by_id rows) vols2 second Hlen2' Hmap2) as Hkeys2.
  rewrite <- Hkeys1 in Hkeys2. clear - Hkeys2 Hdate1 Hdate2.
  revert first Hkeys2 Hdate1.
  induction second as [|s second IH]; intros [|f first] Hk Hf; simpl in *;
    try discriminate; auto.
  injection Hk as Hk0 Hk. inversion Hdate2; subst. inversion Hf; subst.
  f_equal; [congruence|]. apply IH; auto.
Qed.

Lemma save_token_volumes_loop_app h l1 : forall l2 w,
  save_token_volumes_loop sys h (l1 ++ l2) w =
  bind (save_token_volumes_loop sys h l1)
       (fun _ => save_token_volumes_loop sys h l2) w.
Proof.
  induction l1 as [|t l1 IH]; intros l2 w; [reflexivity|].
  cbn [app save_token_volumes_loop].
  rewrite !bind_assoc. apply bind_ext. intros t0 w1.
  rewrite !bind_assoc. apply bind_ext. intros v w2.
  rewrite !bind_assoc. apply bind_ext. intros u w3. apply IH.
Qed.

(** X13. A snapshot is all or nothing as far as an escaping exception
    goes: when the body of one token's 200 answer cannot be read, the
    exception leaves [save_token_volumes], and the rows inserted for the
    tokens before it, in the order of the primary key, are never
    committed, so that the database is as it was; the tokens behind it
    are not fetched.  The fetches before it settle as for X10, and the
    429 answers before the unreadable one are ones to sleep on. *)
Theorem save_token_volumes_commits_nothing_on_bad_body
        w rows rows1 r rows2 segs vols retries ds o e rest :
  tokens (db w) = Some rows ->
  by_id rows = (rows1 ++ r :: rows2)%list ->
  map (settled sys) segs = map Some vols ->
  List.length vols = List.length rows1 ->
  forallb bindable vols = true ->
  in_room sys segs = true ->
  delays sys retries = Some ds ->
  (List.length retries <= retry_room sys)%nat ->
  slept sys (clock w) (flat_map (waits sys) segs ++ ds) = true ->
  is_rate_limit o = false ->
  answer o = Raise e ->
  pending w = (List.concat segs ++ retries ++ o :: rest)%list ->
  exists w',
    save_token_volumes sys w = Some (Raise e, w') /\
    db w' = db w /\ pending w' = rest.
Proof.
  intros Hrows Hby Hset Hlen Hbind Hroom Hds Hrr Hsl Hrl Hans Hp.
  rewrite slept_app in Hsl. apply andb_true_iff in Hsl. destruct Hsl as [Hsl1 Hsl2].
  rewrite (save_token_volumes_unfold w _ Hrows)
    by (intros ->; destruct rows1; discriminate).
  destruct (snapshot_start_facts w) as (Hh & Hview & Hp0 & Hk0 & Hd0 & Ht0).
  assert (Hp' : pending (snapshot_start w) =
                (List.concat segs ++ retries ++ o :: rest)%list) by congruence.
  assert (Hsl1' : slept sys (clock (snapshot_start w)) (flat_map (waits sys) segs) = true)
    by (rewrite Hk0; exact Hsl1).
  destruct (save_token_volumes_loop_runs sys (List.length (conns w)) rows1 segs vols
              (snapshot_start w) (retries ++ o :: rest)%list
              Hset Hlen Hbind Hroom Hsl1' Hp' Hh)
    as (w1 & Hrun & Hq & Hdb & Hk & _).
  assert (Hsl2' : slept sys (clock w1) ds = true) by (rewrite Hk, Hk0; exact Hsl2).
  destruct (fetch_token_volume_retried sys (volume_key sys r) retries ds w1 o rest
              Hq Hds Hsl2' Hrl Hrr)
    as (w2 & Hfetch & Hq2 & Hdb2 & _).
  exists w2. split; [|split; [congruence|exact Hq2]].
  apply bind_raise_step.
  rewrite Hby, map_app, save_token_volumes_loop_app.
  erewrite bind_step by exact Hrun.
  cbn [map save_token_volumes_loop].
  erewrite bind_step by reflexivity.
  apply bind_raise_step.
  rewrite <- Hans. exact Hfetch.
Qed.
End SnapshotExtras.

(** ** Whole runs *)

Section RunExtras.
Variable sys : deployment.

(** X14. No code creates [token_volumes].  On a file without it the
    script synchronises the token list, fetches the volume of every
    token, stores none, and still reports the volumes saved.  The
    listing is a JSON array of entries with a string id and a name
    SQLite can bind, and the fetches settle: their 429 answers advertise
    delays that [time.sleep] takes, are no more than the recursion limit
    leaves room for, and are followed by an answer from which a value
    that SQLite can bind is read. *)
Theorem main_without_volume_table w r segs vols rest items entries old :
  token_volumes (db w) = None ->
  tokens (db w) = Some old \/ (tokens (db w) = None /\ old = []) ->
  pending w = (Responds r :: List.concat segs ++ rest)%list ->
  status_code r = 200 ->
  json r = VList items ->
  reads_as items entries ->
  merged sys (map (fun r => value_of_sql (tokens_id r)) old) entries old <> [] ->
  map (settled sys) segs = map Some vols ->
  List.length vols =
    List.length (merged sys (map (fun r => value_of_sql (tokens_id r)) old) entries old) ->
  forallb bindable vols = true ->
  in_room sys segs = true ->
  slept sys (clock w) (flat_map (waits sys) segs) = true ->
  exists w',
    main sys w = Some (Ret (VStr "Token volume data saved."), w') /\
    tokens (db w') =
      Some (merged sys (map (fun r => value_of_sql (tokens_id r)) old) entries old) /\
    token_volumes (db w') = None /\
    pending w' = rest.
Proof.
  intros Hnone Hold Hp Hs Hj Hread Hne Hset Hlen Hbind Hroom Hsl.
  assert (Hit : iterate (json r) = Ret items) by (rewrite Hj; reflexivity).
  destruct (save_token_list_runs sys w r _ items entries old Hp Hs Hit Hread Hold)
    as (w1 & Hrun1 & Htok1 & Hvol1 & Hp1 & Hk1).
  rewrite <- Hk1 in Hsl.
  destruct (save_token_volumes_runs sys w1 _ segs vols rest
              Htok1 Hne Hset Hlen Hbind Hroom Hsl Hp1)
    as (w2 & Hrun2 & Hp2 & _ & Htok2 & Hvol2).
  rewrite Hvol1, Hnone in Hvol2.
  exists w2. unfold main. erewrite bind_step by exact Hrun1.
  split; [exact Hrun2|]. split; [congruence|]. auto.
Qed.

(** X15. [update_token_volumes] acts in no state at all: whatever the
    database holds, it runs its one [SELECT], sends no request, does not
    sleep and leaves the database as it was.  The only run that ends
    without an exception is the one on an empty table with a column
    [id], which returns at once. *)
Theorem update_token_volumes_never_acts w :
  exists out w',
    update_token_volumes sys w = Some (out, w') /\
    db w' = db w /\ pending w' = pending w /\ clock w' = clock w /\
    trace w' = (trace w ++ [EvExecute SelectVolumeIds])%list /\
    (out = Ret VNone <-> volumes_has_id sys = true /\ token_volumes (db w) = Some []).
Proof.
  unfold update_token_volumes, bind at 1.
  destruct (token_volumes (db w)) as [rows|] eqn:Hrows.
  - rewrite (get_token_volume_runs sys w rows Hrows).
    destruct (volumes_has_id sys).
    + destruct rows as [|row rows]; simpl.
      * eexists. eexists. split; [reflexivity|]. simpl. repeat split; auto.
      * eexists. eexists. split; [reflexivity|]. simpl. repeat split; auto;
          try discriminate. intros [_ H]. discriminate.
    + eexists. eexists. split; [reflexivity|]. simpl. repeat split; auto;
        try discriminate. intros [H _]. discriminate.
  - destruct w as [d cs p ck tr]. simpl in Hrows.
    unfold get_token_volume, bind, connect, execute, view, conn_at. simpl.
    rewrite nth_middle. simpl. rewrite Hrows.
    eexists. eexists. split; [reflexivity|]. simpl. repeat split; auto;
      try discriminate. intros [_ H]. congruence.
Qed.

(** X16. Without the table [delete_old_data] raises the
    [OperationalError] of its [DELETE]: nothing is committed, nothing is
    printed, the database is as it was. *)
Theorem delete_old_data_needs_the_table w :
  token_volumes (db w) = None ->
  exists w',
    delete_old_data sys w = Some (Raise OperationalError, w') /\
    db w' = db w /\ pending w' = pending w /\
    trace w' = (trace w ++ [EvExecute DeleteOld])%list.
Proof.
  intros Hnone. destruct w as [d cs p ck tr]. simpl in Hnone.
  unfold delete_old_data, bind, connect, execute, view, conn_at. simpl.
  rewrite nth_middle. simpl. rewrite Hnone.
  eexists. split; [reflexivity|]. simpl. auto.
Qed.

Lemma filter_fixed {A} (f : A -> bool) l : filter f (filter f l) = filter f l.
Proof.
  induction l as [|x l IH]; simpl; [reflexivity|].
  destruct (f x) eqn:E; simpl; [rewrite E|]; now rewrite IH.
Qed.

Lemma database_same (d1 d2 : database) :
  tokens d1 = tokens d2 -> token_volumes d1 = token_volumes d2 -> d1 = d2.
Proof. destruct d1, d2. simpl. now intros -> ->. Qed.

(** X17. A purge right after a purge removes nothing, and no purge ever
    removes a row whose date is NULL: [date < ...] is not true of it. *)
Theorem delete_old_data_again w rows :
  token_volumes (db w) = Some rows ->
  exists w1 w2 kept,
    delete_old_data sys w = Some (Ret VNone, w1) /\
    delete_old_data sys w1 = Some (Ret VNone, w2) /\
    token_volumes (db w1) = Some kept /\
    db w2 = db w1 /\
    (forall row, In row rows -> date row = SNull -> In row kept).
Proof.
  intros Hrows.
  destruct (delete_old_data_runs sys w rows Hrows) as (w1 & Hrun1 & Htok1 & Hvol1 & _ & Hk1).
  destruct (delete_old_data_runs sys w1 _ Hvol1) as (w2 & Hrun2 & Htok2 & Hvol2 & _).
  exists w1, w2. eexists. split; [exact Hrun1|]. split; [exact Hrun2|].
  split; [exact Hvol1|]. split.
  - apply database_same; [exact Htok2|].
    rewrite Hvol2, Hvol1, Hk1. now rewrite filter_fixed.
  - intros row Hin Hd. apply filter_In. split; [exact Hin|]. now rewrite Hd.
Qed.

(** X18. What a snapshot has just filed, a purge that follows it keeps,
    as long as the snapshot did not sleep on rate limits for more than
    21 days: the rows behind the old ones are all still there.  The
    fetches settle: their 429 answers advertise delays that
    [time.sleep] takes, are no more than the recursion limit leaves room
    for, and are followed by an answer from which a value that SQLite
    can bind is read. *)
Theorem snapshot_survives_purge w rows segs vols rest vrows :
  tokens (db w) = Some rows ->
  rows <> [] ->
  token_volumes (db w) = Some vrows ->
  map (settled sys) segs = map Some vols ->
  List.length vols = List.length rows ->
  forallb bindable vols = true ->
  in_room sys segs = true ->
  slept sys (clock w) (flat_map (waits sys) segs) = true ->
  pending w = (List.concat segs ++ rest)%list ->
  (forall d r v a b, In r rows -> filed sys (r, v) = (Ret a, Ret b) ->
                     volumes_accepts sys d a b = true) ->
  21 <= clock w / 86400 ->
  total (flat_map (waits sys) segs) <= 21 * 86400 ->
  year (civil_of_day ((clock w + total (flat_map (waits sys) segs)) / 86400)) <= 9999 ->
  exists w1 w2 extra kept,
    save_token_volumes sys w = Some (Ret (VStr "Token volume data saved."), w1) /\
    delete_old_data sys w1 = Some (Ret VNone, w2) /\
    token_volumes (db w1) = Some (vrows ++ extra)%list /\
    List.length extra = List.length rows /\
    token_volumes (db w2) = Some (kept ++ extra)%list /\
    (forall row, In row kept -> In row vrows).
Proof.
  intros Hrows Hne Hvol Hset Hlen Hbind Hroom Hsl Hp Hacc Hck Hwait Hyear.
  pose proof (waits_total_nonneg sys segs) as Hn.
  assert (Hacc1 : forall d rv a b, In rv (combine (by_id rows) vols) ->
            filed sys rv = (Ret a, Ret b) -> volumes_accepts sys d a b = true).
  { intros d [r v] a b Hin. apply Hacc. apply In_by_id. eapply in_combine_l; exact Hin. }
  destruct (save_token_volumes_whole sys w rows segs vols rest
              Hrows Hne Hset Hlen Hbind Hroom Hsl Hp)
    as (w1 & Hrun1 & _ & _ & Hk & _ & _ & Hfiled).
  destruct (Hfiled vrows Hvol Hacc1) as (extra & Hex & Hmap & Hdates).
  destruct (delete_old_data_runs sys w1 _ Hex) as (w2 & Hrun2 & _ & Hvol2 & _).
  exists w1, w2, extra.
  exists (filter (fun r => negb (holds (sql_lt (date r) (sql_date (clock w1) (-21))))) vrows).
  split; [exact Hrun1|]. split; [exact Hrun2|]. split; [exact Hex|].
  split.
  { apply (f_equal (@List.length _)) in Hmap.
    rewrite !length_map, length_combine, length_by_id in Hmap. lia. }
  split.
  - rewrite Hvol2, filter_app. f_equal. f_equal.
    apply forallb_filter_id. apply forallb_forall. intros row Hin.
    rewrite Forall_forall in Hdates. destruct (Hdates row Hin) as (c & Hc & ->).
    unfold sql_date.
    assert (Hq : 0 <= clock w) by (destruct (Z_lt_le_dec (clock w) 0) as [Hl|]; [|lia];
      pose proof (Z.div_lt_upper_bound (clock w) 86400 0 ltac:(lia) ltac:(lia)); lia).
    assert (Hc1 : clock w / 86400 <= c / 86400) by (apply Z.div_le_mono; lia).
    assert (Hc2 : c / 86400 <= clock w1 / 86400) by (apply Z.div_le_mono; lia).
    assert (Hc3 : clock w1 / 86400 <= clock w / 86400 + 21).
    { rewrite Hk.
      replace (clock w / 86400 + 21) with ((clock w + 21 * 86400) / 86400)
        by (rewrite Z.div_add by lia; reflexivity).
      apply Z.div_le_mono; lia. }
    rewrite <- Hk in Hyear.
    rewrite !Z.add_0_r.
    assert (Hy : year (civil_of_day (c / 86400)) <= 9999).
    { destruct (Z.eq_dec (c / 86400) (clock w1 / 86400)) as [->|Hd]; [exact Hyear|].
      pose proof (civil_of_day_year_mono (c / 86400) (clock w1 / 86400)). lia. }
    assert (Hy' : year (civil_of_day (clock w1 / 86400 + -21)) <= 9999).
    { pose proof (civil_of_day_year_mono (clock w1 / 86400 + -21) (clock w1 / 86400)). lia. }
    rewrite date_text_order; try lia.
    simpl.
    replace (c / 86400 <? clock w1 / 86400 + -21) with false
      by (symmetry; apply Z.ltb_ge; lia).
    reflexivity.
  - intros row Hin. apply filter_In in Hin. tauto.
Qed.

(** X19. [check_and_update_token_list] does not create the table it
    reads: on a file without [tokens] it fetches the listing and then
    raises the [OperationalError] of its [SELECT], where
    [save_token_list] creates the table and goes on. *)
Theorem check_and_update_needs_the_table w r rest :
  pending w = Responds r :: rest ->
  status_code r = 200 ->
  tokens (db w) = None ->
  exists w',
    check_and_update_token_list sys w = Some (Raise OperationalError, w') /\
    db w' = db w /\ pending w' = rest /\
    requests_of (trace w') = (requests_of (trace w) ++ [((base_url ++ "coins/list")%string, [])])%list.
Proof.
  intros Hp Hs Hnone. unfold check_and_update_token_list.
  erewrite bind_step by (apply requests_get_responds; exact Hp).
  rewrite Hs. cbn [Z.eqb Pos.eqb].
  erewrite bind_step by reflexivity.
  eexists. split.
  { apply bind_raise_step. rewrite get_token_list_runs.
    cbn [db set_conns requested set_pending add_event]. rewrite Hnone. reflexivity. }
  cbn [db pending trace set_conns requested set_pending add_event].
  rewrite !requests_of_app. simpl. rewrite !app_nil_r. auto.
Qed.

(** X20. A 429 answer whose [Retry-After] is not a delay that
    [time.sleep] takes ends either fetch in an exception that its
    [except] clause does not catch, after one request and without
    sleeping or retrying: a [ValueError] when the header is not a whole
    number or is negative, an [OverflowError] when it is beyond
    9223372036 seconds either way, an [OSError] when the platform cannot
    schedule the sleep. *)
Theorem fetch_stops_on_bad_retry_after a b c coin w r rest :
  pending w = Responds r :: rest ->
  status_code r = 429 ->
  backoff sys (Responds r) = None \/
  (exists d, backoff sys (Responds r) = Some d /\ sleep_fits sys (clock w) d = false) ->
  exists e,
    match retry_after_of sys r with
    | Raise _ => e = ValueError
    | Ret d =>
        if (d <? - longest_sleep) || (longest_sleep <? d) then e = OverflowError
        else if d <? 0 then e = ValueError
        else e = OSError
    end /\
    (exists w',
       fetch_token_data sys a b c w = Some (Raise e, w') /\
       pending w' = rest /\ clock w' = clock w /\ db w' = db w /\
       sleeps_of (trace w') = sleeps_of (trace w) /\
       requests_of (trace w') =
         (requests_of (trace w) ++ [(markets_url, markets_params a b c)])%list) /\
    (exists w',
       fetch_token_volume sys coin w = Some (Raise e, w') /\
       pending w' = rest /\ clock w' = clock w /\ db w' = db w /\
       sleeps_of (trace w') = sleeps_of (trace w) /\
       requests_of (trace w') = (requests_of (trace w) ++ [(coin_url sys coin, [])])%list).
Proof.
  intros Hp Hs Hbad.
  destruct (fetch_token_data_rec_429_stops sys (retry_room sys) a b c w r _ Hp Hs Hbad)
    as (e & w1 & Hrun1 & Hq1 & Hc1 & Hd1 & _ & _ & Ht1 & He1).
  destruct (fetch_token_volume_rec_429_stops sys (retry_room sys) coin w r _ Hp Hs Hbad)
    as (e' & w2 & Hrun2 & Hq2 & Hc2 & Hd2 & _ & _ & Ht2 & He2).
  assert (e' = e) as ->.
  { destruct (retry_after_of sys r) as [d|x]; [|congruence].
    destruct ((d <? - longest_sleep) || (longest_sleep <? d)); [congruence|].
    destruct (d <? 0); congruence. }
  exists e. split; [exact He1|].
  split; [exists w1|exists w2]; (split; [assumption|]);
    (split; [assumption|]); (split; [assumption|]); (split; [assumption|]);
    rewrite ?Ht1, ?Ht2, requests_of_app, sleeps_of_app;
    destruct (retry_after_of sys r); simpl; rewrite ?app_nil_r; auto.
Qed.
End RunExtras.

(** ** The statements on sample worlds *)


Lemma fetch_retries_after_rate_limit_witness :
  retry_after_of sample
    {| status_code := 429; retry_after_header := Some " 7 "; json := VDict [] |} = Ret 7 /\
  exists w',
    fetch_token_data sample (VStr "usd") (num 250) (num 1)
      (world_of blank [rate_limited (Some " 7 "); ok listing] day40)
      = Some (Ret listing, w') /\
    sleeps_of (trace w') = [7] /\
    clock w' = day40 + 7.
Proof.
  split; [reflexivity|].
  destruct (fetch_retries_after_rate_limit sample (VStr "usd") (num 250) (num 1)
              (VStr "bitcoin")
              (world_of blank [rate_limited (Some " 7 "); ok listing] day40)
              {| status_code := 429; retry_after_header := Some " 7 "; json := VDict [] |}
              {| status_code := 200; retry_after_header := None; json := listing |}
              [] eq_refl eq_refl eq_refl ltac:(apply Nat.leb_le; reflexivity))
    as (_ & Hgood & _).
  destruct (Hgood 7 eq_refl ltac:(unfold longest_sleep; lia) eq_refl)
    as ((w' & Hrun & Htr & Hclock & _) & _).
  exists w'. split; [exact Hrun|]. split; [|exact Hclock].
  rewrite Htr. reflexivity.
Defined.

Lemma fetch_token_volume_outcomes_witness :
  exists w',
    fetch_token_volume sample (VStr "bitcoin")
      (world_of blank [ok (detail (usd (num 0)))] day40) = Some (Ret (num 0), w').
Proof.
  destruct (fetch_token_volume_outcomes sample (VStr "bitcoin")
              (world_of blank [ok (detail (usd (num 0)))] day40)
              (ok (detail (usd (num 0)))) [] eq_refl) as [H200 _].
  destruct (H200 {| status_code := 200; retry_after_header := None;
                    json := detail (usd (num 0)) |}
                 (VDict [("total_volume", usd (num 0))])
                 [("usd", num 0); ("eur", num 0)]
                 eq_refl eq_refl eq_refl eq_refl)
    as (w' & res & Hrun & _ & _ & Hv & _).
  exists w'. rewrite Hrun. rewrite (Hv (num 0)); [reflexivity|discriminate|reflexivity].
Defined.

(** C3, as stated, fails: a 200 answer whose [usd] entry is null makes
    [fetch_token_volume] return [None], the value it returns for a
    failed fetch. *)
Lemma fetch_token_volume_none_on_200 :
  pending (world_of blank [ok (detail (usd VNone))] day40)
    = [Responds {| status_code := 200; retry_after_header := None;
                   json := detail (usd VNone) |}] /\
  option_map fst (fetch_token_volume sample (VStr "bitcoin")
                    (world_of blank [ok (detail (usd VNone))] day40))
    = Some (Ret VNone).
Proof. split; reflexivity. Qed.

(** C4: the code at an input where the claim asks for an update.
    Today's row of bitcoin holds 5 and the API reports 7: the call
    raises [TypeError] after its first [SELECT], asks the API nothing
    and leaves every row as it was. *)
Theorem update_token_volumes_updates_nothing :
  option_map (fun p => (fst p, db (snd p), pending (snd p), statements (trace (snd p))))
             (update_token_volumes sample
                (world_of stocked [ok (detail (usd (num 7)))] day40))
  = Some (Raise TypeError, stocked, [ok (detail (usd (num 7)))], [SelectVolumeIds]).
Proof. reflexivity. Qed.

(** Past the [TypeError], the statements of the loop would not do it
    either.  On a row given as a mapping the [UPDATE] gets the stored
    volume for [SET total_volume] and the fetched one for [token_id],
    matches nothing, and a second row for today is inserted. *)
Example update_loop_binds_swapped :
  option_map (fun p => statements (trace (snd p)))
             (update_token_volumes_loop sample 0
                [VDict [("id", VStr "bitcoin"); ("total_volume", num 5)]]
                {| db := stocked; conns := [no_connection];
                   pending := [ok (detail (usd (num 7)))]; clock := day40; trace := [] |})
  = Some [UpdateVolume (num 5) (num 7); InsertVolume (VStr "bitcoin") (num 7);
          SelectYesterday (VStr "bitcoin")].
Proof. reflexivity. Qed.

Lemma delete_old_data_keeps_window_witness :
  exists w' kept,
    delete_old_data sample (world_of stocked [] day40) = Some (Ret VNone, w') /\
    token_volumes (db w') = Some kept /\
    In (volume_on 2 "bitcoin" 19 0) kept /\
    ~ In (volume_on 1 "bitcoin" 18 4) kept.
Proof.
  destruct (delete_old_data_keeps_window sample (world_of stocked [] day40)
              [volume_on 1 "bitcoin" 18 4; volume_on 2 "bitcoin" 19 0;
               volume_on 3 "bitcoin" 39 0; volume_on 4 "bitcoin" 40 5]
              eq_refl)
    as (w' & kept & Hrun & _ & Hvol & _ & Hwin).
  { apply Z.leb_le. reflexivity. }
  { apply Z.leb_le. vm_compute. reflexivity. }
  exists w', kept. split; [exact Hrun|]. split; [exact Hvol|]. split.
  - apply (Hwin (volume_on 2 "bitcoin" 19 0) 19).
    + simpl. auto.
    + lia.
    + apply Z.leb_le. vm_compute. reflexivity.
    + reflexivity.
    + apply Z.leb_le. reflexivity.
  - intros Hin. apply (Hwin (volume_on 1 "bitcoin" 18 4) 18) in Hin.
    + apply Z.leb_le in Hin. discriminate Hin.
    + simpl. auto.
    + lia.
    + apply Z.leb_le. vm_compute. reflexivity.
    + reflexivity.
Defined.

(** C6: the code at an input where the claim asks for the flag.
    Yesterday's volume of bitcoin is 0 and the API reports 5: the call
    raises [TypeError] before it fetches or compares anything, and no
    spike line is printed. *)
Theorem update_token_volumes_flags_nothing :
  option_map (fun p => (fst p, existsb is_spike_line (trace (snd p)), pending (snd p)))
             (update_token_volumes sample
                (world_of stocked [ok (detail (usd (num 5)))] day40))
  = Some (Raise TypeError, false, [ok (detail (usd (num 5)))]).
Proof. reflexivity. Qed.

Lemma save_token_volumes_one_insert_each_witness :
  exists w',
    save_token_volumes strict
      (world_of unsorted [rate_limited (Some "3"); Fails; ok (detail (VDict []))] day40)
      = Some (Ret (VStr "Token volume data saved."), w') /\
    statements (trace w') =
      [SelectTokenIds; InsertVolume (VStr "bitcoin") VNone;
       InsertVolume (VStr "zeta") (VStr "null")] /\
    db w' = unsorted.
Proof.
  destruct (save_token_volumes_one_insert_each strict
              (world_of unsorted [rate_limited (Some "3"); Fails; ok (detail (VDict []))] day40)
              [zeta_row; bitcoin_row]
              [[rate_limited (Some "3"); Fails]; [ok (detail (VDict []))]]
              [VNone; VStr "null"] []
              eq_refl eq_refl eq_refl eq_refl eq_refl eq_refl eq_refl)
    as (w' & Hrun & Hs & _).
  exists w'. split; [exact Hrun|]. split; [exact Hs|].
  vm_compute in Hrun. injection Hrun as <-. reflexivity.
Defined.

(** C7, as stated, fails on an empty stored token list: the call
    returns [None], not the completion string. *)
Lemma save_token_volumes_empty_returns_none :
  tokens (db (world_of no_tokens [] day40)) = Some [] /\
  option_map fst (save_token_volumes sample (world_of no_tokens [] day40))
    = Some (Ret VNone) /\
  VNone <> VStr "Token volume data saved.".
Proof. repeat split; try reflexivity. discriminate. Qed.

Lemma fetch_failure_returns_none_witness :
  (exists w', fetch_token_data sample (VStr "usd") (num 250) (num 1)
                (world_of blank [server_error] day40) = Some (Ret VNone, w')) /\
  (exists w', fetch_token_volume sample (VStr "bitcoin")
                (world_of blank [server_error] day40) = Some (Ret VNone, w')).
Proof.
  destruct (fetch_failure_returns_none sample (VStr "usd") (num 250) (num 1) (VStr "bitcoin")
              (world_of blank [server_error] day40) server_error [] eq_refl)
    as ((w1 & H1 & _) & (w2 & H2 & _)).
  { right. eexists. split; [reflexivity|]. split; discriminate. }
  split; [exists w1; exact H1|exists w2; exact H2].
Defined.

Lemma update_token_volumes_raises_witness :
  exists w',
    update_token_volumes sample (world_of stocked [ok (detail (usd (num 7)))] day40)
      = Some (Raise TypeError, w') /\
    db w' = stocked.
Proof.
  destruct (update_token_volumes_raises sample
              (world_of stocked [ok (detail (usd (num 7)))] day40)
              [volume_on 1 "bitcoin" 18 4; volume_on 2 "bitcoin" 19 0;
               volume_on 3 "bitcoin" 39 0; volume_on 4 "bitcoin" 40 5]
              eq_refl ltac:(discriminate))
    as (_ & _ & w' & Hrun & Hdb & _).
  exists w'. split; [exact Hrun|exact Hdb].
Defined.

Lemma save_token_volumes_files_failures_witness :
  exists w',
    save_token_volumes sample
      (world_of unsorted [Fails; ok (detail (VDict []))] day40)
      = Some (Ret (VStr "Token volume data saved."), w') /\
    token_volumes (db w') =
      Some [{| rowid := 1; token_id := SText "bitcoin"; total_volume := SNull;
               date := SText "1970-02-10" |};
            {| rowid := 2; token_id := SText "zeta"; total_volume := SText "null";
               date := SText "1970-02-10" |}].
Proof.
  destruct (save_token_volumes_files_failures sample
              (world_of unsorted [Fails; ok (detail (VDict []))] day40)
              [zeta_row; bitcoin_row]
              [[Fails]; [ok (detail (VDict []))]]
              [VNone; VStr "null"] [] []
              eq_refl ltac:(discriminate) eq_refl eq_refl eq_refl eq_refl eq_refl eq_refl
              eq_refl)
    as (w' & extra & Hrun & _).
  exists w'. split; [exact Hrun|].
  vm_compute in Hrun. injection Hrun as <-. reflexivity.
Defined.

(** ** The further statements on sample worlds *)

Lemma fetches_retry_while_there_is_room_witness :
  exists w',
    fetch_token_data sample (VStr "usd") (num 250) (num 1)
      (world_of blank [rate_limited (Some "7"); rate_limited None; ok listing] day40)
      = Some (Ret listing, w') /\
    sleeps_of (trace w') = [7; 30] /\
    List.length (requests_of (trace w')) = 3%nat /\
    clock w' = day40 + 37.
Proof.
  destruct (fetches_retry_while_there_is_room sample (VStr "usd") (num 250) (num 1)
              (VStr "bitcoin")
              (world_of blank [rate_limited (Some "7"); rate_limited None; ok listing] day40)
              [rate_limited (Some "7"); rate_limited None] [7; 30] (ok listing) []
              eq_refl eq_refl eq_refl eq_refl ltac:(apply Nat.leb_le; reflexivity))
    as [(w' & Hrun & Hr & Hs & Hk & _) _].
  exists w'. split; [exact Hrun|]. split; [exact Hs|]. split; [|exact Hk].
  rewrite Hr. reflexivity.
Defined.

Lemma fetch_token_volume_malformed_body_witness :
  exists w',
    fetch_token_volume sample (VStr "bitcoin")
      (world_of blank [ok (VDict [("id", VStr "bitcoin")])] day40)
      = Some (Raise KeyError, w') /\
    pending w' = [].
Proof.
  destruct (fetch_token_volume_malformed_body sample (VStr "bitcoin")
              (world_of blank [ok (VDict [("id", VStr "bitcoin")])] day40)
              {| status_code := 200; retry_after_header := None;
                 json := VDict [("id", VStr "bitcoin")] |} []
              eq_refl eq_refl) as [Hbad _].
  destruct (Hbad KeyError (or_introl eq_refl)) as (_ & w' & Hrun & Hp & _).
  exists w'. split; [exact Hrun|exact Hp].
Defined.

Lemma sync_gives_up_on_status_witness :
  exists w',
    check_and_update_token_list sample
      (world_of no_tokens [rate_limited (Some "7"); ok listing] day40) = Some (Ret VNone, w') /\
    db w' = no_tokens /\ clock w' = day40 /\ pending w' = [ok listing].
Proof.
  destruct (sync_gives_up_on_status sample
              (world_of no_tokens [rate_limited (Some "7"); ok listing] day40)
              {| status_code := 429; retry_after_header := Some "7"; json := VDict [] |}
              [ok listing] eq_refl ltac:(simpl; lia))
    as (w' & _ & Hrun & _ & Hd & _ & Hk & Hp).
  exists w'. split; [exact Hrun|]. split; [exact Hd|]. split; [exact Hk|exact Hp].
Defined.

Lemma sync_lets_transport_failure_out_witness :
  exists w',
    save_token_list sample (world_of blank [Fails] day40)
      = Some (Raise RequestException, w') /\
    db w' = blank.
Proof.
  destruct (sync_lets_transport_failure_out sample (world_of blank [Fails] day40) [] eq_refl)
    as (w' & Hrun & _ & Hd & _).
  exists w'. split; [exact Hrun|exact Hd].
Defined.

Lemma sync_functions_agree_witness :
  exists w1 w2,
    save_token_list sample (world_of unsorted [ok listing] day40) = Some (Ret VNone, w1) /\
    check_and_update_token_list sample (world_of unsorted [ok listing] day40)
      = Some (Ret VNone, w2) /\
    db w1 = db w2 /\
    tokens (db w1) = Some [zeta_row; bitcoin_row; ethereum_row].
Proof.
  destruct (sync_functions_agree sample (world_of unsorted [ok listing] day40)
              {| status_code := 200; retry_after_header := None; json := listing |} []
              [VDict [("id", VStr "bitcoin"); ("symbol", VStr "btc"); ("name", VStr "Bitcoin")];
               VDict [("id", VStr "ethereum"); ("symbol", VStr "eth"); ("name", VStr "Ethereum")];
               VDict [("id", VStr "bitcoin"); ("symbol", VStr "btc"); ("name", VStr "Bitcoin Again")]]
              [("bitcoin", SText "Bitcoin"); ("ethereum", SText "Ethereum");
               ("bitcoin", SText "Bitcoin Again")]
              [zeta_row; bitcoin_row] eq_refl eq_refl eq_refl eq_refl eq_refl)
    as (w1 & w2 & H1 & H2 & Hd & _).
  exists w1, w2. split; [exact H1|]. split; [exact H2|]. split; [exact Hd|].
  vm_compute in H1. injection H1 as <-. reflexivity.
Defined.

Lemma sync_twice_is_sync_once_witness :
  exists w1 w2,
    save_token_list sample (world_of blank [ok listing_zeta_first; ok listing_zeta_first] day40)
      = Some (Ret VNone, w1) /\
    save_token_list sample w1 = Some (Ret VNone, w2) /\
    db w2 = db w1 /\
    tokens (db w1) =
      Some [zeta_row; {| tokens_id := SText "alpha"; tokens_name := SText "7" |}].
Proof.
  destruct (sync_twice_is_sync_once sample
              (world_of blank [ok listing_zeta_first; ok listing_zeta_first] day40)
              {| status_code := 200; retry_after_header := None; json := listing_zeta_first |}
              []
              [VDict [("id", VStr "zeta"); ("name", VStr "Zeta")];
               VDict [("id", VStr "alpha"); ("name", VNum (Int 7))]]
              [("zeta", SText "Zeta"); ("alpha", SNum (Int 7))]
              [] eq_refl eq_refl eq_refl eq_refl (NoDup_nil _)
              (or_intror (conj eq_refl eq_refl)))
    as (w1 & w2 & _ & H1 & H2 & _ & Hd & _).
  exists w1, w2. split; [exact H1|]. split; [exact H2|]. split; [exact Hd|].
  vm_compute in H1. injection H1 as <-. reflexivity.
Defined.

Lemma sync_then_list_round_trip_witness :
  exists w1 w2,
    save_token_list sample (world_of blank [ok listing_zeta_first] day40)
      = Some (Ret VNone, w1) /\
    get_token_list sample w1
      = Some (Ret [VTuple [VStr "alpha"]; VTuple [VStr "zeta"]], w2) /\
    db w2 = db w1.
Proof.
  destruct (sync_then_list_round_trip sample (world_of blank [ok listing_zeta_first] day40)
              {| status_code := 200; retry_after_header := None; json := listing_zeta_first |}
              []
              [VDict [("id", VStr "zeta"); ("name", VStr "Zeta")];
               VDict [("id", VStr "alpha"); ("name", VNum (Int 7))]]
              [("zeta", SText "Zeta"); ("alpha", SNum (Int 7))]
              [] eq_refl eq_refl eq_refl eq_refl (NoDup_nil _)
              (or_intror (conj eq_refl eq_refl)))
    as (w1 & w2 & added & H1 & Ht & H2 & _ & Hd).
  exists w1, w2. split; [exact H1|]. split; [|exact Hd].
  rewrite H2. vm_compute in H1. injection H1 as <-.
  vm_compute in Ht. injection Ht as <-. reflexivity.
Defined.

Lemma sync_commits_nothing_on_bad_entry_witness :
  exists w',
    save_token_list sample
      (world_of blank
         [ok (VList [VDict [("id", VStr "bitcoin"); ("name", VStr "Bitcoin")];
                     VDict [("name", VStr "Nameless")]])] day40)
      = Some (Raise KeyError, w') /\
    tokens (db w') = Some [].
Proof.
  destruct (sync_commits_nothing_on_bad_entry sample
              (world_of blank
                 [ok (VList [VDict [("id", VStr "bitcoin"); ("name", VStr "Bitcoin")];
                             VDict [("name", VStr "Nameless")]])] day40)
              {| status_code := 200; retry_after_header := None;
                 json := VList [VDict [("id", VStr "bitcoin"); ("name", VStr "Bitcoin")];
                                VDict [("name", VStr "Nameless")]] |} []
              [VDict [("id", VStr "bitcoin"); ("name", VStr "Bitcoin")]]
              [("bitcoin", SText "Bitcoin")]
              (VDict [("name", VStr "Nameless")]) [] KeyError []
              eq_refl eq_refl eq_refl eq_refl eq_refl) as [Hsave _].
  destruct (Hsave (or_intror (conj eq_refl eq_refl))) as (w' & Hrun & Ht & _).
  exists w'. split; [exact Hrun|exact Ht].
Defined.

Lemma sync_keeps_first_of_duplicates_witness :
  exists w',
    save_token_list sample (world_of blank [ok listing] day40) = Some (Ret VNone, w') /\
    tokens (db w') =
      Some [{| tokens_id := SText "bitcoin"; tokens_name := SText "Bitcoin" |}; ethereum_row].
Proof.
  destruct (sync_keeps_first_of_duplicates sample (world_of blank [ok listing] day40)
              {| status_code := 200; retry_after_header := None; json := listing |} []
              [VDict [("id", VStr "bitcoin"); ("symbol", VStr "btc"); ("name", VStr "Bitcoin")];
               VDict [("id", VStr "ethereum"); ("symbol", VStr "eth"); ("name", VStr "Ethereum")];
               VDict [("id", VStr "bitcoin"); ("symbol", VStr "btc"); ("name", VStr "Bitcoin Again")]]
              [] "bitcoin" (SText "Bitcoin")
              [("ethereum", SText "Ethereum"); ("bitcoin", SText "Bitcoin Again")]
              [] eq_refl eq_refl eq_refl eq_refl (NoDup_nil _)
              (fun H => H) (fun H => H) (or_intror (conj eq_refl eq_refl)))
    as (w' & table & Hrun & _).
  exists w'. split; [exact Hrun|].
  vm_compute in Hrun. injection Hrun as <-. reflexivity.
Defined.

Lemma save_token_volumes_pace_witness :
  exists w',
    save_token_volumes sample
      (world_of unsorted [rate_limited (Some "3"); Fails; ok (detail (VDict []))] day40)
      = Some (Ret (VStr "Token volume data saved."), w') /\
    requests_of (trace w') =
      [("https://api.coingecko.com/api/v3/coins/bitcoin", []);
       ("https://api.coingecko.com/api/v3/coins/bitcoin", []);
       ("https://api.coingecko.com/api/v3/coins/zeta", [])] /\
    sleeps_of (trace w') = [3] /\
    clock w' = day40 + 3.
Proof.
  destruct (save_token_volumes_pace sample
              (world_of unsorted [rate_limited (Some "3"); Fails; ok (detail (VDict []))] day40)
              [zeta_row; bitcoin_row]
              [[rate_limited (Some "3"); Fails]; [ok (detail (VDict []))]]
              [VNone; VStr "null"] []
              eq_refl ltac:(discriminate) eq_refl eq_refl eq_refl eq_refl eq_refl eq_refl)
    as (w' & Hrun & Hr & Hs & Hk).
  exists w'. split; [exact Hrun|]. split; [exact Hr|]. split; [exact Hs|exact Hk].
Defined.

Lemma save_token_volumes_files_one_row_each_witness :
  exists w',
    save_token_volumes sample
      (world_of unsorted [ok (detail (usd (num 7))); ok (detail (usd (num 9)))] day40)
      = Some (Ret (VStr "Token volume data saved."), w') /\
    token_volumes (db w') =
      Some [{| rowid := 1; token_id := SText "bitcoin"; total_volume := SNum (Int 7);
               date := SText "1970-02-10" |};
            {| rowid := 2; token_id := SText "zeta"; total_volume := SNum (Int 9);
               date := SText "1970-02-10" |}].
Proof.
  destruct (save_token_volumes_files_one_row_each sample
              (world_of unsorted [ok (detail (usd (num 7))); ok (detail (usd (num 9)))] day40)
              [zeta_row; bitcoin_row]
              [[ok (detail (usd (num 7)))]; [ok (detail (usd (num 9)))]]
              [num 7; num 9] [] []
              eq_refl ltac:(discriminate) eq_refl eq_refl eq_refl eq_refl eq_refl eq_refl
              eq_refl (fun _ _ _ _ _ _ => eq_refl))
    as (w' & extra & Hrun & _).
  exists w'. split; [exact Hrun|].
  vm_compute in Hrun. injection Hrun as <-. reflexivity.
Defined.

Lemma save_token_volumes_twice_doubles_the_day_witness :
  exists w1 w2,
    save_token_volumes sample
      (world_of unsorted
         [ok (detail (usd (num 7))); ok (detail (usd (num 9)));
          ok (detail (usd (num 8))); ok (detail (usd (num 9)))] day40)
      = Some (Ret (VStr "Token volume data saved."), w1) /\
    save_token_volumes sample w1 = Some (Ret (VStr "Token volume data saved."), w2) /\
    option_map (map (fun row => (token_id row, total_volume row, date row)))
               (token_volumes (db w2)) =
      Some [(SText "bitcoin", SNum (Int 7), SText "1970-02-10");
            (SText "zeta", SNum (Int 9), SText "1970-02-10");
            (SText "bitcoin", SNum (Int 8), SText "1970-02-10");
            (SText "zeta", SNum (Int 9), SText "1970-02-10")].
Proof.
  destruct (save_token_volumes_twice_doubles_the_day sample
              (world_of unsorted
                 [ok (detail (usd (num 7))); ok (detail (usd (num 9)));
                  ok (detail (usd (num 8))); ok (detail (usd (num 9)))] day40)
              [zeta_row; bitcoin_row]
              [[ok (detail (usd (num 7)))]; [ok (detail (usd (num 9)))]] [num 7; num 9]
              [[ok (detail (usd (num 8)))]; [ok (detail (usd (num 9)))]] [num 8; num 9]
              [] []
              eq_refl ltac:(discriminate) eq_refl eq_refl eq_refl eq_refl eq_refl
              eq_refl eq_refl eq_refl eq_refl eq_refl eq_refl
              (fun _ _ _ _ _ _ _ => eq_refl) eq_refl)
    as (w1 & w2 & first & second & H1 & H2 & _).
  exists w1, w2. split; [exact H1|]. split; [exact H2|].
  vm_compute in H1. injection H1 as <-.
  vm_compute in H2. injection H2 as <-. reflexivity.
Defined.

Lemma save_token_volumes_commits_nothing_on_bad_body_witness :
  exists w',
    save_token_volumes sample
      (world_of unsorted [ok (detail (usd (num 7))); ok (VDict [])] day40)
      = Some (Raise KeyError, w') /\
    db w' = unsorted /\
    requests_of (trace w') =
      [("https://api.coingecko.com/api/v3/coins/bitcoin", []);
       ("https://api.coingecko.com/api/v3/coins/zeta", [])].
Proof.
  destruct (save_token_volumes_commits_nothing_on_bad_body sample
              (world_of unsorted [ok (detail (usd (num 7))); ok (VDict [])] day40)
              [zeta_row; bitcoin_row]
              [bitcoin_row] zeta_row [] [[ok (detail (usd (num 7)))]] [num 7]
              [] [] (ok (VDict [])) KeyError []
              eq_refl eq_refl eq_refl eq_refl eq_refl eq_refl eq_refl
              ltac:(apply Nat.leb_le; reflexivity) eq_refl eq_refl eq_refl eq_refl)
    as (w' & Hrun & Hd & _).
  exists w'. split; [exact Hrun|]. split; [exact Hd|].
  vm_compute in Hrun. injection Hrun as <-. reflexivity.
Defined.

Lemma main_without_volume_table_witness :
  exists w',
    main sample (world_of blank [ok listing_zeta_first; ok (detail (usd (num 7))); Fails] day40)
      = Some (Ret (VStr "Token volume data saved."), w') /\
    db w' =
      {| tokens := Some [zeta_row; {| tokens_id := SText "alpha"; tokens_name := SText "7" |}];
         token_volumes := None |} /\
    requests_of (trace w') =
      [("https://api.coingecko.com/api/v3/coins/list", []);
       ("https://api.coingecko.com/api/v3/coins/alpha", []);
       ("https://api.coingecko.com/api/v3/coins/zeta", [])].
Proof.
  destruct (main_without_volume_table sample
              (world_of blank
                 [ok listing_zeta_first; ok (detail (usd (num 7))); Fails] day40)
              {| status_code := 200; retry_after_header := None; json := listing_zeta_first |}
              [[ok (detail (usd (num 7)))]; [Fails]] [num 7; VNone] []
              [VDict [("id", VStr "zeta"); ("name", VStr "Zeta")];
               VDict [("id", VStr "alpha"); ("name", VNum (Int 7))]]
              [("zeta", SText "Zeta"); ("alpha", SNum (Int 7))]
              [] eq_refl (or_intror (conj eq_refl eq_refl)) eq_refl eq_refl eq_refl eq_refl
              ltac:(simpl; discriminate) eq_refl eq_refl eq_refl eq_refl eq_refl)
    as (w' & Hrun & _).
  exists w'. split; [exact Hrun|].
  vm_compute in Hrun. injection Hrun as <-. split; reflexivity.
Defined.

Lemma delete_old_data_needs_the_table_witness :
  exists w',
    delete_old_data sample (world_of blank [] day40) = Some (Raise OperationalError, w') /\
    db w' = blank.
Proof.
  destruct (delete_old_data_needs_the_table sample (world_of blank [] day40) eq_refl)
    as (w' & Hrun & Hd & _).
  exists w'. split; [exact Hrun|exact Hd].
Defined.

Lemma delete_old_data_again_witness :
  exists w1 w2,
    delete_old_data sample (world_of stocked [] day40) = Some (Ret VNone, w1) /\
    delete_old_data sample w1 = Some (Ret VNone, w2) /\
    db w2 = db w1.
Proof.
  destruct (delete_old_data_again sample (world_of stocked [] day40) _ eq_refl)
    as (w1 & w2 & kept & H1 & H2 & _ & Hd & _).
  exists w1, w2. split; [exact H1|]. split; [exact H2|exact Hd].
Defined.

Lemma snapshot_survives_purge_witness :
  exists w1 w2,
    save_token_volumes sample
      (world_of stocked [rate_limited None; ok (detail (usd (num 7))); Fails] day40)
      = Some (Ret (VStr "Token volume data saved."), w1) /\
    delete_old_data sample w1 = Some (Ret VNone, w2) /\
    option_map (map (fun row => (rowid row, token_id row, total_volume row, date row)))
               (token_volumes (db w2)) =
      Some [(2, SText "bitcoin", SNum (Int 0), SText "1970-01-20");
            (3, SText "bitcoin", SNum (Int 0), SText "1970-02-09");
            (4, SText "bitcoin", SNum (Int 5), SText "1970-02-10");
            (5, SText "bitcoin", SNum (Int 7), SText "1970-02-10");
            (6, SText "ethereum", SNull, SText "1970-02-10")].
Proof.
  destruct (snapshot_survives_purge sample
              (world_of stocked [rate_limited None; ok (detail (usd (num 7))); Fails] day40)
              [bitcoin_row; ethereum_row]
              [[rate_limited None; ok (detail (usd (num 7)))]; [Fails]] [num 7; VNone] []
              [volume_on 1 "bitcoin" 18 4; volume_on 2 "bitcoin" 19 0;
               volume_on 3 "bitcoin" 39 0; volume_on 4 "bitcoin" 40 5]
              eq_refl ltac:(discriminate) eq_refl eq_refl eq_refl eq_refl eq_refl eq_refl
              eq_refl (fun _ _ _ _ _ _ _ => eq_refl)
              ltac:(vm_compute; discriminate) ltac:(vm_compute; discriminate)
              ltac:(vm_compute; discriminate))
    as (w1 & w2 & extra & kept & H1 & H2 & _).
  exists w1, w2. split; [exact H1|]. split; [exact H2|].
  vm_compute in H1. injection H1 as <-.
  vm_compute in H2. injection H2 as <-. reflexivity.
Defined.

Lemma check_and_update_needs_the_table_witness :
  exists w',
    check_and_update_token_list sample (world_of blank [ok listing] day40)
      = Some (Raise OperationalError, w') /\
    db w' = blank.
Proof.
  destruct (check_and_update_needs_the_table sample (world_of blank [ok listing] day40)
              {| status_code := 200; retry_after_header := None; json := listing |} []
              eq_refl eq_refl eq_refl)
    as (w' & Hrun & Hd & _).
  exists w'. split; [exact Hrun|exact Hd].
Defined.

Lemma fetch_stops_on_bad_retry_after_witness :
  (exists w',
     fetch_token_volume sample (VStr "bitcoin")
       (world_of blank [rate_limited (Some "Wed, 21 Oct 2015 07:28:00 GMT"); ok listing] day40)
       = Some (Raise ValueError, w') /\
     pending w' = [ok listing] /\ clock w' = day40) /\
  (exists w',
     fetch_token_volume sample (VStr "bitcoin")
       (world_of blank [rate_limited (Some "-10000000000"); ok listing] day40)
       = Some (Raise OverflowError, w') /\
     pending w' = [ok listing] /\ clock w' = day40).
Proof.
  split.
  - destruct (fetch_stops_on_bad_retry_after sample (VStr "usd") (num 250) (num 1)
                (VStr "bitcoin")
                (world_of blank
                   [rate_limited (Some "Wed, 21 Oct 2015 07:28:00 GMT"); ok listing] day40)
                {| status_code := 429;
                   retry_after_header := Some "Wed, 21 Oct 2015 07:28:00 GMT";
                   json := VDict [] |}
                [ok listing] eq_refl eq_refl (or_introl eq_refl))
      as (e & He & _ & w' & Hrun & Hp & Hk & _).
    vm_compute in He. subst e.
    exists w'. split; [exact Hrun|]. split; [exact Hp|exact Hk].
  - destruct (fetch_stops_on_bad_retry_after sample (VStr "usd") (num 250) (num 1)
                (VStr "bitcoin")
                (world_of blank [rate_limited (Some "-10000000000"); ok listing] day40)
                {| status_code := 429; retry_after_header := Some "-10000000000";
                   json := VDict [] |}
                [ok listing] eq_refl eq_refl (or_introl eq_refl))
      as (e & He & _ & w' & Hrun & Hp & Hk & _).
    vm_compute in He. subst e.
    exists w'. split; [exact Hrun|]. split; [exact Hp|exact Hk].
Defined.
